(** * QUEENS: the Bayesian multi-fidelity Monte-Carlo core

    A shallow embedding of [pqueens/models/bmfmc_model.py] and
    [pqueens/iterators/bmfia_iterator.py], and the properties of the
    multi-fidelity pipeline that are proved on it.

    Numbers.  The Python code computes with IEEE binary64 numbers through
    numpy and scipy.  The embedding idealises them as the real numbers of
    the Standard Library: every arithmetic operation is exact, and rounding
    and overflow are not represented.  An operation whose numpy result is
    [inf] or [nan] (a division by zero, the density of a Gaussian with a
    non-positive scale) has no real value; the embedding then stops with the
    outcome [NotReal] instead of inventing one.  Where a property depends
    on the rounding, as the one of the affine rescaling does, the code is
    embedded a second time over the binary64 numbers of the kernel, in the
    module [Binary64].

    Objects.  Python attributes that may hold [None] are [option]s, and a
    method of a class is a function from the object's state to an outcome
    and the state it leaves behind, since an exception does not undo the
    assignments made before it.  The methods of the input-dimension
    reduction assign nothing; they are functions of the attributes that
    they read. *)

From Stdlib Require Import PrimFloat.
From Stdlib Require Import String ZArith Bool DecimalString DecimalZ
  DecimalPos.
From Stdlib Require Import Reals Lra Lia List.
Import ListNotations.
Open Scope R_scope.

Set Implicit Arguments.
Set Warnings "-register-all".

(** ** Outcomes *)

(** The exceptions of Python and numpy that the embedded code can raise. *)
Inductive exn : Type :=
| ValueError
| NotImplementedError
| RuntimeError
| IOError
| IndexError
| AttributeError
| TypeError
| KeyError
| ZeroDivisionError.

(** The outcome of a computation: a value, a raised exception, or a
    numpy result that is not a real number. *)
Inductive result (A : Type) : Type :=
| Ok (a : A)
| Raise (e : exn)
| NotReal.

Arguments Raise {A} e.
Arguments NotReal {A}.

Definition bind {A B : Type} (c : result A) (k : A -> result B) : result B :=
  match c with
  | Ok a => k a
  | Raise e => Raise e
  | NotReal => NotReal
  end.

Notation "x <- c ;; k" := (bind c (fun x => k))
  (at level 61, c at next level, right associativity).

Definition of_option {A : Type} (e : exn) (o : option A) : result A :=
  match o with
  | Some a => Ok a
  | None => Raise e
  end.

(** [[f x for x in l]] where [f] may fail: the first failure ends the loop. *)
Fixpoint map_result {A B : Type} (f : A -> result B) (l : list A)
  : result (list B) :=
  match l with
  | [] => Ok []
  | x :: tl => y <- f x ;; ys <- map_result f tl ;; Ok (y :: ys)
  end.

(** ** numpy on vectors and matrices *)

(** A two-dimensional array: its rows, and the number of columns, which
    numpy knows even when there is no row. *)
Record matrix : Type := Mat {
  ncols : nat;
  rows : list (list R)
}.

Definition nrows (m : matrix) : nat := length (rows m).

Definition wf_matrix (m : matrix) : Prop :=
  Forall (fun r => length r = ncols m) (rows m).

(** [m.ravel()]: the entries in row-major order. *)
Definition ravel (m : matrix) : list R := concat (rows m).

(** [np.min] and [np.max] of a flat array raise [ValueError] when it is
    empty. *)
Definition np_min (l : list R) : result R :=
  match l with
  | [] => Raise ValueError
  | x :: tl => Ok (fold_left Rmin tl x)
  end.

Definition np_max (l : list R) : result R :=
  match l with
  | [] => Raise ValueError
  | x :: tl => Ok (fold_left Rmax tl x)
  end.

(** [x / y] on numpy floats: a zero divisor gives [inf] or [nan] (with a
    warning, not an exception). *)
Definition np_divide (x y : R) : result R :=
  if Req_dec_T y 0 then NotReal else Ok (x / y).

(** ** The private helper [_linear_scale_a_to_b] *)

(** [scaled_a = min_b + (data_a - np.min(data_a)) *
                ((max_b - min_b) / (np.max(data_a) - np.min(data_a)))].
    When the two extrema of [data_a] coincide the quotient is [inf] or
    [nan] and every entry of the product with [data_a - min_a = 0] is
    [nan]. *)
Definition _linear_scale_a_to_b (data_a data_b : matrix) : result matrix :=
  min_b <- np_min (ravel data_b) ;;
  max_b <- np_max (ravel data_b) ;;
  min_a <- np_min (ravel data_a) ;;
  max_a <- np_max (ravel data_a) ;;
  ratio <- np_divide (max_b - min_b) (max_a - min_a) ;;
  Ok (Mat (ncols data_a)
          (map (map (fun x => min_b + (x - min_a) * ratio)) (rows data_a))).

(** ** The helper in binary64 *)

(** The entries of a numpy array of [float64] are IEEE 754 binary64
    numbers, and every operation on them rounds to the nearest number, ties
    to even: the primitive floats of the kernel.  An array is the list of
    its rows.  [np.min] and [np.max] of an empty array raise [ValueError],
    and return [nan] when an entry is [nan]; a division by zero yields
    [inf] or [nan] and no exception. *)
Module Binary64.

Definition minimum (x y : float) : float :=
  if PrimFloat.is_nan x then x
  else if PrimFloat.is_nan y then y
  else if PrimFloat.ltb y x then y else x.

Definition maximum (x y : float) : float :=
  if PrimFloat.is_nan x then x
  else if PrimFloat.is_nan y then y
  else if PrimFloat.ltb x y then y else x.

Definition np_min (l : list float) : result float :=
  match l with
  | [] => Raise ValueError
  | x :: tl => Ok (fold_left minimum tl x)
  end.

Definition np_max (l : list float) : result float :=
  match l with
  | [] => Raise ValueError
  | x :: tl => Ok (fold_left maximum tl x)
  end.

(** [scaled_a = min_b + (data_a - np.min(data_a)) *
                ((max_b - min_b) / (np.max(data_a) - np.min(data_a)))],
    with the operations and the parentheses of the source. *)
Definition _linear_scale_a_to_b (data_a data_b : list (list float))
  : result (list (list float)) :=
  min_b <- np_min (concat data_b) ;;
  max_b <- np_max (concat data_b) ;;
  min_a <- np_min (concat data_a) ;;
  max_a <- np_max (concat data_a) ;;
  Ok (map (map (fun x =>
                  (min_b
                   + (x - min_a) * ((max_b - min_b) / (max_a - min_a)))%float))
          data_a).

End Binary64.

(** ** numpy and scipy functions of the posterior statistics *)

(** [np.sqrt]: [nan] below zero. *)
Definition np_sqrt (x : R) : result R :=
  if Rle_dec 0 x then Ok (sqrt x) else NotReal.

(** Broadcasting of two column arrays of shapes [(n, 1)] and [(n', 1)]:
    equal lengths pair up, a single entry is repeated, anything else is a
    shape error. *)
Definition broadcast_cols (a b : list R) : result (list (R * R)) :=
  if Nat.eqb (length a) (length b) then Ok (combine a b)
  else match a, b with
       | [x], _ => Ok (map (fun y => (x, y)) b)
       | _, [y] => Ok (map (fun x => (x, y)) a)
       | _, _ => Raise ValueError
       end.

(** [scipy.stats.norm.pdf(x, loc, scale)]: the density of the normal
    distribution with mean [loc] and standard deviation [scale], [nan]
    unless the scale is positive. *)
Definition gaussian_density (x loc scale : R) : R :=
  exp (- ((x - loc) / scale) ^ 2 / 2) / sqrt (2 * PI) / scale.

Definition norm_pdf (x loc scale : R) : result R :=
  if Rlt_dec 0 scale then Ok (gaussian_density x loc scale) else NotReal.

(** The sum of a list of numbers. *)
Definition Rsum (l : list R) : R := fold_right Rplus 0 l.

Definition zeros (n : nat) : list R := repeat 0 n.

(** Entrywise sum of two flat arrays of one length. *)
Definition vec_add (a b : list R) : list R :=
  map (fun p => fst p + snd p) (combine a b).

(** [np.sum(mat, axis=0)] for a matrix of [n] columns given by its rows. *)
Definition sum_axis0 (n : nat) (mat : list (list R)) : list R :=
  fold_left vec_add mat (zeros n).

(** [m[i, j]] for indices that are not negative. *)
Definition mat_get (m : matrix) (i j : nat) : result R :=
  row <- of_option IndexError (nth_error (rows m) i) ;;
  of_option IndexError (nth_error row j).

(** [enumerate(l)]. *)
Definition enumerate {A : Type} (l : list A) : list (nat * A) :=
  combine (seq 0 (length l)) l.

(** A loop whose body may fail, threading the loop state. *)
Fixpoint fold_result {A S : Type} (f : S -> A -> result S) (l : list A) (s : S)
  : result S :=
  match l with
  | [] => Ok s
  | x :: tl => s' <- f s x ;; fold_result f tl s'
  end.

(** ** The posterior mean density: [_calculate_p_yhf_mean] *)

(** The body of [BMFMCModel._calculate_p_yhf_mean] on the values of
    [self.y_pdf_support] (shape [(S,)]), [self.m_f_mc] and [self.var_y_mc]
    (shape [(N, 1)]): [pdf_mat] has one row per Monte-Carlo sample and one
    column per support point, and [self.m_f_mc.size] is a Python integer,
    so that [1 / 0] raises. *)
Definition p_yhf_mean_of (y_pdf_support m_f_mc var_y_mc : list R)
  : result (list R) :=
  params <- broadcast_cols m_f_mc var_y_mc ;;
  pdf_mat <- map_result
               (fun p => standard_deviation <- np_sqrt (snd p) ;;
                         map_result
                           (fun s => norm_pdf s (fst p) standard_deviation)
                           y_pdf_support)
               params ;;
  let pyhf_mean_vec := sum_axis0 (length y_pdf_support) pdf_mat in
  match length m_f_mc with
  | O => Raise ZeroDivisionError
  | S _ => Ok (map (fun x => 1 / INR (length m_f_mc) * x) pyhf_mean_vec)
  end.

(** ** The posterior variance: [_calculate_p_yhf_var] *)

(** One pass of the inner loop body for one support point [s]: the
    contribution [np.exp(args)] of the pair with means [mean1], [mean2],
    variances [var1], [var2] and the entry [covariance] read from
    [k_post]. *)
Definition pair_density (mean1 var1 mean2 var2 covariance s : R) : result R :=
  let det_sigma := var1 * var2 - covariance ^ 2 in
  let clamp := if Rlt_dec det_sigma 0 then true else false in
  let det_sigma := if clamp then 1e-6 else det_sigma in
  let covariance := if clamp then 0.95 * covariance else covariance in
  inv_det <- np_divide 1 det_sigma ;;
  let i11 := inv_det * var2 in
  let i12 := inv_det * - covariance in
  let i21 := inv_det * - covariance in
  let i22 := inv_det * var1 in
  let d1 := s - mean1 in
  let d2 := s - mean2 in
  let a1 := d1 * i11 + d2 * i21 in
  let a2 := d1 * i12 + d2 * i22 in
  let b := a1 * d1 + a2 * d2 in
  let c := sqrt (4 * PI ^ 2 * det_sigma) in
  inv_c <- np_divide 1 c ;;
  let args := - 0.5 * b + ln inv_c in
  let args := if Rlt_dec 40 args then 40 else args in
  Ok (exp args).

(** ** numpy indexing and linear algebra *)

Definition Req_bool (x y : R) : bool :=
  if Req_dec_T x y then true else false.

(** A Python index into an axis of length [n]: negative indices count
    from the end, anything outside [-n .. n - 1] is an [IndexError]. *)
Definition py_index (n : nat) (i : Z) : result nat :=
  if ((0 <=? i) && (i <? Z.of_nat n))%Z then Ok (Z.to_nat i)
  else if ((- Z.of_nat n <=? i) && (i <? 0))%Z
       then Ok (Z.to_nat (Z.of_nat n + i))
       else Raise IndexError.

(** [m.T]. *)
Definition transpose (m : matrix) : matrix :=
  Mat (nrows m)
      (map (fun j => map (fun r => nth j r 0) (rows m)) (seq 0 (ncols m))).

(** [m[:, idx_vec]] for a list of column indices. *)
Definition take_cols (m : matrix) (idx_vec : list Z) : result matrix :=
  cols <- map_result (py_index (ncols m)) idx_vec ;;
  Ok (Mat (length idx_vec)
          (map (fun r => map (fun j => nth j r 0) cols) (rows m))).

(** [m[indices, :]] for a list of row indices. *)
Definition take_rows (m : matrix) (indices : list Z) : result matrix :=
  ixs <- map_result (py_index (nrows m)) indices ;;
  Ok (Mat (ncols m) (map (fun i => nth i (rows m) []) ixs)).

(** [m[:, 0:k]]: a slice never fails; a negative bound counts from the
    end. *)
Definition slice_cols (m : matrix) (k : Z) : matrix :=
  let stop := if (k <? 0)%Z then Z.to_nat (Z.of_nat (ncols m) + k)
              else Nat.min (Z.to_nat k) (ncols m) in
  Mat stop (map (firstn stop) (rows m)).

(** [np.hstack([a, b])] of two-dimensional arrays: the numbers of rows
    must agree. *)
Definition hstack (a b : matrix) : result matrix :=
  if Nat.eqb (nrows a) (nrows b)
  then Ok (Mat (ncols a + ncols b)
               (map (fun p => fst p ++ snd p) (combine (rows a) (rows b))))
  else Raise ValueError.

(** [np.hstack] when an operand may be [None]: [None] becomes a
    one-dimensional object array that cannot be joined to a matrix. *)
Definition hstack_opt (a : option matrix) (b : matrix) : result matrix :=
  match a with
  | Some a => hstack a b
  | None => Raise ValueError
  end.

(** [np.dot(a, b)] of two-dimensional arrays. *)
Definition np_dot (a b : matrix) : result matrix :=
  if Nat.eqb (ncols a) (nrows b)
  then Ok (Mat (ncols b)
               (map (fun r =>
                       map (fun c => Rsum (map (fun p => fst p * snd p)
                                               (combine r c)))
                           (rows (transpose b)))
                    (rows a)))
  else Raise ValueError.

Definition mat_map (f : R -> R) (m : matrix) : matrix :=
  Mat (ncols m) (map (map f) (rows m)).

(** [np.mean] of a flat array: [nan] when it is empty. *)
Definition np_mean (l : list R) : result R :=
  match l with
  | [] => NotReal
  | _ => Ok (Rsum l / INR (length l))
  end.

(** [sklearn.preprocessing.StandardScaler]: the fitted [mean_] and
    [scale_] of every column.  A column without spread keeps the scale 1.
    Fitting needs at least one sample and one feature. *)
Record scaler : Type := Scaler {
  mean_ : list R;
  scale_ : list R
}.

Definition scaler_fit (x : matrix) : result scaler :=
  match rows x, ncols x with
  | [], _ => Raise ValueError
  | _, O => Raise ValueError
  | _, _ =>
      let cols := rows (transpose x) in
      let n := INR (nrows x) in
      let mean := map (fun c => Rsum c / n) cols in
      let var := map (fun c => Rsum (map (fun v => (v - Rsum c / n) ^ 2) c) / n)
                     cols in
      Ok (Scaler mean
                 (map (fun v => if Req_bool v 0 then 1 else sqrt v) var))
  end.

Definition scaler_transform (sc : scaler) (x : matrix) : matrix :=
  Mat (ncols x)
      (map (fun r => map (fun p => (fst p - fst (snd p)) / snd (snd p))
                         (combine r (combine (mean_ sc) (scale_ sc))))
           (rows x)).

(** [StandardScaler().fit_transform(x)]; [None] is not a two-dimensional
    array. *)
Definition fit_transform (x : option matrix) : result (scaler * matrix) :=
  match x with
  | None => Raise ValueError
  | Some x => sc <- scaler_fit x ;; Ok (sc, scaler_transform sc x)
  end.

(** ** Methods *)

(** A method of an object with state [S]: the outcome and the state
    the call leaves behind. *)
Definition method (S A : Type) : Type := S -> result A * S.

Definition mret {S A : Type} (a : A) : method S A := fun s => (Ok a, s).

Definition mbind {S A B : Type} (c : method S A) (k : A -> method S B)
  : method S B :=
  fun s => match c s with
           | (Ok a, s') => k a s'
           | (Raise e, s') => (Raise e, s')
           | (NotReal, s') => (NotReal, s')
           end.

Definition lift {S A : Type} (r : result A) : method S A := fun s => (r, s).

Definition raise {S A : Type} (e : exn) : method S A := lift (Raise e).

Definition gets {S A : Type} (f : S -> A) : method S A := fun s => (Ok (f s), s).

Definition modify {S : Type} (f : S -> S) : method S unit :=
  fun s => (Ok tt, f s).

(** Reading an attribute that must not be [None]. *)
Definition require {S A : Type} (e : exn) (f : S -> option A) : method S A :=
  fun s => (of_option e (f s), s).

Notation "x <~ c ;; k" := (mbind c (fun x => k))
  (at level 61, c at next level, right associativity).
Notation "c ;;; k" := (mbind c (fun _ => k))
  (at level 61, right associativity).

(** A [for] loop over [l] with the local variables [b]. *)
Fixpoint mfold {S A B : Type} (f : B -> A -> method S B) (l : list A) (b : B)
  : method S B :=
  match l with
  | [] => mret b
  | x :: tl => b' <~ f b x ;; mfold f tl b'
  end.

(** Modelled from the spec: the model classes are not among the sources.
    A simulation model is consumed through
    [update_model_from_sample_batch(X)] followed by [evaluate()], which
    returns a dictionary with the array ['mean']; the model is the function
    from the sample batch to the entries of that array in row-major
    order. *)
Definition simulation_model : Type := option matrix -> result (list R).

(** A Python dictionary with string keys, in insertion order. *)
Fixpoint dict_update {V : Type} (d : list (string * V)) (k : string) (v : V)
  : list (string * V) :=
  match d with
  | [] => [(k, v)]
  | (k', v') :: tl =>
      if String.eqb k' k then (k', v) :: tl else (k', v') :: dict_update tl k v
  end.

(** ["{}".format(n)] for an integer. *)
Definition format_int (n : Z) : string :=
  NilZero.string_of_int (Z.to_int n).

(** ** Error measures *)

(** [y_act - y_pred] for a matrix [y_act] and a column [y_pred], with the
    broadcasting of numpy. *)
Definition sub_col (y_act : matrix) (y_pred : list R) : result matrix :=
  if Nat.eqb (nrows y_act) (length y_pred)
  then Ok (Mat (ncols y_act)
               (map (fun p => map (fun x => x - snd p) (fst p))
                    (combine (rows y_act) y_pred)))
  else match rows y_act, y_pred with
       | _, [y] => Ok (mat_map (fun x => x - y) y_act)
       | [r], _ => Ok (Mat (ncols y_act)
                           (map (fun y => map (fun x => x - y) r) y_pred))
       | _, _ => Raise ValueError
       end.

(** [compute_error(y_act, y_pred, measure)]. *)
Definition compute_error (y_act : option matrix) (y_pred : list R)
    (measure : string) : result R :=
  let diff := match y_act with
              | None => Raise TypeError
              | Some y_act => d <- sub_col y_act y_pred ;; Ok (ravel d)
              end in
  if String.eqb measure "sum_squared" then
    d <- diff ;; Ok (Rsum (map (fun x => x ^ 2) d))
  else if String.eqb measure "mean_squared" then
    d <- diff ;; np_mean (map (fun x => x ^ 2) d)
  else if String.eqb measure "root_mean_squared" then
    d <- diff ;; m <- np_mean (map (fun x => x ^ 2) d) ;; np_sqrt m
  else if String.eqb measure "sum_abs" then
    d <- diff ;; Ok (Rsum (map Rabs d))
  else if String.eqb measure "mean_abs" then
    d <- diff ;; np_mean (map Rabs d)
  else if String.eqb measure "abs_max" then
    d <- diff ;; np_max (map Rabs d)
  else Raise NotImplementedError.

(** [compute_error_measures(y_act, y_pred, measures)]. *)
Definition compute_error_measures (y_act : option matrix) (y_pred : list R)
    (measures : list string) : result (list (string * R)) :=
  fold_result
    (fun error_measures measure =>
       e <- compute_error y_act y_pred measure ;;
       Ok (dict_update error_measures measure e))
    measures [].

(** ** The class [BMFMCModel] *)

Module BMFMCModel.

(** [self.settings_probab_mapping]: the keys of the dictionary that the
    class reads; a key that is absent is [None]. *)
Record settings : Type := Settings {
  features_config : option string;
  num_features : option Z;
  X_cols : option (list Z)
}.

(** Modelled from the spec: the class [BmfmcInterface] of
    [pqueens/interfaces/bmfmc_interface.py] is not among the sources.  The
    probabilistic mapping is an object that exposes a build step, a
    prediction of mean and variance with an optional full covariance, and
    a cross-validation; [is_initiliazed] tells whether it has been built.
    [interface_map] stands for [map(Z.T)], [interface_map_full_cov] for
    [map(Z.T, support='f', full_cov=True)], and the build step returns the
    interface it leaves behind.  Means and variances are column arrays of
    shape [(N, 1)], given by their entries. *)
Inductive BmfmcInterface : Type := Interface {
  is_initiliazed : bool;
  interface_map : matrix -> result (list R * list R);
  interface_map_full_cov : matrix -> result (list R * matrix);
  cross_validate : option matrix -> option matrix -> Z -> result (list R);
  interface_build_approximation :
    option matrix -> option matrix -> result BmfmcInterface
}.

(** Modelled from the spec: the body of [BmfmcInterface.map] is not among
    the sources.  By the contract of the probabilistic mapping, [predict]
    on a mapping that has not been built fails with a state error; the
    state error is the [RuntimeError] that [eval_surrogate_accuracy_cv]
    raises on the same condition.  An interface keeps the contract when,
    as long as it is not built, its prediction fails with this error for
    every query, with and without the full covariance. *)
Definition predict_needs_build (itf : BmfmcInterface) : Prop :=
  is_initiliazed itf = false ->
  forall Z_query : matrix,
    interface_map itf Z_query = Raise RuntimeError /\
    interface_map_full_cov itf Z_query = Raise RuntimeError.

(** The attributes of a [BMFMCModel] that the embedded methods read or
    write.  [training_indices] is written by the iterator before the model
    is evaluated; [variables] is the class attribute [Model.variables],
    kept as the dictionary of random variables it is built from. *)
Record self : Type := Self {
  interface : option BmfmcInterface;
  settings_probab_mapping : settings;
  subordinate_model : option simulation_model;
  eval_fit : string;
  error_measures : list string;
  X_train : option matrix;
  Y_HF_train : option matrix;
  Y_LFs_train : option matrix;
  X_mc : option matrix;
  Y_LFs_mc : option matrix;
  Y_HF_mc : option (list R);
  active_learning : bool;
  gammas_ext_mc : option matrix;
  gammas_ext_train : option matrix;
  Z_train : option matrix;
  Z_mc : option matrix;
  m_f_mc : option (list R);
  var_y_mc : option (list R);
  y_pdf_support : list R;
  p_yhf_mean : option (list R);
  p_yhf_var : option (list R);
  predictive_var_bool : bool;
  f_mean_train : option (list R);
  training_indices : list Z;
  variables : option (list (string * list R))
}.

(** Assignments [self.attribute = v]. *)
Definition set_interface (v : option BmfmcInterface) (s : self) : self :=
  Self v (settings_probab_mapping s) (subordinate_model s) (eval_fit s)
    (error_measures s) (X_train s) (Y_HF_train s) (Y_LFs_train s) (X_mc s)
    (Y_LFs_mc s) (Y_HF_mc s) (active_learning s) (gammas_ext_mc s)
    (gammas_ext_train s) (Z_train s) (Z_mc s) (m_f_mc s) (var_y_mc s)
    (y_pdf_support s) (p_yhf_mean s) (p_yhf_var s) (predictive_var_bool s)
    (f_mean_train s) (training_indices s) (variables s).

Definition set_Y_HF_train (v : option matrix) (s : self) : self :=
  Self (interface s) (settings_probab_mapping s) (subordinate_model s)
    (eval_fit s) (error_measures s) (X_train s) v (Y_LFs_train s) (X_mc s)
    (Y_LFs_mc s) (Y_HF_mc s) (active_learning s) (gammas_ext_mc s)
    (gammas_ext_train s) (Z_train s) (Z_mc s) (m_f_mc s) (var_y_mc s)
    (y_pdf_support s) (p_yhf_mean s) (p_yhf_var s) (predictive_var_bool s)
    (f_mean_train s) (training_indices s) (variables s).

Definition set_gammas_ext_mc (v : option matrix) (s : self) : self :=
  Self (interface s) (settings_probab_mapping s) (subordinate_model s)
    (eval_fit s) (error_measures s) (X_train s) (Y_HF_train s) (Y_LFs_train s)
    (X_mc s) (Y_LFs_mc s) (Y_HF_mc s) (active_learning s) v
    (gammas_ext_train s) (Z_train s) (Z_mc s) (m_f_mc s) (var_y_mc s)
    (y_pdf_support s) (p_yhf_mean s) (p_yhf_var s) (predictive_var_bool s)
    (f_mean_train s) (training_indices s) (variables s).

Definition set_gammas_ext_train (v : option matrix) (s : self) : self :=
  Self (interface s) (settings_probab_mapping s) (subordinate_model s)
    (eval_fit s) (error_measures s) (X_train s) (Y_HF_train s) (Y_LFs_train s)
    (X_mc s) (Y_LFs_mc s) (Y_HF_mc s) (active_learning s) (gammas_ext_mc s) v
    (Z_train s) (Z_mc s) (m_f_mc s) (var_y_mc s) (y_pdf_support s)
    (p_yhf_mean s) (p_yhf_var s) (predictive_var_bool s) (f_mean_train s)
    (training_indices s) (variables s).

Definition set_Z_train (v : option matrix) (s : self) : self :=
  Self (interface s) (settings_probab_mapping s) (subordinate_model s)
    (eval_fit s) (error_measures s) (X_train s) (Y_HF_train s) (Y_LFs_train s)
    (X_mc s) (Y_LFs_mc s) (Y_HF_mc s) (active_learning s) (gammas_ext_mc s)
    (gammas_ext_train s) v (Z_mc s) (m_f_mc s) (var_y_mc s) (y_pdf_support s)
    (p_yhf_mean s) (p_yhf_var s) (predictive_var_bool s) (f_mean_train s)
    (training_indices s) (variables s).

Definition set_Z_mc (v : option matrix) (s : self) : self :=
  Self (interface s) (settings_probab_mapping s) (subordinate_model s)
    (eval_fit s) (error_measures s) (X_train s) (Y_HF_train s) (Y_LFs_train s)
    (X_mc s) (Y_LFs_mc s) (Y_HF_mc s) (active_learning s) (gammas_ext_mc s)
    (gammas_ext_train s) (Z_train s) v (m_f_mc s) (var_y_mc s)
    (y_pdf_support s) (p_yhf_mean s) (p_yhf_var s) (predictive_var_bool s)
    (f_mean_train s) (training_indices s) (variables s).

Definition set_m_f_mc (v : option (list R)) (s : self) : self :=
  Self (interface s) (settings_probab_mapping s) (subordinate_model s)
    (eval_fit s) (error_measures s) (X_train s) (Y_HF_train s) (Y_LFs_train s)
    (X_mc s) (Y_LFs_mc s) (Y_HF_mc s) (active_learning s) (gammas_ext_mc s)
    (gammas_ext_train s) (Z_train s) (Z_mc s) v (var_y_mc s) (y_pdf_support s)
    (p_yhf_mean s) (p_yhf_var s) (predictive_var_bool s) (f_mean_train s)
    (training_indices s) (variables s).

Definition set_var_y_mc (v : option (list R)) (s : self) : self :=
  Self (interface s) (settings_probab_mapping s) (subordinate_model s)
    (eval_fit s) (error_measures s) (X_train s) (Y_HF_train s) (Y_LFs_train s)
    (X_mc s) (Y_LFs_mc s) (Y_HF_mc s) (active_learning s) (gammas_ext_mc s)
    (gammas_ext_train s) (Z_train s) (Z_mc s) (m_f_mc s) v (y_pdf_support s)
    (p_yhf_mean s) (p_yhf_var s) (predictive_var_bool s) (f_mean_train s)
    (training_indices s) (variables s).

Definition set_p_yhf_mean (v : option (list R)) (s : self) : self :=
  Self (interface s) (settings_probab_mapping s) (subordinate_model s)
    (eval_fit s) (error_measures s) (X_train s) (Y_HF_train s) (Y_LFs_train s)
    (X_mc s) (Y_LFs_mc s) (Y_HF_mc s) (active_learning s) (gammas_ext_mc s)
    (gammas_ext_train s) (Z_train s) (Z_mc s) (m_f_mc s) (var_y_mc s)
    (y_pdf_support s) v (p_yhf_var s) (predictive_var_bool s) (f_mean_train s)
    (training_indices s) (variables s).

Definition set_p_yhf_var (v : option (list R)) (s : self) : self :=
  Self (interface s) (settings_probab_mapping s) (subordinate_model s)
    (eval_fit s) (error_measures s) (X_train s) (Y_HF_train s) (Y_LFs_train s)
    (X_mc s) (Y_LFs_mc s) (Y_HF_mc s) (active_learning s) (gammas_ext_mc s)
    (gammas_ext_train s) (Z_train s) (Z_mc s) (m_f_mc s) (var_y_mc s)
    (y_pdf_support s) (p_yhf_mean s) v (predictive_var_bool s)
    (f_mean_train s) (training_indices s) (variables s).

Definition set_f_mean_train (v : option (list R)) (s : self) : self :=
  Self (interface s) (settings_probab_mapping s) (subordinate_model s)
    (eval_fit s) (error_measures s) (X_train s) (Y_HF_train s) (Y_LFs_train s)
    (X_mc s) (Y_LFs_mc s) (Y_HF_mc s) (active_learning s) (gammas_ext_mc s)
    (gammas_ext_train s) (Z_train s) (Z_mc s) (m_f_mc s) (var_y_mc s)
    (y_pdf_support s) (p_yhf_mean s) (p_yhf_var s) (predictive_var_bool s) v
    (training_indices s) (variables s).

Definition set_variables (v : option (list (string * list R))) (s : self) : self :=
  Self (interface s) (settings_probab_mapping s) (subordinate_model s)
    (eval_fit s) (error_measures s) (X_train s) (Y_HF_train s) (Y_LFs_train s)
    (X_mc s) (Y_LFs_mc s) (Y_HF_mc s) (active_learning s) (gammas_ext_mc s)
    (gammas_ext_train s) (Z_train s) (Z_mc s) (m_f_mc s) (var_y_mc s)
    (y_pdf_support s) (p_yhf_mean s) (p_yhf_var s) (predictive_var_bool s)
    (f_mean_train s) (training_indices s) v.

(** *** [get_hf_training_data] *)

Fixpoint index_of_true (mask : list bool) : option nat :=
  match mask with
  | [] => None
  | true :: _ => Some O
  | false :: tl => option_map S (index_of_true tl)
  end.

(** [np.all(X_mc == row, axis=1)]: the comparison broadcasts a row of the
    same width, a row of one entry, or a one-column [X_mc]; other shapes do
    not compare.  Against [None] the comparison is one-dimensional and
    [axis=1] is out of bounds, an [AxisError], which is a [ValueError]. *)
Definition rows_equal (X_mc : option matrix) (row : list R)
  : result (list bool) :=
  match X_mc with
  | None => Raise ValueError
  | Some X_mc =>
      if Nat.eqb (ncols X_mc) (length row)
      then Ok (map (fun r => forallb (fun p => Req_bool (fst p) (snd p))
                                     (combine r row))
                   (rows X_mc))
      else match row with
           | [x] => Ok (map (forallb (fun y => Req_bool y x)) (rows X_mc))
           | _ => if Nat.eqb (ncols X_mc) 1
                  then Ok (map (fun r => forallb (Req_bool (nth 0 r 0)) row)
                               (rows X_mc))
                  else Raise ValueError
           end
  end.

(** [np.where(np.all(X_mc == row, axis=1))[0][0]]. *)
Definition first_match (X_mc : option matrix) (row : list R) : result nat :=
  mask <- rows_equal X_mc row ;;
  of_option IndexError (index_of_true mask).

Definition get_hf_training_data : method self unit :=
  X_train <~ gets X_train ;;
  match X_train with
  | None => raise ValueError
  | Some X_train =>
      Y_HF_mc <~ gets Y_HF_mc ;;
      match Y_HF_mc with
      | Some Y_HF_mc =>
          X_mc <~ gets X_mc ;;
          index_rows <~ lift (match ncols X_train with
                              | O => Raise IndexError
                              | S _ => map_result (first_match X_mc)
                                                  (rows X_train)
                              end) ;;
          ys <~ lift (map_result
                        (fun index => of_option IndexError
                                                (nth_error Y_HF_mc index))
                        index_rows) ;;
          modify (set_Y_HF_train (Some (Mat 1 (map (fun y => [y]) ys))))
      | None => raise NotImplementedError
      end
  end.

(** *** [update_model_variables] *)

Definition update_model_variables (Y_LFs_train Z_mc : option matrix)
  : method self unit :=
  match Y_LFs_train with
  | None => raise AttributeError
  | Some Y_LFs_train =>
      let num_lfs := Z.of_nat (ncols Y_LFs_train) in
      match Z_mc with
      | None => raise AttributeError
      | Some Z_mc =>
          let random_variables :=
            fold_left
              (fun d cv =>
                 let counter := Z.of_nat (fst cv) in
                 let key :=
                   if (counter <? num_lfs - 1)%Z
                   then String.append "LF" (format_int counter)
                   else String.append "Feat"
                                      (format_int (counter - num_lfs - 1)) in
                 dict_update d key (snd cv))
              (enumerate (rows (transpose Z_mc))) [] in
          modify (set_variables (Some random_variables))
      end
  end.

(** *** [update_probabilistic_mapping_with_features] *)

Definition update_probabilistic_mapping_with_features : method self unit :=
  k <~ require KeyError (fun s => num_features (settings_probab_mapping s)) ;;
  gammas <~ require TypeError gammas_ext_mc ;;
  let gamma_mc := slice_cols gammas k in
  Y_LFs_mc <~ gets Y_LFs_mc ;;
  Z_mc <~ lift (hstack_opt Y_LFs_mc gamma_mc) ;;
  modify (set_Z_mc (Some Z_mc)) ;;;
  indices <~ gets training_indices ;;
  Z_train <~ lift (take_rows Z_mc indices) ;;
  modify (set_Z_train (Some Z_train)) ;;;
  itf <~ require AttributeError interface ;;
  Y_HF_train <~ gets Y_HF_train ;;
  itf <~ lift (interface_build_approximation itf (Some Z_train) Y_HF_train) ;;
  modify (set_interface (Some itf)) ;;;
  mv <~ lift (interface_map itf (transpose Z_mc)) ;;
  modify (set_m_f_mc (Some (fst mv))) ;;;
  modify (set_var_y_mc (Some (snd mv))) ;;;
  mv <~ lift (interface_map itf (transpose Z_train)) ;;
  modify (set_f_mean_train (Some (fst mv))).

(** *** [set_feature_strategy] *)

Definition set_feature_strategy : method self unit :=
  config <~ require KeyError
                    (fun s => features_config (settings_probab_mapping s)) ;;
  (if String.eqb config "man_features" then
     idx_vec <~ require KeyError (fun s => X_cols (settings_probab_mapping s)) ;;
     X_train <~ require TypeError X_train ;;
     g <~ lift (take_cols X_train idx_vec) ;;
     modify (set_gammas_ext_train (Some g)) ;;;
     X_mc <~ require TypeError X_mc ;;
     g_mc <~ lift (take_cols X_mc idx_vec) ;;
     modify (set_gammas_ext_mc (Some g_mc)) ;;;
     Y_LFs_train <~ gets Y_LFs_train ;;
     Z <~ lift (hstack_opt Y_LFs_train g) ;;
     modify (set_Z_train (Some Z)) ;;;
     Y_LFs_mc <~ gets Y_LFs_mc ;;
     Z <~ lift (hstack_opt Y_LFs_mc g_mc) ;;
     modify (set_Z_mc (Some Z))
   else if String.eqb config "opt_features" then
     k <~ require KeyError (fun s => num_features (settings_probab_mapping s)) ;;
     if (k <? 1)%Z then raise ValueError
     else update_probabilistic_mapping_with_features
   else if String.eqb config "no_features" then
     Y_LFs_train <~ gets Y_LFs_train ;;
     modify (set_Z_train Y_LFs_train) ;;;
     Y_LFs_mc <~ gets Y_LFs_mc ;;
     modify (set_Z_mc Y_LFs_mc)
   else raise ValueError) ;;;
  Y_LFs_train <~ gets Y_LFs_train ;;
  Z_mc <~ gets Z_mc ;;
  update_model_variables Y_LFs_train Z_mc.

(** *** [eval_surrogate_accuracy_cv] *)

(** [np.reshape(np.array(response_cv), (-1, 1))] is the column of the
    predictions in their order. *)
Definition eval_surrogate_accuracy_cv (Z Y_HF : option matrix)
    (k_fold : BinNums.Z) (measures : list string) : method self (list (string * R)) :=
  itf <~ require AttributeError interface ;;
  if negb (is_initiliazed itf) then raise RuntimeError
  else
    response_cv <~ lift (cross_validate itf Z Y_HF k_fold) ;;
    let y_pred := response_cv in
    lift (compute_error_measures Y_HF y_pred measures).

(** *** [build_approximation] *)

Definition build_approximation (approx_case : bool) : method self unit :=
  get_hf_training_data ;;;
  (if approx_case then
     set_feature_strategy ;;;
     itf <~ require AttributeError interface ;;
     Z_train <~ gets Z_train ;;
     Y_HF_train <~ gets Y_HF_train ;;
     itf <~ lift (interface_build_approximation itf Z_train Y_HF_train) ;;
     modify (set_interface (Some itf))
   else
     itf <~ require AttributeError interface ;;
     Y_LFs_train <~ gets Y_LFs_train ;;
     Y_HF_train <~ gets Y_HF_train ;;
     itf <~ lift (interface_build_approximation itf Y_LFs_train Y_HF_train) ;;
     modify (set_interface (Some itf))) ;;;
  fit <~ gets eval_fit ;;
  (if String.eqb fit "kfold" then
     Z_train <~ gets Z_train ;;
     Y_HF_train <~ gets Y_HF_train ;;
     measures <~ gets error_measures ;;
     eval_surrogate_accuracy_cv Z_train Y_HF_train 5 measures ;;;
     mret tt
   else mret tt) ;;;
  active <~ gets active_learning ;;
  if active then raise NotImplementedError else mret tt.

(** *** [compute_pyhf_statistics] *)

Definition _calculate_p_yhf_mean : method self unit :=
  var_y_mc <~ require TypeError var_y_mc ;;
  support <~ gets y_pdf_support ;;
  m_f_mc <~ require TypeError m_f_mc ;;
  p <~ lift (p_yhf_mean_of support m_f_mc var_y_mc) ;;
  modify (set_p_yhf_mean (Some p)).

(** The body of the inner loop of [_calculate_p_yhf_var], with the local
    variables [yhf_pdf_grid] and [i].  [num2] is the position in the slice
    [f_mean_pred[num1 + 1 :]], and the code reads
    [k_post[num1, num1 + num2]]. *)
Definition var_inner_body (points : list R) (k_post : matrix) (num1 : nat)
    (mean1 var1 : R) (locals : list R * nat) (it : nat * (R * R))
  : method self (list R * nat) :=
  let '(yhf_pdf_grid, i) := locals in
  let '(num2, (mean2, var2)) := it in
  let num2 := (num1 + num2)%nat in
  covariance <~ lift (mat_get k_post num1 num2) ;;
  dens <~ lift (map_result (pair_density mean1 var1 mean2 var2 covariance)
                           points) ;;
  let yhf_pdf_grid := vec_add yhf_pdf_grid dens in
  let i := S i in
  p_yhf_mean <~ require TypeError p_yhf_mean ;;
  gp <~ lift (broadcast_cols yhf_pdf_grid p_yhf_mean) ;;
  modify (set_p_yhf_var
            (Some (map (fun gp => 1 / INR (i - 1) * fst gp
                                  - 0.9995 * snd gp ^ 2) gp))) ;;;
  mret (yhf_pdf_grid, i).

(** The body of the outer loop: one inner loop over the samples after
    [num1]. *)
Definition var_outer_body (points : list R) (k_post : matrix)
    (f_mean_pred yhf_var_pred : list R) (locals : list R * nat)
    (it : nat * (R * R)) : method self (list R * nat) :=
  let '(num1, (mean1, var1)) := it in
  mfold (var_inner_body points k_post num1 mean1 var1)
        (enumerate (combine (skipn (S num1) f_mean_pred)
                            (skipn (S num1) yhf_var_pred)))
        locals.

Definition _calculate_p_yhf_var : method self unit :=
  itf <~ require AttributeError interface ;;
  Z_mc <~ require AttributeError Z_mc ;;
  mk <~ lift (interface_map_full_cov itf (transpose Z_mc)) ;;
  let k_post := snd mk in
  f_mean_pred <~ require TypeError m_f_mc ;;
  yhf_var_pred <~ require TypeError var_y_mc ;;
  points <~ gets y_pdf_support ;;
  mfold (var_outer_body points k_post f_mean_pred yhf_var_pred)
        (enumerate (combine f_mean_pred yhf_var_pred))
        (zeros (length points), 1%nat) ;;;
  mret tt.

Definition compute_pyhf_statistics : method self unit :=
  _calculate_p_yhf_mean ;;;
  flag <~ gets predictive_var_bool ;;
  if flag then _calculate_p_yhf_var else modify (set_p_yhf_var None).

(** *** [calculate_extended_gammas] *)

(** The ranking of one round: the scores [corr_coef_unnorm] of the
    candidate dimensions, and [select_bool], which marks the entries with
    the highest score. *)
Definition select_feature (x_iter_test : matrix) (Y_LFs_mc : option matrix)
  : result matrix :=
  std <- fit_transform Y_LFs_mc ;;
  let Y_LFS_mc_stdized := snd std in
  corr <- np_dot (transpose x_iter_test) Y_LFS_mc_stdized ;;
  let corr_coef_unnorm := mat_map Rabs corr in
  best <- np_max (ravel corr_coef_unnorm) ;;
  Ok (mat_map (fun c => if Req_bool c best then 1 else 0) corr_coef_unnorm).

(** The body of the loop over [range(x_red.shape[1])].  Nothing in it
    depends on [counter] but the plot of the first ranking, which is a
    side channel and left out, and [x_iter_test] is not assigned. *)
Definition extended_gammas_round (x_iter_test : matrix) (_ : unit)
    (counter : nat) : method self unit :=
  Y_LFs_mc <~ gets Y_LFs_mc ;;
  select_bool <~ lift (select_feature x_iter_test Y_LFs_mc) ;;
  test_iter <~ lift (np_dot x_iter_test select_bool) ;;
  features_test <~ lift (match Y_LFs_mc with
                         | Some Y => _linear_scale_a_to_b test_iter Y
                         | None => Raise TypeError
                         end) ;;
  gammas <~ gets gammas_ext_mc ;;
  gammas <~ lift (hstack_opt gammas features_test) ;;
  modify (set_gammas_ext_mc (Some gammas)).

(** [input_dim_red] is the outcome of [self.input_dim_red()], the reduced
    and standardized input matrix [x_red]. *)
Definition calculate_extended_gammas (input_dim_red : result matrix)
  : method self unit :=
  x_red <~ lift input_dim_red ;;
  let x_iter_test := x_red in
  modify (set_gammas_ext_mc (Some (Mat 0 (repeat [] (nrows x_iter_test))))) ;;;
  mfold (extended_gammas_round x_iter_test) (seq 0 (ncols x_red)) tt.

End BMFMCModel.

(** ** The class [BMFIAIterator] *)

(** [l.reshape(-1, c)] of the entries [l] of an array. *)
Definition reshape_cols (l : list R) (c : nat) : result matrix :=
  match c with
  | O => Raise ValueError
  | S _ =>
      if Nat.eqb (Nat.modulo (length l) c) 0
      then Ok (Mat c (map (fun i => firstn c (skipn (i * c) l))
                          (seq 0 (Nat.div (length l) c))))
      else Raise ValueError
  end.

(** [np.tile(m, (n, 1))]: the rows of [m], [n] times over. *)
Definition tile_rows (m : matrix) (n : nat) : matrix :=
  Mat (ncols m) (concat (repeat (rows m) n)).

Module BMFIAIterator.

Record settings : Type := Settings {
  features_config : option string;
  num_features : option Z;
  X_cols : option (list Z)
}.

(** An array of one, two or three dimensions; [Arr3 a] has the
    two-dimensional slices [a[i, :, :]]. *)
Inductive ndarray : Type :=
| Arr1 (v : list R)
| Arr2 (m : matrix)
| Arr3 (a : list matrix).

Inductive fidelity : Type := LF | HF.

(** The attributes of a [BMFIAIterator] that the embedded methods read or
    write.  [coords_experimental_data] is written by the inverse-analysis
    model before the iterator runs.  [scaler_gamma] is [None] until the
    scaler is fitted.  [evaluations] is not an attribute of the class: it
    records every call of [evaluate()] on the low- and the high-fidelity
    model, latest first. *)
Record self : Type := Self {
  X_train : option matrix;
  Y_LF_train : option matrix;
  Y_HF_train : option matrix;
  Z_train : option ndarray;
  hf_model : simulation_model;
  lf_model : simulation_model;
  coords_experimental_data : matrix;
  time_vec : option (list R);
  y_obs_vec : option (list R);
  settings_probab_mapping : settings;
  gammas_train : option matrix;
  scaler_gamma : option scaler;
  evaluations : list fidelity
}.

(** Assignments [self.attribute = v]. *)
Definition set_Y_LF_train (v : option matrix) (s : self) : self :=
  Self (X_train s) v (Y_HF_train s) (Z_train s) (hf_model s) (lf_model s)
    (coords_experimental_data s) (time_vec s) (y_obs_vec s)
    (settings_probab_mapping s) (gammas_train s) (scaler_gamma s)
    (evaluations s).

Definition set_Y_HF_train (v : option matrix) (s : self) : self :=
  Self (X_train s) (Y_LF_train s) v (Z_train s) (hf_model s) (lf_model s)
    (coords_experimental_data s) (time_vec s) (y_obs_vec s)
    (settings_probab_mapping s) (gammas_train s) (scaler_gamma s)
    (evaluations s).

Definition set_Z_train (v : option ndarray) (s : self) : self :=
  Self (X_train s) (Y_LF_train s) (Y_HF_train s) v (hf_model s) (lf_model s)
    (coords_experimental_data s) (time_vec s) (y_obs_vec s)
    (settings_probab_mapping s) (gammas_train s) (scaler_gamma s)
    (evaluations s).

Definition set_coords_experimental_data (v : matrix) (s : self) : self :=
  Self (X_train s) (Y_LF_train s) (Y_HF_train s) (Z_train s) (hf_model s)
    (lf_model s) v (time_vec s) (y_obs_vec s) (settings_probab_mapping s)
    (gammas_train s) (scaler_gamma s) (evaluations s).

Definition set_time_vec (v : option (list R)) (s : self) : self :=
  Self (X_train s) (Y_LF_train s) (Y_HF_train s) (Z_train s) (hf_model s)
    (lf_model s) (coords_experimental_data s) v (y_obs_vec s)
    (settings_probab_mapping s) (gammas_train s) (scaler_gamma s)
    (evaluations s).

Definition set_gammas_train (v : option matrix) (s : self) : self :=
  Self (X_train s) (Y_LF_train s) (Y_HF_train s) (Z_train s) (hf_model s)
    (lf_model s) (coords_experimental_data s) (time_vec s) (y_obs_vec s)
    (settings_probab_mapping s) v (scaler_gamma s) (evaluations s).

Definition set_scaler_gamma (v : option scaler) (s : self) : self :=
  Self (X_train s) (Y_LF_train s) (Y_HF_train s) (Z_train s) (hf_model s)
    (lf_model s) (coords_experimental_data s) (time_vec s) (y_obs_vec s)
    (settings_probab_mapping s) (gammas_train s) v (evaluations s).

Definition set_evaluations (v : list fidelity) (s : self) : self :=
  Self (X_train s) (Y_LF_train s) (Y_HF_train s) (Z_train s) (hf_model s)
    (lf_model s) (coords_experimental_data s) (time_vec s) (y_obs_vec s)
    (settings_probab_mapping s) (gammas_train s) (scaler_gamma s) v.

(** *** [eval_model] *)

Definition _evaluate_LF_model_for_X_train : method self unit :=
  X_train <~ gets X_train ;;
  num_coords <~ gets (fun s => nrows (coords_experimental_data s)) ;;
  modify (fun s => set_evaluations (LF :: evaluations s) s) ;;;
  lf_model <~ gets lf_model ;;
  mean <~ lift (lf_model X_train) ;;
  Y <~ lift (reshape_cols mean num_coords) ;;
  modify (set_Y_LF_train (Some Y)).

Definition _evaluate_HF_model_for_X_train : method self unit :=
  X_train <~ gets X_train ;;
  num_coords <~ gets (fun s => nrows (coords_experimental_data s)) ;;
  modify (fun s => set_evaluations (HF :: evaluations s) s) ;;;
  hf_model <~ gets hf_model ;;
  mean <~ lift (hf_model X_train) ;;
  Y <~ lift (reshape_cols mean num_coords) ;;
  modify (set_Y_HF_train (Some Y)).

Definition eval_model : method self unit :=
  _evaluate_LF_model_for_X_train ;;;
  _evaluate_HF_model_for_X_train.

(** *** [_set_feature_strategy] *)

Definition _update_probabilistic_mapping_with_features : method self unit :=
  raise NotImplementedError.

(** [np.array(z_lst).T] for a list of matrices of one shape [(n, w)]:
    the array of shape [(w, n, len(z_lst))], and an empty one-dimensional
    array for an empty list. *)
Definition stack_transposed (z_lst : list matrix) : ndarray :=
  match z_lst with
  | [] => Arr1 []
  | z :: _ =>
      Arr3 (map (fun a =>
                   Mat (length z_lst)
                       (map (fun b =>
                               map (fun zc => nth a (nth b (rows zc) []) 0)
                                   z_lst)
                            (seq 0 (nrows z))))
                (seq 0 (ncols z)))
  end.

Definition _set_feature_strategy : method self unit :=
  X_train <~ require AttributeError X_train ;;
  modify (fun s => set_coords_experimental_data
                     (tile_rows (coords_experimental_data s) (nrows X_train))
                     s) ;;;
  config <~ require KeyError
                    (fun s => features_config (settings_probab_mapping s)) ;;
  if String.eqb config "man_features" then
    idx_vec <~ require KeyError (fun s => X_cols (settings_probab_mapping s)) ;;
    g <~ lift (take_cols X_train idx_vec) ;;
    let gammas_train :=
      if (length idx_vec <? 2)%nat then transpose g else g in
    std <~ lift (fit_transform (Some (transpose gammas_train))) ;;
    modify (set_scaler_gamma (Some (fst std))) ;;;
    let gammas_train := transpose (snd std) in
    modify (set_gammas_train (Some gammas_train)) ;;;
    Y_LF_train <~ require AttributeError Y_LF_train ;;
    z_lst <~ lift (map_result
                     (fun y => hstack (Mat 1 (map (fun v => [v]) y))
                                      (transpose gammas_train))
                     (rows (transpose Y_LF_train))) ;;
    modify (set_Z_train (Some (stack_transposed z_lst)))
  else if String.eqb config "opt_features" then
    k <~ require KeyError (fun s => num_features (settings_probab_mapping s)) ;;
    if (k <? 1)%Z then raise ValueError
    else _update_probabilistic_mapping_with_features
  else if String.eqb config "coord_features" then
    Y_LF_train <~ gets Y_LF_train ;;
    coords <~ gets coords_experimental_data ;;
    Z <~ lift (hstack_opt Y_LF_train coords) ;;
    modify (set_Z_train (Some (Arr2 Z)))
  else if String.eqb config "no_features" then
    Y_LF_train <~ gets Y_LF_train ;;
    modify (set_Z_train (option_map Arr2 Y_LF_train))
  else if String.eqb config "time_features" then
    coords <~ gets coords_experimental_data ;;
    time_vec <~ require AttributeError time_vec ;;
    time_repeat <~ lift (match length time_vec with
                         | O => Raise ZeroDivisionError
                         | S _ => Ok (Nat.div (nrows coords) (length time_vec))
                         end) ;;
    let time_vec := flat_map (fun t => repeat t time_repeat) time_vec in
    modify (set_time_vec (Some time_vec)) ;;;
    t_max <~ lift (np_max time_vec) ;;
    unit_time <~ lift (map_result (fun t => np_divide t t_max) time_vec) ;;
    y_obs_vec <~ require TypeError y_obs_vec ;;
    y_max <~ lift (np_max y_obs_vec) ;;
    y_min <~ lift (np_min y_obs_vec) ;;
    let time_vec := map (fun t => t * (y_max - y_min) + y_min) unit_time in
    modify (set_time_vec (Some time_vec)) ;;;
    Y_LF_train <~ gets Y_LF_train ;;
    Z <~ lift (hstack_opt Y_LF_train (Mat 1 (map (fun t => [t]) time_vec))) ;;
    modify (set_Z_train (Some (Arr2 Z)))
  else raise IOError.

(** *** [core_run] *)

Definition core_run : method self (option ndarray * option matrix) :=
  eval_model ;;;
  _set_feature_strategy ;;;
  Z_train <~ gets Z_train ;;
  Y_HF_train <~ gets Y_HF_train ;;
  mret (Z_train, Y_HF_train).

End BMFIAIterator.

(** ** The reduction of the input dimension *)

(** The description of one random field in
    [uncertain_parameters["random_fields"]]: the keys [corrstruct] and
    [num_points] that the code reads, [None] for a key that is absent.
    [num_points] is the number of discretisation points of the field. *)
Record random_field : Type := RandomField {
  corrstruct : option string;
  num_points : option nat
}.

(** [self.uncertain_parameters]: the dictionary with the keys
    [random_variables], of which only the length is read, and
    [random_fields]. *)
Record uncertain_parameters : Type := UncertainParameters {
  random_variables : option (list string);
  random_fields : option (list (string * random_field))
}.

(** The value of a random field in the dictionary of truncated bases:
    the keys [samples] and [trunc_basis]. *)
Record truncated_field : Type := TruncatedField {
  samples : option matrix;
  trunc_basis : option matrix
}.

(** An outcome of the kind above, or the [UnboundLocalError] that Python
    raises when a local variable is read before it has been assigned. *)
Inductive late_result (A : Type) : Type :=
| Done (r : result A)
| UnboundLocalError.

Arguments UnboundLocalError {A}.

(** [m[:, a : a + n]] for [a] and [n] that are not negative: a slice is
    clipped to the columns that are there. *)
Definition slice_cols_from (m : matrix) (a n : nat) : matrix :=
  Mat (Nat.min (a + n) (ncols m) - Nat.min a (ncols m))
      (map (fun r => firstn n (skipn a r)) (rows m)).

(** [m[0:k]] for [k] that is not negative: the leading rows. *)
Definition slice_rows (m : matrix) (k : nat) : matrix :=
  Mat (ncols m) (firstn k (rows m)).

(** [[idx for idx, eigenval in enumerate(eigenvals) if eigenval >
    explained_var][0]]. *)
Definition idx_truncation_of (eigenvals : list R) (explained_var : R)
  : result nat :=
  of_option IndexError
    (nth_error
       (map fst
            (filter (fun p => if Rlt_dec explained_var (snd p) then true
                              else false)
                    (enumerate eigenvals)))
       0).

(** The body of the loop of [get_random_fields_and_truncated_basis] over
    the zipped items, with the local variables [dim_random_fields] and
    [random_fields_trunc_dict]; the dictionary is unbound before the first
    pass and is created anew in every pass.  The message of the
    [NotImplementedError] for another correlation structure is an f-string
    that calls [random_field.get] on the item, a tuple: building it raises
    [AttributeError] before the [raise] is executed. *)
Definition truncation_step (X_mc : matrix) (num_random_var : nat)
    (explained_var : R)
    (locals : nat * option (list (string * truncated_field)))
    (it : (string * random_field) * ((string * matrix) * (string * list R)))
  : result (nat * option (list (string * truncated_field))) :=
  let '(random_field, (basis, eigenvals)) := it in
  let dim_random_fields := fst locals in
  if match corrstruct (snd random_field) with
     | Some c => negb (String.eqb c "non_stationary_squared_exp")
     | None => true
     end
  then Raise AttributeError
  else
    n <- of_option KeyError (num_points (snd random_field)) ;;
    let field_samples :=
      slice_cols_from X_mc (num_random_var + dim_random_fields) n in
    idx_truncation <- idx_truncation_of (snd eigenvals) explained_var ;;
    let random_fields_trunc_dict :=
      [(fst random_field,
        TruncatedField (Some field_samples)
                       (Some (slice_rows (snd basis) idx_truncation)))] in
    Ok ((dim_random_fields + n)%nat, Some random_fields_trunc_dict).

(** [get_random_fields_and_truncated_basis(explained_var)], as a function
    of the attributes [uncertain_parameters], [eigenfunc_random_fields],
    [eigenvals] and [X_mc] that it reads; the two dictionaries of
    eigenfunctions and eigenvalues are given by their items. *)
Definition get_random_fields_and_truncated_basis
    (parameters : uncertain_parameters)
    (eigenfunc_random_fields : option (list (string * matrix)))
    (eigenvals : option (list (string * list R)))
    (X_mc : option matrix) (explained_var : R)
  : late_result (matrix * list (string * truncated_field)) :=
  match random_variables parameters with
  | None => Done (Raise TypeError)
  | Some variables =>
      let num_random_var := length variables in
      match X_mc with
      | None => Done (Raise TypeError)
      | Some X_mc =>
          let x_uncorr := slice_cols X_mc (Z.of_nat num_random_var) in
          match random_fields parameters, eigenfunc_random_fields, eigenvals
          with
          | Some fields, Some bases, Some values =>
              match fold_result
                      (truncation_step X_mc num_random_var explained_var)
                      (combine fields (combine bases values)) (O, None)
              with
              | Ok (_, Some random_fields_trunc_dict) =>
                  Done (Ok (x_uncorr, random_fields_trunc_dict))
              | Ok (_, None) => UnboundLocalError
              | Raise e => Done (Raise e)
              | NotReal => Done NotReal
              end
          | _, _, _ => Done (Raise AttributeError)
          end
      end
  end.

(** [_project_samples_on_truncated_basis(truncated_basis_dict,
    num_samples)]. *)
Definition _project_samples_on_truncated_basis
    (truncated_basis_dict : list (string * truncated_field))
    (num_samples : nat) : result matrix :=
  fold_result
    (fun coefs_mat basis =>
       field_samples <- of_option KeyError (samples (snd basis)) ;;
       basis_rows <- of_option KeyError (trunc_basis (snd basis)) ;;
       coefs <- np_dot field_samples (transpose basis_rows) ;;
       hstack coefs_mat coefs)
    truncated_basis_dict
    (Mat 0 (repeat [] num_samples)).

(** [_assemble_x_red_stdizd(x_uncorr, coef_mat)]. *)
Definition _assemble_x_red_stdizd (x_uncorr coef_mat : matrix)
  : result matrix :=
  x_red <- hstack x_uncorr coef_mat ;;
  std <- fit_transform (Some x_red) ;;
  Ok (snd std).

(** [input_dim_red()], as a function of the attributes that it reads.
    The threshold that it passes is [95]. *)
Definition input_dim_red (parameters : uncertain_parameters)
    (eigenfunc_random_fields : option (list (string * matrix)))
    (eigenvals : option (list (string * list R)))
    (X_mc : option matrix) : late_result matrix :=
  match get_random_fields_and_truncated_basis
          parameters eigenfunc_random_fields eigenvals X_mc 95
  with
  | Done (Ok (x_uncorr, truncated_basis_dict)) =>
      Done (num_samples <- of_option AttributeError (option_map nrows X_mc) ;;
            coefs_mat <- _project_samples_on_truncated_basis
                           truncated_basis_dict num_samples ;;
            _assemble_x_red_stdizd x_uncorr coefs_mat)
  | Done (Raise e) => Done (Raise e)
  | Done NotReal => Done NotReal
  | UnboundLocalError => UnboundLocalError
  end.

(** ** The posterior variance in the words of the specification *)

(** The density at [(x, y)] of the bivariate normal distribution with the
    means [mean1] and [mean2], the variances [var1] and [var2] and the
    covariance [covariance]. *)
Definition bivariate_normal_density
    (mean1 var1 mean2 var2 covariance x y : R) : R :=
  let det := var1 * var2 - covariance ^ 2 in
  exp (- ((var2 * (x - mean1) ^ 2
           - 2 * covariance * (x - mean1) * (y - mean2)
           + var1 * (y - mean2) ^ 2) / det) / 2)
  / (2 * PI * sqrt det).

(** The unordered pairs [(i, j)] with [i < j < n]. *)
Definition sample_pairs (n : nat) : list (nat * nat) :=
  flat_map (fun i => map (fun j => (i, j)) (seq (S i) (n - S i))) (seq 0 n).

(** The variance estimate at the support point [s] as the specification
    states it: the densities of all pairs, each with the posterior
    covariance [k_post[i, j]] of its two samples, summed, divided by the
    number of pairs, less [0.9995] times the square of the mean density
    [p_mean] at [s]. *)
Definition p_yhf_var_spec (m_f_mc var_y_mc : list R) (k_post : matrix)
    (p_mean s : R) : R :=
  Rsum (map (fun ij =>
               bivariate_normal_density
                 (nth (fst ij) m_f_mc 0) (nth (fst ij) var_y_mc 0)
                 (nth (snd ij) m_f_mc 0) (nth (snd ij) var_y_mc 0)
                 (nth (snd ij) (nth (fst ij) (rows k_post) []) 0)
                 s s)
            (sample_pairs (length m_f_mc)))
  / INR (length (sample_pairs (length m_f_mc)))
  - 0.9995 * p_mean ^ 2.

(** ** Notions used in the statements *)

(** The exponent of the pair with the clamped determinant [1e-6] and the
    damped covariance [0.95 * covariance], before it is clipped. *)
Definition clamped_args (mean1 var1 mean2 var2 covariance s : R) : R :=
  - ((var2 * (s - mean1) ^ 2
      - 2 * (0.95 * covariance) * (s - mean1) * (s - mean2)
      + var1 * (s - mean2) ^ 2) / 1e-6) / 2
  + ln (1 / sqrt (4 * PI ^ 2 * 1e-6)).

(** The passes of the inner loop of [_calculate_p_yhf_var] in their order:
    the item of the outer loop with the item of the inner loop. *)
Definition loop_pairs (f_mean_pred yhf_var_pred : list R)
  : list ((nat * (R * R)) * (nat * (R * R))) :=
  flat_map
    (fun it1 =>
       map (pair it1)
           (enumerate (combine (skipn (S (fst it1)) f_mean_pred)
                               (skipn (S (fst it1)) yhf_var_pred))))
    (enumerate (combine f_mean_pred yhf_var_pred)).

(** A pass of the inner loop that reads its covariance and yields the
    densities [dens] on the support grid. *)
Definition pass_yields (points : list R) (k_post : matrix)
    (it : (nat * (R * R)) * (nat * (R * R))) (dens : list R) : Prop :=
  exists covariance,
    mat_get k_post (fst (fst it)) (fst (fst it) + fst (snd it)) = Ok covariance /\
    map_result (pair_density (fst (snd (fst it))) (snd (snd (fst it)))
                             (fst (snd (snd it))) (snd (snd (snd it)))
                             covariance)
               points
    = Ok dens.

(** The matrix whose entry [(i, j)] is [k_post[i, j - 1]]: the columns
    moved one place to the right behind a column of zeros. *)
Definition shift_columns (k_post : matrix) : matrix :=
  Mat (S (ncols k_post)) (map (cons 0) (rows k_post)).

(** A method that leaves the observation [f] of the state as it was,
    whatever its outcome. *)
Definition preserves {S A B : Type} (f : S -> A) (m : method S B) : Prop :=
  forall s, f (snd (m s)) = f s.

(** The sampling data and the configuration of a [BMFMCModel]. *)
Definition sampling_data (s : BMFMCModel.self) :=
  (BMFMCModel.X_train s, BMFMCModel.X_mc s, BMFMCModel.Y_LFs_train s,
   BMFMCModel.Y_LFs_mc s, BMFMCModel.Y_HF_mc s,
   BMFMCModel.settings_probab_mapping s, BMFMCModel.training_indices s,
   BMFMCModel.y_pdf_support s,
   (BMFMCModel.eval_fit s, BMFMCModel.error_measures s,
    BMFMCModel.active_learning s, BMFMCModel.predictive_var_bool s)).

(** [d.get(k)] on a dictionary. *)
Fixpoint dict_get {V : Type} (d : list (string * V)) (k : string) : option V :=
  match d with
  | [] => None
  | (k', v) :: tl => if String.eqb k' k then Some v else dict_get tl k
  end.

(** The error measures that [compute_error] knows. *)
Definition known_measures : list string :=
  ["sum_squared"; "mean_squared"; "root_mean_squared"; "sum_abs"; "mean_abs";
   "abs_max"]%string.

(** The name that [update_model_variables] gives to column [counter] of
    [Z_mc] when [Y_LFs_train] has [num_lfs] columns. *)
Definition variable_key (num_lfs : nat) (counter : nat) : string :=
  if (Z.of_nat counter <? Z.of_nat num_lfs - 1)%Z
  then String.append "LF" (format_int (Z.of_nat counter))
  else String.append "Feat"
                     (format_int (Z.of_nat counter - Z.of_nat num_lfs - 1)).

(** What [_set_feature_strategy] of the iterator reads without assigning
    it: the training inputs and outputs, the observations, the settings
    and the record of the model evaluations. *)
Definition strategy_inputs (s : BMFIAIterator.self) :=
  (BMFIAIterator.X_train s, BMFIAIterator.Y_LF_train s,
   BMFIAIterator.Y_HF_train s, BMFIAIterator.y_obs_vec s,
   BMFIAIterator.settings_probab_mapping s, BMFIAIterator.evaluations s).

(** What [eval_model] of the iterator reads without assigning it. *)
Definition evaluation_inputs (s : BMFIAIterator.self) :=
  (BMFIAIterator.X_train s, BMFIAIterator.Z_train s,
   BMFIAIterator.coords_experimental_data s, BMFIAIterator.time_vec s,
   BMFIAIterator.y_obs_vec s, BMFIAIterator.settings_probab_mapping s,
   BMFIAIterator.gammas_train s, BMFIAIterator.scaler_gamma s).

(** A random field whose correlation structure is the one that the code
    handles. *)
Definition supported_field (field : random_field) : bool :=
  match corrstruct field with
  | Some c => String.eqb c "non_stationary_squared_exp"
  | None => false
  end.

(** The number of columns of [X_mc] that the random fields [fields]
    occupy. *)
Definition points_of (fields : list (string * random_field)) : nat :=
  fold_right (fun f acc => match num_points (snd f) with
                           | Some n => n + acc
                           | None => acc
                           end)%nat O fields.

(** The number of coefficients that the dictionary of truncated bases
    gives per sample: the number of rows of every truncated basis. *)
Definition coefficients_of (dict : list (string * truncated_field)) : nat :=
  fold_right (fun e acc => match trunc_basis (snd e) with
                           | Some b => nrows b + acc
                           | None => acc
                           end)%nat O dict.




(** The decimal constants of the source as fractions, for [field]. *)
Ltac decimals :=
  change 1e-6 with (1 / 1000000) in *;
  change 0.95 with (95 / 100) in *;
  change (-0.5) with (-5 / 10) in *;
  change 0.9995 with (9995 / 10000) in *.

Ltac method_unfold :=
  unfold mbind, mret, lift, raise, gets, modify, require, of_option.

(** Comparisons of numerals. *)
Ltac Rdecide :=
  repeat match goal with
  | |- context [Req_dec_T ?a ?b] =>
      destruct (Req_dec_T a b); [try (exfalso; lra) | try (exfalso; lra)]
  | |- context [Rmax ?a ?b] =>
      first [rewrite (Rmax_left a b) by lra | rewrite (Rmax_right a b) by lra]
  | |- context [Rmin ?a ?b] =>
      first [rewrite (Rmin_left a b) by lra | rewrite (Rmin_right a b) by lra]
  end.

(** ** Objects for the examples *)

(** An interface that predicts mean 0 and variance 2 for two samples and
    returns the posterior covariance [k_post]. *)
Definition example_interface (built : bool) (k_post : matrix)
  : BMFMCModel.BmfmcInterface :=
  BMFMCModel.Interface built
    (fun _ => Ok ([0; 0], [2; 2]))
    (fun _ => Ok ([0; 0], k_post))
    (fun _ _ _ => Ok [])
    (fun _ _ => Raise NotImplementedError).

(** An interface that has not been built: its predictions fail with the
    state error, and it cannot be built. *)
Definition example_unbuilt_interface : BMFMCModel.BmfmcInterface :=
  BMFMCModel.Interface false
    (fun _ => Raise RuntimeError)
    (fun _ => Raise RuntimeError)
    (fun _ _ _ => Ok [])
    (fun _ _ => Raise NotImplementedError).

(** A model with four Monte-Carlo samples of one input, of which the
    first and the last coincide, and the training inputs 3 and 1. *)
Definition example_model (config : string) (k : Z) (built : bool)
  : BMFMCModel.self :=
  BMFMCModel.Self
    (Some (example_interface built (Mat 2 [[1; 1 / 2]; [1 / 2; 1]])))
    (BMFMCModel.Settings (Some config) (Some k) (Some [0%Z]))
    None "none" []
    (Some (Mat 1 [[3]; [1]])) None (Some (Mat 1 [[30]; [10]]))
    (Some (Mat 1 [[1]; [2]; [3]; [1]]))
    (Some (Mat 1 [[10]; [20]; [30]; [10]]))
    (Some [11; 21; 31; 12])
    false None None None None None None [0] None None true None
    [2%Z; 0%Z] None.

(** The same model without the benchmark of the high-fidelity model, and
    with a subordinate high-fidelity model. *)
Definition example_no_benchmark : BMFMCModel.self :=
  BMFMCModel.Self
    (Some (example_interface true (Mat 2 [[1; 1 / 2]; [1 / 2; 1]])))
    (BMFMCModel.Settings (Some "no_features"%string) (Some 1%Z) (Some [0%Z]))
    (Some (fun _ => Ok [31; 11])) "none" []
    (Some (Mat 1 [[3]; [1]])) None (Some (Mat 1 [[30]; [10]]))
    (Some (Mat 1 [[1]; [2]; [3]; [1]]))
    (Some (Mat 1 [[10]; [20]; [30]; [10]]))
    None
    false None None None None None None [0] None None true None
    [2%Z; 0%Z] None.

(** Two Monte-Carlo samples with the predictive mean 0 and the predictive
    variance 2 each, and the posterior covariance matrix with the variance
    1 on the diagonal and the covariance 1/2 off it. *)
Definition example_two_samples : BMFMCModel.self :=
  BMFMCModel.set_Z_mc (Some (Mat 1 [[10]; [20]]))
    (BMFMCModel.set_m_f_mc (Some [0; 0])
       (BMFMCModel.set_var_y_mc (Some [2; 2])
          (example_model "no_features" 1 true))).

(** The two samples with an interface that has not been built. *)
Definition example_unbuilt_model : BMFMCModel.self :=
  BMFMCModel.set_interface (Some example_unbuilt_interface)
    example_two_samples.

(** An interface that can be built [n] times and predicts mean 0 and
    variance 1 for every query point. *)
Fixpoint example_fit_interface (n : nat) : BMFMCModel.BmfmcInterface :=
  BMFMCModel.Interface true
    (fun Zt => Ok (repeat 0 (ncols Zt), repeat 1 (ncols Zt)))
    (fun Zt => Ok (repeat 0 (ncols Zt), Mat 0 []))
    (fun _ _ _ => Ok [])
    (fun _ _ => match n with
                | O => Raise RuntimeError
                | S n => Ok (example_fit_interface n)
                end).

(** Four samples of a reduced input with two standardized dimensions. *)
Definition example_x_red : matrix :=
  Mat 2 [[-1; -1]; [-1; 1]; [1; -1]; [1; 1]].

(** A model with one low-fidelity output on the four samples, which
    follows the first dimension of [example_x_red], and [opt_features]
    with [num_features] features. *)
Definition example_opt_model (num_features : Z) : BMFMCModel.self :=
  BMFMCModel.Self
    (Some (example_fit_interface 2))
    (BMFMCModel.Settings (Some "opt_features"%string) (Some num_features) None)
    None "none" []
    (Some (Mat 2 [[-1; -1]; [1; 1]])) (Some (Mat 1 [[1]; [3]]))
    (Some (Mat 1 [[0]; [2]]))
    (Some example_x_red)
    (Some (Mat 1 [[0]; [0]; [2]; [2]]))
    (Some [1; 1; 3; 3])
    false None None None None None None [0] None None false None
    [0%Z; 3%Z] None.

(** An iterator with one training input, one coordinate and two models
    that return one number each. *)
Definition example_iterator (config : string) (k : Z) : BMFIAIterator.self :=
  BMFIAIterator.Self
    (Some (Mat 1 [[1]])) None None None
    (fun _ => Ok [2]) (fun _ => Ok [1])
    (Mat 1 [[0]]) None None
    (BMFIAIterator.Settings (Some config) (Some k) None)
    None None [].

(** The example model with a training input, 5, that is not among the
    Monte-Carlo samples. *)
Definition example_unmatched_model : BMFMCModel.self :=
  BMFMCModel.Self
    (Some (example_interface true (Mat 2 [[1; 1 / 2]; [1 / 2; 1]])))
    (BMFMCModel.Settings (Some "no_features"%string) (Some 1%Z) (Some [0%Z]))
    None "none" []
    (Some (Mat 1 [[3]; [5]])) None (Some (Mat 1 [[30]; [50]]))
    (Some (Mat 1 [[1]; [2]; [3]; [1]]))
    (Some (Mat 1 [[10]; [20]; [30]; [10]]))
    (Some [11; 21; 31; 12])
    false None None None None None None [0] None None true None
    [2%Z; 0%Z] None.


(** An iterator with two training inputs and two coordinates, whose
    models return the given values. *)
Definition example_grid_iterator (config : string) (lf_out hf_out : list R)
  : BMFIAIterator.self :=
  BMFIAIterator.Self
    (Some (Mat 1 [[1]; [2]])) None None None
    (fun _ => Ok hf_out) (fun _ => Ok lf_out)
    (Mat 1 [[0]; [1]]) None None
    (BMFIAIterator.Settings (Some config) (Some 1%Z) None)
    None None [].

(** An iterator with three training inputs of two parameters, both
    selected as manual features, and one low-fidelity output per input. *)
Definition example_man_iterator : BMFIAIterator.self :=
  BMFIAIterator.Self
    (Some (Mat 2 [[1; 2]; [3; 4]; [5; 6]])) (Some (Mat 1 [[7]; [8]; [9]]))
    None None
    (fun _ => Ok [0; 0; 0]) (fun _ => Ok [7; 8; 9])
    (Mat 1 [[0]]) None None
    (BMFIAIterator.Settings (Some "man_features"%string) (Some 1%Z)
                            (Some [0%Z; 1%Z]))
    None None [].

(** The example model with [man_features] and the columns [idx_vec]. *)
Definition example_man_model (idx_vec : list Z) : BMFMCModel.self :=
  BMFMCModel.Self
    (Some (example_fit_interface 2))
    (BMFMCModel.Settings (Some "man_features"%string) (Some 1%Z)
                         (Some idx_vec))
    None "none" []
    (Some (Mat 1 [[3]; [1]])) None (Some (Mat 1 [[30]; [10]]))
    (Some (Mat 1 [[1]; [2]; [3]; [1]]))
    (Some (Mat 1 [[10]; [20]; [30]; [10]]))
    (Some [11; 21; 31; 12])
    false None None None None None None [0] None None true None
    [2%Z; 0%Z] None.

(** The model [example_opt_model 2] after the greedy rounds: two feature
    columns are there. *)
Definition example_greedy_model : BMFMCModel.self :=
  BMFMCModel.set_gammas_ext_mc (Some (Mat 2 [[0; 0]; [0; 0]; [2; 2]; [2; 2]]))
    (example_opt_model 2).

(** Two random fields of three and two points behind one random
    variable, with their eigenfunctions and eigenvalues. *)
Definition example_parameters (structure : string) : uncertain_parameters :=
  UncertainParameters
    (Some ["x1"%string])
    (Some [("field_a"%string,
            RandomField (Some "non_stationary_squared_exp"%string) (Some 3%nat));
           ("field_b"%string, RandomField (Some structure) (Some 2%nat))]).

Definition example_eigenfunc : list (string * matrix) :=
  [("field_a"%string, Mat 3 [[1; 0; 0]; [0; 1; 0]; [0; 0; 1]]);
   ("field_b"%string, Mat 2 [[1; 1]; [1; -1]])].

Definition example_eigenvals : list (string * list R) :=
  [("field_a"%string, [99; 98; 1]); ("field_b"%string, [50; 96; 97])].

(** Two samples of the six inputs. *)
Definition example_field_samples : matrix :=
  Mat 6 [[1; 2; 3; 4; 5; 6]; [3; 4; 5; 6; 7; 6]].

(** An iterator with [time_features]: one training input, two
    coordinates, the observation times 0 and 4 and observations between 1
    and 3. *)
Definition example_time_iterator : BMFIAIterator.self :=
  BMFIAIterator.Self
    (Some (Mat 1 [[1]])) (Some (Mat 1 [[5]; [6]])) None None
    (fun _ => Ok [0; 0]) (fun _ => Ok [5; 6])
    (Mat 1 [[0]; [1]]) (Some [0; 4]) (Some [1; 3; 2])
    (BMFIAIterator.Settings (Some "time_features"%string) (Some 1%Z) None)
    None None [].

(** * Properties *)

(** ** Extrema of a non-empty array *)



Lemma fold_left_Rmax_ge (l : list R) (x : R) :
  x <= fold_left Rmax l x /\ Forall (fun y => y <= fold_left Rmax l x) l.
Proof.
  revert x; induction l as [|a l IH]; intros x; simpl.
  - split; [lra | constructor].
  - destruct (IH (Rmax x a)) as [H1 H2].
    pose proof (Rmax_l x a). pose proof (Rmax_r x a).
    split; [lra|]. constructor; [lra | exact H2].
Qed.

Lemma fold_left_Rmax_In (l : list R) (x : R) :
  In (fold_left Rmax l x) (x :: l).
Proof.
  revert x; induction l as [|a l IH]; intros x; simpl.
  - now left.
  - destruct (IH (Rmax x a)) as [H | H].
    + unfold Rmax in H at 1. destruct (Rle_dec x a); auto.
    + auto.
Qed.


Lemma np_max_spec (l : list R) (m : R) :
  np_max l = Ok m -> In m l /\ Forall (fun y => y <= m) l.
Proof.
  destruct l as [|x tl]; simpl; [discriminate|].
  intros H; injection H as <-.
  split; [apply fold_left_Rmax_In|].
  destruct (fold_left_Rmax_ge tl x); now constructor.
Qed.


Lemma np_max_nonempty (l : list R) : l <> [] -> exists m, np_max l = Ok m.
Proof. destruct l; [congruence | eexists; reflexivity]. Qed.

(** ** The affine rescaling *)







(** The rescaling of [0; 49] to the range of [2; 5]. *)
Example linear_scale_example :
  _linear_scale_a_to_b (Mat 1 [[0]; [49]]) (Mat 1 [[2]; [5]])
  = Ok (Mat 1 [[2]; [5]]).
Proof.
  unfold _linear_scale_a_to_b, ravel.
  cbn [rows concat app np_min np_max fold_left bind].
  Rdecide. cbn [bind]. unfold np_divide. Rdecide. cbn [bind ncols rows map].
  repeat f_equal; lra.
Qed.

(** ** Loops that do not fail *)

Lemma map_result_ok {A B : Type} (f : A -> result B) (g : A -> B) (l : list A) :
  (forall x, In x l -> f x = Ok (g x)) -> map_result f l = Ok (map g l).
Proof.
  induction l as [|x l IH]; intros H; simpl; [reflexivity|].
  rewrite (H x) by now left. cbn [bind].
  rewrite IH by (intros y Hy; apply H; now right). reflexivity.
Qed.

(** ** Column sums *)

Lemma length_vec_add (a b : list R) :
  length (vec_add a b) = Nat.min (length a) (length b).
Proof. unfold vec_add. now rewrite length_map, length_combine. Qed.

Lemma nth_error_vec_add (a b : list R) (k : nat) (x y : R) :
  nth_error a k = Some x -> nth_error b k = Some y ->
  nth_error (vec_add a b) k = Some (x + y).
Proof.
  revert b k; induction a as [|a0 a IH]; intros [|b0 b] [|k]; simpl;
    try discriminate.
  - intros [= ->] [= ->]. reflexivity.
  - apply IH.
Qed.

Lemma nth_error_fold_vec_add (mat : list (list R)) (acc : list R) (k : nat)
    (x : R) (col : list R) :
  nth_error acc k = Some x ->
  Forall2 (fun row y => nth_error row k = Some y) mat col ->
  nth_error (fold_left vec_add mat acc) k = Some (x + Rsum col).
Proof.
  intros Hacc Hcol. revert acc x Hacc.
  induction Hcol as [|row y mat col Hy _ IH]; intros acc x Hacc; simpl.
  - rewrite Hacc. f_equal. lra.
  - rewrite (IH (vec_add acc row) (x + y)).
    + f_equal. lra.
    + now apply nth_error_vec_add.
Qed.

Lemma length_fold_vec_add (n : nat) (mat : list (list R)) (acc : list R) :
  length acc = n -> Forall (fun row => length row = n) mat ->
  length (fold_left vec_add mat acc) = n.
Proof.
  intros Hacc Hmat. revert acc Hacc.
  induction Hmat as [|row mat Hrow _ IH]; intros acc Hacc; simpl; [assumption|].
  apply IH. rewrite length_vec_add, Hacc, Hrow. apply Nat.min_id.
Qed.

Lemma nth_error_zeros (n k : nat) : (k < n)%nat -> nth_error (zeros n) k = Some 0.
Proof.
  intros H. unfold zeros. rewrite nth_error_repeat by assumption. reflexivity.
Qed.

(** ** The posterior mean density *)

Lemma broadcast_cols_same (a b : list R) :
  length a = length b -> broadcast_cols a b = Ok (combine a b).
Proof. intros H. unfold broadcast_cols. now rewrite H, Nat.eqb_refl. Qed.

(** With one positive variance per sample, [pdf_mat] has a row of
    Gaussian densities per sample, and the scaled column sums are the
    averages of the densities. *)
Lemma p_yhf_mean_of_average (y_pdf_support m_f_mc var_y_mc : list R) :
  m_f_mc <> [] ->
  length m_f_mc = length var_y_mc ->
  Forall (fun v => 0 < v) var_y_mc ->
  exists p_yhf_mean,
    p_yhf_mean_of y_pdf_support m_f_mc var_y_mc = Ok p_yhf_mean /\
    length p_yhf_mean = length y_pdf_support /\
    forall k s,
      nth_error y_pdf_support k = Some s ->
      nth_error p_yhf_mean k
      = Some (1 / INR (length m_f_mc)
              * Rsum (map (fun mv => gaussian_density s (fst mv) (sqrt (snd mv)))
                          (combine m_f_mc var_y_mc))).
Proof.
  intros Hne Hlen Hpos.
  set (row := fun p : R * R =>
                map (fun s => gaussian_density s (fst p) (sqrt (snd p)))
                    y_pdf_support).
  assert (Hmat : map_result
            (fun p => standard_deviation <- np_sqrt (snd p) ;;
                      map_result
                        (fun s => norm_pdf s (fst p) standard_deviation)
                        y_pdf_support)
            (combine m_f_mc var_y_mc)
          = Ok (map row (combine m_f_mc var_y_mc))).
  { apply map_result_ok. intros [mu v] Hin. cbn [fst snd].
    assert (Hv : 0 < v).
    { rewrite Forall_forall in Hpos. apply Hpos.
      eapply in_combine_r; eassumption. }
    unfold np_sqrt. destruct (Rle_dec 0 v) as [_ | C]; [|lra]. cbn [bind].
    apply map_result_ok. intros s _. unfold norm_pdf.
    destruct (Rlt_dec 0 (sqrt v)) as [_ | C]; [reflexivity|].
    exfalso. apply C. now apply sqrt_lt_R0. }
  unfold p_yhf_mean_of.
  rewrite (broadcast_cols_same _ _ Hlen). cbn [bind].
  rewrite Hmat. cbn [bind].
  destruct m_f_mc as [|m0 ms] eqn:Em; [congruence|]. rewrite <- Em in *.
  replace (length m_f_mc) with (S (length ms)) by (rewrite Em; reflexivity).
  eexists. split; [reflexivity|]. split.
  - rewrite length_map. unfold sum_axis0.
    apply length_fold_vec_add; [apply repeat_length|].
    rewrite Forall_forall. intros r Hr. apply in_map_iff in Hr.
    destruct Hr as [p [<- _]]. unfold row. apply length_map.
  - intros k s Hs.
    rewrite nth_error_map. unfold sum_axis0.
    rewrite (@nth_error_fold_vec_add _ _ k 0
               (map (fun mv => gaussian_density s (fst mv) (sqrt (snd mv)))
                    (combine m_f_mc var_y_mc))).
    + cbn [option_map]. f_equal. f_equal. lra.
    + apply nth_error_zeros. apply nth_error_Some. congruence.
    + clear -Hs. induction (combine m_f_mc var_y_mc) as [|p l IH]; simpl;
        constructor; [|exact IH].
      unfold row. rewrite nth_error_map, Hs. reflexivity.
Qed.

(** C1.  With one positive predictive variance per Monte-Carlo sample,
    [_calculate_p_yhf_mean] succeeds and assigns to [p_yhf_mean] one value
    per support point: at every support point [s] it is [1 / N] times the
    sum, over the [N] samples, of the Gaussian density at [s] with the
    mean [m_f_mc[i]] and the standard deviation [sqrt (var_y_mc[i])] of
    the sample. *)
Theorem calculate_p_yhf_mean_is_mc_average (st : BMFMCModel.self)
    (m_f_mc var_y_mc : list R) :
  BMFMCModel.m_f_mc st = Some m_f_mc ->
  BMFMCModel.var_y_mc st = Some var_y_mc ->
  m_f_mc <> [] ->
  length m_f_mc = length var_y_mc ->
  Forall (fun v => 0 < v) var_y_mc ->
  exists p_yhf_mean,
    BMFMCModel._calculate_p_yhf_mean st
    = (Ok tt, BMFMCModel.set_p_yhf_mean (Some p_yhf_mean) st) /\
    length p_yhf_mean = length (BMFMCModel.y_pdf_support st) /\
    forall k s,
      nth_error (BMFMCModel.y_pdf_support st) k = Some s ->
      nth_error p_yhf_mean k
      = Some (1 / INR (length m_f_mc)
              * Rsum (map (fun mv => gaussian_density s (fst mv) (sqrt (snd mv)))
                          (combine m_f_mc var_y_mc))).
Proof.
  intros Hm Hv Hne Hlen Hpos.
  destruct (@p_yhf_mean_of_average (BMFMCModel.y_pdf_support st)
              m_f_mc var_y_mc Hne Hlen Hpos) as [p [Hp [Hlenp Hnth]]].
  exists p. split; [|split; assumption].
  unfold BMFMCModel._calculate_p_yhf_mean.
  unfold mbind, mret, lift, gets, modify, require, of_option.
  rewrite Hv, Hm, Hp. reflexivity.
Qed.

Lemma calculate_p_yhf_mean_is_mc_average_witness :
  exists p_yhf_mean,
    BMFMCModel._calculate_p_yhf_mean
      (BMFMCModel.set_m_f_mc (Some [0; 1])
         (BMFMCModel.set_var_y_mc (Some [2; 3])
            (example_model "no_features" 1 true)))
    = (Ok tt,
       BMFMCModel.set_p_yhf_mean (Some p_yhf_mean)
         (BMFMCModel.set_m_f_mc (Some [0; 1])
            (BMFMCModel.set_var_y_mc (Some [2; 3])
               (example_model "no_features" 1 true)))) /\
    length p_yhf_mean = 1%nat /\
    forall k s,
      nth_error [0] k = Some s ->
      nth_error p_yhf_mean k
      = Some (1 / INR 2
              * Rsum (map (fun mv => gaussian_density s (fst mv) (sqrt (snd mv)))
                          [(0, 2); (1, 3)])).
Proof.
  apply (@calculate_p_yhf_mean_is_mc_average
           (BMFMCModel.set_m_f_mc (Some [0; 1])
              (BMFMCModel.set_var_y_mc (Some [2; 3])
                 (example_model "no_features" 1 true)))
           [0; 1] [2; 3]);
    try reflexivity; [discriminate | repeat constructor; lra].
Defined.

(** ** The clamped bivariate density *)

Lemma sqrt_four_pi2_pos (d : R) : 0 < d -> 0 < sqrt (4 * PI ^ 2 * d).
Proof.
  intros Hd. apply sqrt_lt_R0. pose proof PI_RGT_0 as Hpi.
  apply Rmult_lt_0_compat; [|assumption].
  apply Rmult_lt_0_compat; [lra|]. apply pow_lt. assumption.
Qed.

(** C3.  When [var1 * var2 - covariance ^ 2] is negative the pair
    contributes, at every support point [s], the exponential of the
    Gaussian exponent formed with the determinant [1e-6] and the covariance
    [0.95 * covariance] and cut off at [40]; the contribution is a positive
    real number and at most [exp 40]. *)
Theorem pair_density_clamped (mean1 var1 mean2 var2 covariance : R)
    (y_pdf_support : list R) :
  var1 * var2 - covariance ^ 2 < 0 ->
  (forall s,
     pair_density mean1 var1 mean2 var2 covariance s
     = Ok (exp (Rmin (clamped_args mean1 var1 mean2 var2 covariance s) 40))) /\
  (forall s x,
     pair_density mean1 var1 mean2 var2 covariance s = Ok x ->
     0 < x <= exp 40) /\
  exists dens,
    map_result (pair_density mean1 var1 mean2 var2 covariance) y_pdf_support
    = Ok dens /\
    length dens = length y_pdf_support /\
    Forall (fun x => 0 < x <= exp 40) dens.
Proof.
  intros Hdet.
  assert (Heq : forall s,
     pair_density mean1 var1 mean2 var2 covariance s
     = Ok (exp (Rmin (clamped_args mean1 var1 mean2 var2 covariance s) 40))).
  { intros s. unfold pair_density.
    destruct (Rlt_dec (var1 * var2 - covariance ^ 2) 0) as [_ | C]; [|lra].
    unfold np_divide.
    destruct (Req_dec_T 1e-6 0) as [E | _]; [lra|]. cbn [bind].
    pose proof (sqrt_four_pi2_pos (d := 1e-6) ltac:(lra)) as Hc.
    destruct (Req_dec_T (sqrt (4 * PI ^ 2 * 1e-6)) 0) as [E | _]; [lra|].
    cbn [bind]. f_equal. f_equal.
    match goal with
    | |- (if Rlt_dec 40 ?a then _ else _) = _ =>
        replace a with (clamped_args mean1 var1 mean2 var2 covariance s)
    end.
    2:{ unfold clamped_args. decimals. field. }
    unfold Rmin.
    destruct (Rlt_dec 40 (clamped_args mean1 var1 mean2 var2 covariance s));
      destruct (Rle_dec (clamped_args mean1 var1 mean2 var2 covariance s) 40);
      try reflexivity; lra. }
  assert (Hbound : forall a, 0 < exp (Rmin a 40) <= exp 40).
  { intros a. split; [apply exp_pos|].
    destruct (Rle_lt_or_eq_dec _ _ (Rmin_r a 40)) as [Hlt | ->]; [|lra].
    left. now apply exp_increasing. }
  split; [exact Heq|]. split.
  - intros s x Hx. rewrite Heq in Hx. injection Hx as <-. apply Hbound.
  - eexists. split; [apply map_result_ok; intros s _; apply Heq|]. split.
    + apply length_map.
    + rewrite Forall_forall. intros x Hx. apply in_map_iff in Hx.
      destruct Hx as [s [<- _]]. apply Hbound.
Qed.

Lemma pair_density_clamped_witness :
  1 * 1 - 2 ^ 2 < 0 /\
  pair_density 0 1 0 1 2 0 = Ok (exp (Rmin (clamped_args 0 1 0 1 2 0) 40)).
Proof.
  split; [lra|].
  apply (@pair_density_clamped 0 1 0 1 2 [0]). lra.
Defined.

(** ** Feature strategies *)

Lemma eqb_neq_string (a b : string) : a <> b -> String.eqb a b = false.
Proof. apply String.eqb_neq. Qed.

Lemma calculate_p_yhf_mean_state (st : BMFMCModel.self) :
  snd (BMFMCModel._calculate_p_yhf_mean st) = st \/
  exists p,
    snd (BMFMCModel._calculate_p_yhf_mean st)
    = BMFMCModel.set_p_yhf_mean (Some p) st.
Proof.
  unfold BMFMCModel._calculate_p_yhf_mean. method_unfold.
  destruct (BMFMCModel.var_y_mc st); [|now left].
  destruct (BMFMCModel.m_f_mc st); [|now left].
  destruct (p_yhf_mean_of _ _ _); [right; eexists; reflexivity | now left ..].
Qed.

(** C9.  A model whose probabilistic mapping has not been built.
    [eval_surrogate_accuracy_cv] raises [RuntimeError]: the interface is
    not asked for a cross-validation, no error measure is returned and the
    model is left as it was.  When the interface keeps the contract of the
    mapping, by which a prediction on an unbuilt mapping fails with the
    state error, every prediction that the model asks for fails with
    [RuntimeError]; the query of the posterior covariance in
    [_calculate_p_yhf_var] raises it and leaves the model as it was, and
    [compute_pyhf_statistics] with the variance flag set ends in it once
    the mean density is computed, so that no variance is returned. *)
Theorem unbuilt_mapping_state_error
    (st : BMFMCModel.self) (itf : BMFMCModel.BmfmcInterface) :
  BMFMCModel.interface st = Some itf ->
  BMFMCModel.is_initiliazed itf = false ->
  (forall (Z_arr Y_HF : option matrix) (k_fold : BinNums.Z)
          (measures : list string),
     BMFMCModel.eval_surrogate_accuracy_cv Z_arr Y_HF k_fold measures st
     = (Raise RuntimeError, st)) /\
  (BMFMCModel.predict_needs_build itf ->
   (forall Z_query : matrix,
      BMFMCModel.interface_map itf Z_query = Raise RuntimeError /\
      BMFMCModel.interface_map_full_cov itf Z_query = Raise RuntimeError) /\
   (forall Z : matrix,
      BMFMCModel.Z_mc st = Some Z ->
      BMFMCModel._calculate_p_yhf_var st = (Raise RuntimeError, st) /\
      (BMFMCModel.predictive_var_bool st = true ->
       BMFMCModel.compute_pyhf_statistics st
       = (match fst (BMFMCModel._calculate_p_yhf_mean st) with
          | Ok _ => Raise RuntimeError
          | Raise e => Raise e
          | NotReal => NotReal
          end,
          snd (BMFMCModel._calculate_p_yhf_mean st))))).
Proof.
  intros Hitf Hinit. split.
  - intros Z_arr Y_HF k_fold measures.
    unfold BMFMCModel.eval_surrogate_accuracy_cv.
    method_unfold. rewrite Hitf, Hinit. reflexivity.
  - intros Hcontract. pose proof (Hcontract Hinit) as Hfail.
    split; [exact Hfail|].
    assert (Hvar : forall s Z,
               BMFMCModel.interface s = Some itf ->
               BMFMCModel.Z_mc s = Some Z ->
               BMFMCModel._calculate_p_yhf_var s = (Raise RuntimeError, s)).
    { intros s Z Hi HZ. unfold BMFMCModel._calculate_p_yhf_var.
      method_unfold. rewrite Hi, HZ.
      rewrite (proj2 (Hfail (transpose Z))). reflexivity. }
    intros Z HZ. split; [now apply Hvar with Z|].
    intros Hflag. unfold BMFMCModel.compute_pyhf_statistics.
    unfold mbind at 1.
    destruct (BMFMCModel._calculate_p_yhf_mean st) as [r st'] eqn:Hmean.
    assert (Hst' : BMFMCModel.interface st' = Some itf /\
                   BMFMCModel.Z_mc st' = Some Z /\
                   BMFMCModel.predictive_var_bool st' = true).
    { pose proof (calculate_p_yhf_mean_state st) as Hs.
      rewrite Hmean in Hs. cbn [snd] in Hs.
      destruct Hs as [-> | [p ->]]; [now repeat split|].
      destruct st; cbn in *. now repeat split. }
    destruct Hst' as (Hi' & HZ' & Hf').
    cbn [fst snd]. destruct r as [[]|e|]; [|reflexivity ..].
    unfold mbind, gets. rewrite Hf'. now apply Hvar with Z.
Qed.

(** C8.  With a [features_config] that is none of the supported tags, the
    feature constructor of the model raises [ValueError] and leaves every
    attribute, [Z_train] and [Z_mc] among them, as it was; the one of the
    iterator raises [IOError] after it has tiled the coordinates, and
    leaves [Z_train] as it was. *)
Theorem set_feature_strategy_unknown_tag (tag : string) :
  (forall st : BMFMCModel.self,
     BMFMCModel.features_config (BMFMCModel.settings_probab_mapping st)
     = Some tag ->
     tag <> "man_features"%string -> tag <> "opt_features"%string ->
     tag <> "no_features"%string ->
     BMFMCModel.set_feature_strategy st = (Raise ValueError, st)) /\
  (forall (st : BMFIAIterator.self) (X : matrix),
     BMFIAIterator.features_config (BMFIAIterator.settings_probab_mapping st)
     = Some tag ->
     BMFIAIterator.X_train st = Some X ->
     tag <> "man_features"%string -> tag <> "opt_features"%string ->
     tag <> "coord_features"%string -> tag <> "no_features"%string ->
     tag <> "time_features"%string ->
     exists st',
       BMFIAIterator._set_feature_strategy st = (Raise IOError, st') /\
       BMFIAIterator.Z_train st' = BMFIAIterator.Z_train st /\
       BMFIAIterator.evaluations st' = BMFIAIterator.evaluations st).
Proof.
  split.
  - intros st Hcfg H1 H2 H3. unfold BMFMCModel.set_feature_strategy.
    method_unfold. rewrite Hcfg.
    rewrite (eqb_neq_string H1), (eqb_neq_string H2), (eqb_neq_string H3).
    reflexivity.
  - intros st X Hcfg HX H1 H2 H3 H4 H5.
    unfold BMFIAIterator._set_feature_strategy. method_unfold.
    rewrite HX. cbn. rewrite Hcfg.
    rewrite (eqb_neq_string H1), (eqb_neq_string H2), (eqb_neq_string H3),
      (eqb_neq_string H4), (eqb_neq_string H5).
    eexists. split; [reflexivity|]. split; reflexivity.
Qed.

(** C6.  Under [no_features] the feature matrices are the low-fidelity
    outputs themselves.  In the model, whatever the outcome of the update
    of the model variables that follows, [Z_train] is [Y_LFs_train] and
    [Z_mc] is [Y_LFs_mc], and the two outputs are not changed.  In the
    iterator, which has no Monte-Carlo feature matrix, the call succeeds
    and [Z_train] is [Y_LF_train]. *)
Theorem no_features_identity :
  (forall st : BMFMCModel.self,
     BMFMCModel.features_config (BMFMCModel.settings_probab_mapping st)
     = Some "no_features"%string ->
     exists r st',
       BMFMCModel.set_feature_strategy st = (r, st') /\
       BMFMCModel.Z_train st' = BMFMCModel.Y_LFs_train st /\
       BMFMCModel.Z_mc st' = BMFMCModel.Y_LFs_mc st /\
       BMFMCModel.Y_LFs_train st' = BMFMCModel.Y_LFs_train st /\
       BMFMCModel.Y_LFs_mc st' = BMFMCModel.Y_LFs_mc st /\
       (forall Y Z_mc, BMFMCModel.Y_LFs_train st = Some Y ->
                       BMFMCModel.Y_LFs_mc st = Some Z_mc -> r = Ok tt)) /\
  (forall (st : BMFIAIterator.self) (X : matrix),
     BMFIAIterator.features_config (BMFIAIterator.settings_probab_mapping st)
     = Some "no_features"%string ->
     BMFIAIterator.X_train st = Some X ->
     exists st',
       BMFIAIterator._set_feature_strategy st = (Ok tt, st') /\
       BMFIAIterator.Z_train st'
       = option_map BMFIAIterator.Arr2 (BMFIAIterator.Y_LF_train st) /\
       BMFIAIterator.Y_LF_train st' = BMFIAIterator.Y_LF_train st).
Proof.
  split.
  - intros st Hcfg. unfold BMFMCModel.set_feature_strategy.
    method_unfold. rewrite Hcfg. cbn.
    unfold BMFMCModel.update_model_variables. method_unfold.
    destruct (BMFMCModel.Y_LFs_train st) as [Y|] eqn:EY;
      [destruct (BMFMCModel.Y_LFs_mc st) as [Zmc|] eqn:EZ|];
      do 2 eexists; (split; [reflexivity|]); cbn;
      repeat split; try reflexivity; try congruence.
  - intros st X Hcfg HX.
    unfold BMFIAIterator._set_feature_strategy. method_unfold.
    rewrite HX. cbn. rewrite Hcfg. cbn.
    eexists. split; [reflexivity|]. split; reflexivity.
Qed.

(** ** The lookup of the high-fidelity training data *)

Lemma Req_bool_true_iff (x y : R) : Req_bool x y = true <-> x = y.
Proof.
  unfold Req_bool. destruct (Req_dec_T x y); split; congruence.
Qed.

Lemma forallb_combine_eq (r row : list R) :
  length r = length row ->
  forallb (fun p => Req_bool (fst p) (snd p)) (combine r row) = true
  <-> r = row.
Proof.
  revert row; induction r as [|x r IH]; intros [|y row] Hlen;
    simpl in *; try discriminate.
  - split; reflexivity.
  - injection Hlen as Hlen. rewrite andb_true_iff, Req_bool_true_iff, (IH row Hlen).
    split; [intros [-> ->]; reflexivity | intros [= -> ->]; split; reflexivity].
Qed.

Lemma index_of_true_first {A : Type} (f : A -> bool) (l : list A) (x : A) :
  In x l -> f x = true ->
  exists j y,
    BMFMCModel.index_of_true (map f l) = Some j /\ nth_error l j = Some y /\
    f y = true /\
    forall j' z, (j' < j)%nat -> nth_error l j' = Some z -> f z = false.
Proof.
  induction l as [|a l IH]; intros Hin Hx; [contradiction|].
  simpl. destruct (f a) eqn:Ea.
  - exists O, a. repeat split; try assumption. intros j' z Hj'. lia.
  - destruct Hin as [-> | Hin]; [congruence|].
    destruct (IH Hin Hx) as [j [y [Hidx [Hnth [Hy Hbefore]]]]].
    exists (S j), y. rewrite Hidx. repeat split; try assumption.
    intros [|j'] z Hj' Hz; simpl in Hz.
    + injection Hz as <-. assumption.
    + apply (Hbefore j' z); [lia | assumption].
Qed.

Lemma first_match_spec (X : matrix) (row : list R) :
  wf_matrix X -> length row = ncols X -> In row (rows X) ->
  exists j,
    BMFMCModel.first_match (Some X) row = Ok j /\
    nth_error (rows X) j = Some row /\
    forall j', (j' < j)%nat -> nth_error (rows X) j' <> Some row.
Proof.
  intros Hwf Hlen Hin.
  unfold BMFMCModel.first_match, BMFMCModel.rows_equal.
  rewrite Hlen, Nat.eqb_refl. cbn [bind].
  set (f := fun r : list R =>
              forallb (fun p => Req_bool (fst p) (snd p)) (combine r row)).
  assert (Hf : forall r, In r (rows X) -> (f r = true <-> r = row)).
  { intros r Hr. apply forallb_combine_eq.
    unfold wf_matrix in Hwf. rewrite Forall_forall in Hwf.
    rewrite (Hwf r Hr). symmetry. assumption. }
  destruct (@index_of_true_first _ f (rows X) row Hin) as
    [j [y [Hidx [Hnth [Hy Hbefore]]]]].
  { apply Hf; [assumption | reflexivity]. }
  exists j. rewrite Hidx. split; [reflexivity|].
  assert (y = row) as ->.
  { apply Hf; [eapply nth_error_In; eassumption | assumption]. }
  split; [assumption|].
  intros j' Hj' Hrow. specialize (Hbefore j' row Hj' Hrow).
  assert (f row = true) by (apply Hf; [assumption | reflexivity]).
  congruence.
Qed.

Lemma map_result_Forall2 {A B : Type} (f : A -> result B) (P : A -> B -> Prop)
    (l : list A) :
  (forall x, In x l -> exists y, f x = Ok y /\ P x y) ->
  exists ys, map_result f l = Ok ys /\ Forall2 P l ys.
Proof.
  induction l as [|x l IH]; intros H; simpl.
  - exists []. split; [reflexivity | constructor].
  - destruct (H x) as [y [Hy HP]]; [now left|].
    destruct IH as [ys [Hys HF]]; [intros z Hz; apply H; now right|].
    exists (y :: ys). rewrite Hy. cbn [bind]. rewrite Hys. cbn [bind].
    split; [reflexivity | now constructor].
Qed.

Lemma Forall2_nth_error {A B : Type} (P : A -> B -> Prop) (l : list A)
    (l' : list B) (i : nat) (x : A) :
  Forall2 P l l' -> nth_error l i = Some x ->
  exists y, nth_error l' i = Some y /\ P x y.
Proof.
  intros HF. revert i. induction HF as [|a b l l' Hab _ IH]; intros [|i] Hi;
    simpl in *; try discriminate.
  - injection Hi as <-. exists b. split; [reflexivity | assumption].
  - apply IH. assumption.
Qed.

Lemma Forall2_nth_error_r {A B : Type} (P : A -> B -> Prop) (l : list A)
    (l' : list B) (i : nat) (y : B) :
  Forall2 P l l' -> nth_error l' i = Some y ->
  exists x, nth_error l i = Some x /\ P x y.
Proof.
  intros HF. revert i. induction HF as [|a b l l' Hab _ IH]; intros [|i] Hi;
    simpl in *; try discriminate.
  - injection Hi as <-. exists a. split; [reflexivity | assumption].
  - apply IH. assumption.
Qed.

(** C7.  With a high-fidelity Monte-Carlo benchmark, and every row of
    [X_train] present among the rows of [X_mc], the lookup succeeds:
    [Y_HF_train] is a column with one entry per row of [X_train], and its
    entry [i] is [Y_HF_mc[j]] for the first index [j] at which the row of
    [X_mc] equals the row [i] of [X_train].  Without a benchmark the method
    raises an error and assigns nothing, whether or not the model holds a
    subordinate high-fidelity model: [NotImplementedError] when [X_train]
    is set, [ValueError] when it is not. *)
Theorem get_hf_training_data_lookup :
  (forall (st : BMFMCModel.self) (X_tr X : matrix) (Y : list R),
     BMFMCModel.X_train st = Some X_tr ->
     BMFMCModel.X_mc st = Some X ->
     BMFMCModel.Y_HF_mc st = Some Y ->
     wf_matrix X_tr -> wf_matrix X ->
     ncols X_tr = ncols X -> (0 < ncols X)%nat ->
     length Y = nrows X ->
     (forall row, In row (rows X_tr) -> In row (rows X)) ->
     exists ys,
       BMFMCModel.get_hf_training_data st
       = (Ok tt,
          BMFMCModel.set_Y_HF_train (Some (Mat 1 (map (fun y => [y]) ys))) st) /\
       length ys = nrows X_tr /\
       forall i row,
         nth_error (rows X_tr) i = Some row ->
         exists j y,
           nth_error (rows X) j = Some row /\
           (forall j', (j' < j)%nat -> nth_error (rows X) j' <> Some row) /\
           nth_error Y j = Some y /\
           nth_error ys i = Some y) /\
  (forall st : BMFMCModel.self,
     BMFMCModel.Y_HF_mc st = None ->
     BMFMCModel.get_hf_training_data st
     = (Raise (match BMFMCModel.X_train st with
               | Some _ => NotImplementedError
               | None => ValueError
               end), st)).
Proof.
  split.
  - intros st X_tr X Y HXtr HX HY Hwf_tr Hwf Hcols Hpos HlenY Hsub.
    assert (Hrows : exists js,
              map_result (BMFMCModel.first_match (Some X)) (rows X_tr) = Ok js /\
              Forall2 (fun row j =>
                         nth_error (rows X) j = Some row /\
                         forall j', (j' < j)%nat ->
                                    nth_error (rows X) j' <> Some row)
                      (rows X_tr) js).
    { apply map_result_Forall2. intros row Hrow.
      apply first_match_spec; [assumption| |now apply Hsub].
      unfold wf_matrix in Hwf_tr. rewrite Forall_forall in Hwf_tr.
      rewrite (Hwf_tr row Hrow). assumption. }
    destruct Hrows as [js [Hjs HF]].
    assert (Hys : exists ys,
              map_result (fun index => of_option IndexError (nth_error Y index)) js
              = Ok ys /\
              Forall2 (fun j y => nth_error Y j = Some y) js ys).
    { apply map_result_Forall2. intros j Hj.
      assert (Hlt : (j < length Y)%nat).
      { apply In_nth_error in Hj. destruct Hj as [i Hi].
        destruct (Forall2_nth_error_r i HF Hi) as [row [_ [Hrow _]]].
        rewrite HlenY. unfold nrows. apply nth_error_Some. congruence. }
      destruct (nth_error Y j) as [y0|] eqn:Ey.
      - exists y0. split; reflexivity.
      - apply nth_error_None in Ey. lia. }
    destruct Hys as [ys [Hys HF']].
    exists ys. split; [|split].
    + unfold BMFMCModel.get_hf_training_data.
      unfold mbind, mret, lift, raise, gets, modify.
      rewrite HXtr, HY, HX.
      destruct (ncols X_tr) eqn:En; [lia|].
      rewrite Hjs, Hys. reflexivity.
    + apply Forall2_length in HF, HF'. unfold nrows. congruence.
    + intros i row Hi.
      destruct (Forall2_nth_error i HF Hi) as [j [Hj [Hrow Hfirst]]].
      destruct (Forall2_nth_error i HF' Hj) as [y [Hy HYj]].
      exists j, y. repeat split; assumption.
  - intros st HY. unfold BMFMCModel.get_hf_training_data. method_unfold.
    destruct (BMFMCModel.X_train st); [rewrite HY|]; reflexivity.
Qed.

(** The training inputs 3 and 1 among the Monte-Carlo inputs 1, 2, 3, 1:
    the input 1 is found at its first place, with the output 11. *)
Example get_hf_training_data_example :
  BMFMCModel.get_hf_training_data (example_model "no_features" 1 true)
  = (Ok tt,
     BMFMCModel.set_Y_HF_train (Some (Mat 1 [[31]; [11]]))
       (example_model "no_features" 1 true)).
Proof.
  unfold BMFMCModel.get_hf_training_data.
  unfold mbind, mret, lift, raise, gets, modify.
  cbn [BMFMCModel.X_train BMFMCModel.Y_HF_mc BMFMCModel.X_mc example_model
       ncols rows map_result].
  unfold BMFMCModel.first_match, BMFMCModel.rows_equal.
  cbn [ncols rows length Nat.eqb bind map combine forallb fst snd].
  unfold Req_bool. Rdecide.
  cbn. reflexivity.
Qed.

(** ** The validation of [num_features] *)

(** [eval_model] changes neither the settings nor [X_train], and when it
    succeeds it has evaluated the low-fidelity and then the high-fidelity
    model. *)
Lemma eval_model_inv (st st1 : BMFIAIterator.self) (r : result unit) :
  BMFIAIterator.eval_model st = (r, st1) ->
  BMFIAIterator.settings_probab_mapping st1
  = BMFIAIterator.settings_probab_mapping st /\
  BMFIAIterator.X_train st1 = BMFIAIterator.X_train st /\
  (r = Ok tt ->
   BMFIAIterator.evaluations st1
   = BMFIAIterator.HF :: BMFIAIterator.LF :: BMFIAIterator.evaluations st).
Proof.
  unfold BMFIAIterator.eval_model,
    BMFIAIterator._evaluate_LF_model_for_X_train,
    BMFIAIterator._evaluate_HF_model_for_X_train.
  method_unfold. cbn.
  destruct (BMFIAIterator.lf_model st (BMFIAIterator.X_train st)) as [lf| |];
    cbn; try (intros [= <- <-]; repeat split; discriminate).
  destruct (reshape_cols lf _) as [Y_LF| |];
    cbn; try (intros [= <- <-]; repeat split; discriminate).
  destruct (BMFIAIterator.hf_model st (BMFIAIterator.X_train st)) as [hf| |];
    cbn; try (intros [= <- <-]; repeat split; discriminate).
  destruct (reshape_cols hf _) as [Y_HF| |];
    cbn; intros [= <- <-]; repeat split; discriminate.
Qed.

(** C5, as the code has it.  With [opt_features] and [num_features < 1]
    the feature strategy raises [ValueError].  In the model it does so
    without changing an attribute, also when it is reached through
    [build_approximation] after the lookup of the training data.  In the
    iterator the strategy itself evaluates no model, but [core_run] reaches
    it only after [eval_model]: when the two evaluations succeed, the error
    is raised with the low- and the high-fidelity model both evaluated. *)
Theorem opt_features_validation (k : Z) :
  (k < 1)%Z ->
  (forall st : BMFMCModel.self,
     BMFMCModel.features_config (BMFMCModel.settings_probab_mapping st)
     = Some "opt_features"%string ->
     BMFMCModel.num_features (BMFMCModel.settings_probab_mapping st)
     = Some k ->
     BMFMCModel.set_feature_strategy st = (Raise ValueError, st) /\
     forall st1,
       BMFMCModel.get_hf_training_data st = (Ok tt, st1) ->
       BMFMCModel.build_approximation true st = (Raise ValueError, st1)) /\
  (forall (st : BMFIAIterator.self) (X : matrix),
     BMFIAIterator.features_config (BMFIAIterator.settings_probab_mapping st)
     = Some "opt_features"%string ->
     BMFIAIterator.num_features (BMFIAIterator.settings_probab_mapping st)
     = Some k ->
     BMFIAIterator.X_train st = Some X ->
     (exists st',
        BMFIAIterator._set_feature_strategy st = (Raise ValueError, st') /\
        BMFIAIterator.evaluations st' = BMFIAIterator.evaluations st /\
        BMFIAIterator.Z_train st' = BMFIAIterator.Z_train st) /\
     forall st1,
       BMFIAIterator.eval_model st = (Ok tt, st1) ->
       exists st',
         BMFIAIterator.core_run st = (Raise ValueError, st') /\
         BMFIAIterator.evaluations st'
         = BMFIAIterator.HF :: BMFIAIterator.LF
             :: BMFIAIterator.evaluations st).
Proof.
  intros Hk. apply Z.ltb_lt in Hk.
  assert (Hstrategy : forall (st : BMFIAIterator.self) (X : matrix),
     BMFIAIterator.features_config (BMFIAIterator.settings_probab_mapping st)
     = Some "opt_features"%string ->
     BMFIAIterator.num_features (BMFIAIterator.settings_probab_mapping st)
     = Some k ->
     BMFIAIterator.X_train st = Some X ->
     exists st',
        BMFIAIterator._set_feature_strategy st = (Raise ValueError, st') /\
        BMFIAIterator.evaluations st' = BMFIAIterator.evaluations st /\
        BMFIAIterator.Z_train st' = BMFIAIterator.Z_train st).
  { intros st X Hcfg Hnum HX.
    unfold BMFIAIterator._set_feature_strategy. method_unfold.
    rewrite HX. cbn. rewrite Hcfg. cbn. rewrite Hnum, Hk.
    eexists. split; [reflexivity|]. split; reflexivity. }
  split.
  - intros st Hcfg Hnum.
    assert (Hraise : forall s,
              BMFMCModel.settings_probab_mapping s
              = BMFMCModel.settings_probab_mapping st ->
              BMFMCModel.set_feature_strategy s = (Raise ValueError, s)).
    { intros s Hs. unfold BMFMCModel.set_feature_strategy. method_unfold.
      rewrite Hs, Hcfg. cbn. rewrite Hs, Hnum, Hk. reflexivity. }
    split; [apply Hraise; reflexivity|].
    intros st1 Hget. unfold BMFMCModel.build_approximation.
    unfold mbind at 1. unfold mbind at 1. unfold mbind at 1. rewrite Hget.
    unfold mbind at 1. unfold mbind at 1.
    rewrite Hraise; [reflexivity|].
    revert Hget. unfold BMFMCModel.get_hf_training_data. method_unfold.
    destruct (BMFMCModel.X_train st); [|discriminate].
    destruct (BMFMCModel.Y_HF_mc st); [|discriminate].
    destruct (match ncols m with O => _ | S _ => _ end); try discriminate.
    destruct (map_result _ a); try discriminate.
    intros [= <-]. reflexivity.
  - intros st X Hcfg Hnum HX.
    split; [now apply (Hstrategy st X)|].
    intros st1 Heval.
    destruct (eval_model_inv st Heval) as [Hset [HX1 Hev]].
    destruct (Hstrategy st1 X) as [st' [Hrun [Hev' _]]];
      try (rewrite Hset; assumption); try congruence.
    exists st'. split.
    + unfold BMFIAIterator.core_run. unfold mbind at 1. rewrite Heval.
      unfold mbind at 1. rewrite Hrun. reflexivity.
    + rewrite Hev'. apply Hev. reflexivity.
Qed.

(** ** The theorems at concrete objects *)

Lemma unbuilt_mapping_state_error_witness :
  BMFMCModel.eval_surrogate_accuracy_cv
    (Some (Mat 1 [[30]; [10]])) (Some (Mat 1 [[31]; [11]])) 5 ["mean_abs"%string]
    example_unbuilt_model
  = (Raise RuntimeError, example_unbuilt_model) /\
  BMFMCModel.interface_map example_unbuilt_interface (Mat 2 [[10; 20]])
  = Raise RuntimeError /\
  BMFMCModel._calculate_p_yhf_var example_unbuilt_model
  = (Raise RuntimeError, example_unbuilt_model) /\
  BMFMCModel.compute_pyhf_statistics example_unbuilt_model
  = (match fst (BMFMCModel._calculate_p_yhf_mean example_unbuilt_model) with
     | Ok _ => Raise RuntimeError
     | Raise e => Raise e
     | NotReal => NotReal
     end,
     snd (BMFMCModel._calculate_p_yhf_mean example_unbuilt_model)).
Proof.
  destruct (@unbuilt_mapping_state_error example_unbuilt_model
              example_unbuilt_interface eq_refl eq_refl) as [Hcv Hquery].
  destruct Hquery as [Hmap Hmodel].
  { intros _ Z_query. split; reflexivity. }
  destruct (Hmodel (Mat 1 [[10]; [20]]) eq_refl) as [Hvar Hstat].
  split; [apply Hcv|]. split; [apply Hmap|]. split; [exact Hvar|].
  apply Hstat. reflexivity.
Defined.

Lemma set_feature_strategy_unknown_tag_witness :
  BMFMCModel.set_feature_strategy (example_model "bogus" 1 true)
  = (Raise ValueError, example_model "bogus" 1 true) /\
  exists st',
    BMFIAIterator._set_feature_strategy (example_iterator "bogus" 1)
    = (Raise IOError, st') /\
    BMFIAIterator.Z_train st'
    = BMFIAIterator.Z_train (example_iterator "bogus" 1) /\
    BMFIAIterator.evaluations st'
    = BMFIAIterator.evaluations (example_iterator "bogus" 1).
Proof.
  split.
  - apply (proj1 (set_feature_strategy_unknown_tag "bogus")
                 (example_model "bogus" 1 true));
      [reflexivity | discriminate | discriminate | discriminate].
  - apply (proj2 (set_feature_strategy_unknown_tag "bogus")
                 (example_iterator "bogus" 1) (Mat 1 [[1]]));
      first [reflexivity | discriminate].
Defined.

Lemma no_features_identity_witness :
  (exists r st',
     BMFMCModel.set_feature_strategy (example_model "no_features" 1 true)
     = (r, st') /\
     BMFMCModel.Z_train st' = Some (Mat 1 [[30]; [10]]) /\
     BMFMCModel.Z_mc st' = Some (Mat 1 [[10]; [20]; [30]; [10]]) /\
     BMFMCModel.Y_LFs_train st' = Some (Mat 1 [[30]; [10]]) /\
     BMFMCModel.Y_LFs_mc st' = Some (Mat 1 [[10]; [20]; [30]; [10]]) /\
     (forall Y Z_mc, Some (Mat 1 [[30]; [10]]) = Some Y ->
                     Some (Mat 1 [[10]; [20]; [30]; [10]]) = Some Z_mc ->
                     r = Ok tt)) /\
  exists st',
    BMFIAIterator._set_feature_strategy (example_iterator "no_features" 1)
    = (Ok tt, st') /\
    BMFIAIterator.Z_train st' = option_map BMFIAIterator.Arr2 None /\
    BMFIAIterator.Y_LF_train st' = None.
Proof.
  split.
  - apply (proj1 no_features_identity (example_model "no_features" 1 true)).
    reflexivity.
  - apply (proj2 no_features_identity (example_iterator "no_features" 1)
                 (Mat 1 [[1]])); reflexivity.
Defined.

Lemma opt_features_validation_witness :
  BMFMCModel.set_feature_strategy (example_model "opt_features" 0 true)
  = (Raise ValueError, example_model "opt_features" 0 true) /\
  exists st',
    BMFIAIterator.core_run (example_iterator "opt_features" 0)
    = (Raise ValueError, st') /\
    BMFIAIterator.evaluations st' = [BMFIAIterator.HF; BMFIAIterator.LF].
Proof.
  split.
  - apply (proj1 (@opt_features_validation 0 ltac:(lia))
                 (example_model "opt_features" 0 true)); reflexivity.
  - apply (proj2 (proj2 (@opt_features_validation 0 ltac:(lia))
                        (example_iterator "opt_features" 0) (Mat 1 [[1]])
                        eq_refl eq_refl eq_refl)
                 (snd (BMFIAIterator.eval_model
                         (example_iterator "opt_features" 0)))).
    reflexivity.
Defined.

(** The claim C5 as it is stated fails on [core_run]: with [opt_features]
    and [num_features = 0] the iterator, which had evaluated no model,
    raises the [ValueError] with both models evaluated. *)
Lemma core_run_validates_after_evaluation :
  fst (BMFIAIterator.core_run (example_iterator "opt_features" 0))
  = Raise ValueError /\
  BMFIAIterator.evaluations (example_iterator "opt_features" 0) = [] /\
  BMFIAIterator.evaluations
    (snd (BMFIAIterator.core_run (example_iterator "opt_features" 0)))
  = [BMFIAIterator.HF; BMFIAIterator.LF].
Proof. repeat split. Qed.

Lemma get_hf_training_data_lookup_witness :
  (exists ys,
     BMFMCModel.get_hf_training_data (example_model "no_features" 1 true)
     = (Ok tt,
        BMFMCModel.set_Y_HF_train (Some (Mat 1 (map (fun y => [y]) ys)))
          (example_model "no_features" 1 true)) /\
     length ys = 2%nat /\
     forall i row,
       nth_error [[3]; [1]] i = Some row ->
       exists j y,
         nth_error [[1]; [2]; [3]; [1]] j = Some row /\
         (forall j', (j' < j)%nat ->
                     nth_error [[1]; [2]; [3]; [1]] j' <> Some row) /\
         nth_error [11; 21; 31; 12] j = Some y /\
         nth_error ys i = Some y) /\
  BMFMCModel.get_hf_training_data example_no_benchmark
  = (Raise NotImplementedError, example_no_benchmark).
Proof.
  split.
  - apply (proj1 get_hf_training_data_lookup
                 (example_model "no_features" 1 true)
                 (Mat 1 [[3]; [1]]) (Mat 1 [[1]; [2]; [3]; [1]])
                 [11; 21; 31; 12]);
      try reflexivity.
    + repeat constructor.
    + repeat constructor.
    + simpl. lia.
    + simpl. intros row [<- | [<- | []]]; auto.
  - apply (proj2 get_hf_training_data_lookup example_no_benchmark).
    reflexivity.
Defined.

(** ** The posterior variance *)

Lemma sqrt_four_pi2 (d : R) : 0 <= d -> sqrt (4 * PI ^ 2 * d) = 2 * PI * sqrt d.
Proof.
  intros Hd. pose proof PI_RGT_0 as Hpi.
  replace (4 * PI ^ 2 * d) with ((2 * PI) ^ 2 * d) by ring.
  rewrite sqrt_mult; [|nra|assumption].
  rewrite sqrt_pow2 by lra. reflexivity.
Qed.

(** Without the clamp and below the cut-off, one pass of the inner loop
    adds the bivariate normal density at [(s, s)]. *)
Lemma pair_density_regular (mean1 var1 mean2 var2 covariance s : R) :
  0 < var1 * var2 - covariance ^ 2 ->
  bivariate_normal_density mean1 var1 mean2 var2 covariance s s <= exp 40 ->
  pair_density mean1 var1 mean2 var2 covariance s
  = Ok (bivariate_normal_density mean1 var1 mean2 var2 covariance s s).
Proof.
  intros Hdet Hcut. unfold pair_density.
  set (det := var1 * var2 - covariance ^ 2) in *.
  destruct (Rlt_dec det 0) as [C | _]; [lra|].
  unfold np_divide.
  destruct (Req_dec_T det 0) as [E | _]; [lra|]. cbn [bind].
  pose proof (sqrt_four_pi2_pos Hdet) as Hc.
  destruct (Req_dec_T (sqrt (4 * PI ^ 2 * det)) 0) as [E | _]; [lra|].
  cbn [bind]. f_equal.
  set (q := (var2 * (s - mean1) ^ 2
             - 2 * covariance * (s - mean1) * (s - mean2)
             + var1 * (s - mean2) ^ 2) / det).
  assert (Hdens : bivariate_normal_density mean1 var1 mean2 var2 covariance s s
                  = exp (- q / 2 + ln (1 / sqrt (4 * PI ^ 2 * det)))).
  { unfold bivariate_normal_density. fold det. fold q.
    rewrite exp_plus, exp_ln by (apply Rdiv_lt_0_compat; lra).
    rewrite sqrt_four_pi2 by lra. unfold Rdiv. ring. }
  match goal with
  | |- exp (if Rlt_dec 40 ?a then _ else _) = _ =>
      replace a with (- q / 2 + ln (1 / sqrt (4 * PI ^ 2 * det)))
  end.
  2:{ unfold q. decimals. field. lra. }
  rewrite Hdens in *.
  destruct (Rlt_dec 40 _) as [C | _]; [|reflexivity].
  apply exp_increasing in C. lra.
Qed.

(** *** The two loops as one *)

Lemma map_result_length {A B : Type} (f : A -> result B) (l : list A)
    (ys : list B) :
  map_result f l = Ok ys -> length ys = length l.
Proof.
  revert ys; induction l as [|x l IH]; intros ys; simpl.
  - intros [= <-]. reflexivity.
  - destruct (f x); cbn [bind]; try discriminate.
    destruct (map_result f l); cbn [bind]; try discriminate.
    intros [= <-]. simpl. f_equal. now apply IH.
Qed.

Lemma mfold_ext {S A B : Type} (f g : B -> A -> method S B) (l : list A) :
  (forall b a s, f b a s = g b a s) ->
  forall b s, mfold f l b s = mfold g l b s.
Proof.
  intros H. induction l as [|x l IH]; intros b s; simpl; [reflexivity|].
  unfold mbind. rewrite H. destruct (g b x s) as [[b'| |] s']; auto.
Qed.

Lemma mfold_app {S A B : Type} (f : B -> A -> method S B) (l1 l2 : list A)
    (b : B) (s : S) :
  mfold f (l1 ++ l2) b s = (b' <~ mfold f l1 b ;; mfold f l2 b') s.
Proof.
  revert b s; induction l1 as [|x l1 IH]; intros b s; simpl.
  - reflexivity.
  - unfold mbind. destruct (f b x s) as [[b'| |] s']; [|reflexivity..].
    rewrite IH. reflexivity.
Qed.

Lemma mfold_map {S A A' B : Type} (f : B -> A' -> method S B) (h : A -> A')
    (l : list A) (b : B) (s : S) :
  mfold f (map h l) b s = mfold (fun b a => f b (h a)) l b s.
Proof.
  revert b s; induction l as [|x l IH]; intros b s; simpl; [reflexivity|].
  unfold mbind. destruct (f b (h x) s) as [[b'| |] s']; auto.
Qed.

Lemma mfold_flat_map {S A B C : Type} (g : A -> C -> B -> method S C)
    (h : A -> list B) (l : list A) (c : C) (s : S) :
  mfold (fun c a => mfold (g a) (h a) c) l c s
  = mfold (fun c ab => g (fst ab) c (snd ab))
          (flat_map (fun a => map (pair a) (h a)) l) c s.
Proof.
  revert c s; induction l as [|a l IH]; intros c s; simpl; [reflexivity|].
  rewrite mfold_app. unfold mbind. rewrite mfold_map. cbn [fst snd].
  change (fun b a0 => g a b a0) with (g a).
  destruct (mfold (g a) (h a) c s) as [[c'| |] s']; auto.
Qed.

Lemma set_p_yhf_var_twice (a b : option (list R)) (st : BMFMCModel.self) :
  BMFMCModel.set_p_yhf_var a (BMFMCModel.set_p_yhf_var b st)
  = BMFMCModel.set_p_yhf_var a st.
Proof. reflexivity. Qed.

(** The passes of the inner loop, when each of them yields its densities:
    the grid gathers their sum, [i] counts them, and the last pass leaves
    the variance estimate. *)
Lemma var_loop_ok (points p_mean : list R) (k_post : matrix)
    (items : list ((nat * (R * R)) * (nat * (R * R))))
    (denss : list (list R)) :
  length p_mean = length points ->
  Forall2 (pass_yields points k_post) items denss ->
  forall (grid : list R) (i : nat) (st : BMFMCModel.self),
    BMFMCModel.p_yhf_mean st = Some p_mean ->
    length grid = length points ->
    mfold (fun c ab =>
             BMFMCModel.var_inner_body points k_post (fst (fst ab))
               (fst (snd (fst ab))) (snd (snd (fst ab))) c (snd ab))
          items (grid, i) st
    = (Ok (fold_left vec_add denss grid, (i + length items)%nat),
       match items with
       | [] => st
       | _ =>
           BMFMCModel.set_p_yhf_var
             (Some (map (fun gp => 1 / INR (i + length items - 1) * fst gp
                                   - 0.9995 * snd gp ^ 2)
                        (combine (fold_left vec_add denss grid) p_mean)))
             st
       end).
Proof.
  intros Hlen HF.
  induction HF as [|it dens items denss Hit HF IH]; intros grid i st Hmean Hgrid.
  - simpl. unfold mret. rewrite Nat.add_0_r. reflexivity.
  - destruct it as [[num1 [mean1 var1]] [num2 [mean2 var2]]].
    destruct Hit as [cov [Hcov Hdens]]. cbn [fst snd] in Hcov, Hdens.
    assert (Hgrid' : length (vec_add grid dens) = length points).
    { rewrite length_vec_add, Hgrid, (map_result_length _ _ Hdens).
      apply Nat.min_id. }
    cbn [mfold fst snd]. unfold mbind at 1.
    unfold BMFMCModel.var_inner_body at 1.
    unfold mbind, mret, lift, modify, require, of_option.
    rewrite Hcov, Hdens, Hmean.
    rewrite broadcast_cols_same by congruence.
    match goal with
    | |- mfold _ _ _ ?st1 = _ =>
        rewrite (IH (vec_add grid dens) (S i) st1) by (reflexivity || assumption)
    end.
    cbn [fold_left length]. f_equal; [do 2 f_equal; lia|].
    destruct items as [|it' items'].
    + inversion HF; subst. cbn [fold_left length].
      replace (S i - 1)%nat with (i + 1 - 1)%nat by lia. reflexivity.
    + rewrite set_p_yhf_var_twice.
      replace (S i + length (it' :: items') - 1)%nat
        with (i + S (length (it' :: items')) - 1)%nat by lia.
      reflexivity.
Qed.

(** What [_calculate_p_yhf_var] computes when every pass of the inner
    loop yields its densities: the column sums of the densities, divided
    by the number of passes, less [0.9995] times the squared mean
    density. *)
Theorem calculate_p_yhf_var_accumulates (st : BMFMCModel.self)
    (itf : BMFMCModel.BmfmcInterface) (Z_mc k_post : matrix)
    (mu f_mean_pred yhf_var_pred p_mean : list R) (denss : list (list R)) :
  BMFMCModel.interface st = Some itf ->
  BMFMCModel.Z_mc st = Some Z_mc ->
  BMFMCModel.interface_map_full_cov itf (transpose Z_mc) = Ok (mu, k_post) ->
  BMFMCModel.m_f_mc st = Some f_mean_pred ->
  BMFMCModel.var_y_mc st = Some yhf_var_pred ->
  BMFMCModel.p_yhf_mean st = Some p_mean ->
  length p_mean = length (BMFMCModel.y_pdf_support st) ->
  loop_pairs f_mean_pred yhf_var_pred <> [] ->
  Forall2 (pass_yields (BMFMCModel.y_pdf_support st) k_post)
          (loop_pairs f_mean_pred yhf_var_pred) denss ->
  BMFMCModel._calculate_p_yhf_var st
  = (Ok tt,
     BMFMCModel.set_p_yhf_var
       (Some (map (fun gp =>
                     1 / INR (length (loop_pairs f_mean_pred yhf_var_pred))
                     * fst gp - 0.9995 * snd gp ^ 2)
                  (combine
                     (sum_axis0 (length (BMFMCModel.y_pdf_support st)) denss)
                     p_mean)))
       st).
Proof.
  intros Hitf HZ Hmap Hm Hv Hmean Hlen Hne HF.
  unfold BMFMCModel._calculate_p_yhf_var.
  unfold mbind at 1 2 3 4 5 6 7. unfold require, lift, gets, of_option.
  rewrite Hitf, HZ, Hmap, Hm, Hv. cbn [snd].
  rewrite (mfold_ext _
             (fun c a =>
                mfold (BMFMCModel.var_inner_body (BMFMCModel.y_pdf_support st)
                         k_post (fst a) (fst (snd a)) (snd (snd a)))
                      (enumerate (combine (skipn (S (fst a)) f_mean_pred)
                                          (skipn (S (fst a)) yhf_var_pred)))
                      c)).
  2:{ intros b [num1 [mean1 var1]] s. reflexivity. }
  rewrite (mfold_flat_map
             (fun a => BMFMCModel.var_inner_body (BMFMCModel.y_pdf_support st)
                         k_post (fst a) (fst (snd a)) (snd (snd a)))).
  fold (loop_pairs f_mean_pred yhf_var_pred).
  rewrite (var_loop_ok (p_mean := p_mean) Hlen HF);
    [|assumption|apply repeat_length].
  unfold mret. f_equal.
  destruct (loop_pairs f_mean_pred yhf_var_pred) as [|it items];
    [congruence|].
  unfold sum_axis0.
  replace (1 + length (it :: items) - 1)%nat with (length (it :: items))
    by lia.
  reflexivity.
Qed.

(** *** The pairs of samples *)

Lemma enumerate_nth {A : Type} (d : A) (l : list A) :
  enumerate l = map (fun i => (i, nth i l d)) (seq 0 (length l)).
Proof.
  unfold enumerate.
  assert (H : forall a, combine (seq a (length l)) l
                        = map (fun i => (i, nth (i - a) l d)) (seq a (length l))).
  { induction l as [|x l IH]; intros a; simpl; [reflexivity|].
    rewrite Nat.sub_diag. f_equal. rewrite IH.
    apply map_ext_in. intros i Hi. apply in_seq in Hi.
    replace (i - a)%nat with (S (i - S a)) by lia. reflexivity. }
  rewrite H. apply map_ext. intros i. now rewrite Nat.sub_0_r.
Qed.

Lemma nth_skipn {A : Type} (d : A) (k i : nat) (l : list A) :
  nth i (skipn k l) d = nth (k + i) l d.
Proof.
  revert l; induction k as [|k IH]; intros [|x l]; simpl; try reflexivity.
  - now destruct i.
  - apply IH.
Qed.

Lemma flat_map_map {A B C : Type} (f : B -> list C) (g : A -> B) (l : list A) :
  flat_map f (map g l) = flat_map (fun x => f (g x)) l.
Proof. induction l as [|x l IH]; simpl; [reflexivity | now rewrite IH]. Qed.

Lemma map_flat_map {A B C : Type} (f : A -> list B) (g : B -> C) (l : list A) :
  map g (flat_map f l) = flat_map (fun x => map g (f x)) l.
Proof.
  induction l as [|x l IH]; simpl; [reflexivity|]. now rewrite map_app, IH.
Qed.

Lemma seq_from (a n : nat) : seq a n = map (fun t => (a + t)%nat) (seq 0 n).
Proof.
  revert a; induction n as [|n IH]; intros a; simpl; [reflexivity|].
  rewrite Nat.add_0_r. f_equal. rewrite (IH (S a)), (IH 1%nat), map_map.
  apply map_ext. intros t. lia.
Qed.

Lemma loop_pairs_sample_pairs (m v : list R) :
  length m = length v ->
  loop_pairs m v
  = map (fun ij => ((fst ij, (nth (fst ij) m 0, nth (fst ij) v 0)),
                    ((snd ij - fst ij - 1)%nat,
                     (nth (snd ij) m 0, nth (snd ij) v 0))))
        (sample_pairs (length m)).
Proof.
  intros Hlen. unfold loop_pairs, sample_pairs.
  rewrite (enumerate_nth (0, 0)), length_combine, <- Hlen, Nat.min_id.
  rewrite flat_map_map, map_flat_map.
  apply flat_map_ext. intros i. cbn [fst].
  rewrite (enumerate_nth (0, 0)), length_combine, !length_skipn, <- Hlen,
    Nat.min_id.
  rewrite (seq_from (S i)), !map_map.
  apply map_ext. intros t. cbn [fst snd].
  rewrite !combine_nth by (rewrite ?length_skipn; congruence).
  rewrite !nth_skipn.
  replace (S i + t - i - 1)%nat with t by lia. reflexivity.
Qed.

Lemma sample_pairs_In (n i j : nat) :
  In (i, j) (sample_pairs n) <-> (i < j < n)%nat.
Proof.
  unfold sample_pairs. rewrite in_flat_map. split.
  - intros [i' [Hi' Hin]]. apply in_map_iff in Hin.
    destruct Hin as [j' [[= -> ->] Hj']].
    apply in_seq in Hi', Hj'. lia.
  - intros H. exists i. split; [apply in_seq; lia|].
    apply in_map_iff. exists j. split; [reflexivity | apply in_seq; lia].
Qed.

Lemma mat_get_nth (k_post : matrix) (i j : nat) (c : R) :
  mat_get k_post i j = Ok c ->
  (i < nrows k_post)%nat /\ nth j (nth i (rows k_post) []) 0 = c.
Proof.
  unfold mat_get, nrows.
  destruct (nth_error (rows k_post) i) as [row|] eqn:Ei; cbn; [|discriminate].
  destruct (nth_error row j) as [x|] eqn:Ej; cbn; [|discriminate].
  intros [= <-]. split.
  - apply nth_error_Some. congruence.
  - rewrite (nth_error_nth _ _ [] Ei). apply (nth_error_nth _ _ 0 Ej).
Qed.

Lemma shift_columns_nth (k_post : matrix) (i j : nat) :
  (i < nrows k_post)%nat -> (0 < j)%nat ->
  nth j (nth i (rows (shift_columns k_post)) []) 0
  = nth (j - 1) (nth i (rows k_post) []) 0.
Proof.
  intros Hi Hj. unfold shift_columns. cbn [rows].
  rewrite (nth_indep _ [] (cons 0 []))
    by (rewrite length_map; exact Hi).
  rewrite (map_nth (cons 0)).
  destruct j as [|j]; [lia|]. cbn [nth].
  replace (S j - 1)%nat with j by lia. reflexivity.
Qed.

Lemma nth_error_combine {A B : Type} (a : list A) (b : list B) (k : nat)
    (x : A) (y : B) :
  nth_error a k = Some x -> nth_error b k = Some y ->
  nth_error (combine a b) k = Some (x, y).
Proof.
  revert b k; induction a as [|a0 a IH]; intros [|b0 b] [|k]; simpl;
    try discriminate.
  - intros [= ->] [= ->]. reflexivity.
  - apply IH.
Qed.

Lemma Forall2_map_l {A B C : Type} (P : B -> C -> Prop) (f : A -> B)
    (g : A -> C) (l : list A) :
  (forall x, In x l -> P (f x) (g x)) -> Forall2 P (map f l) (map g l).
Proof.
  induction l as [|x l IH]; intros H; simpl; constructor.
  - apply H. now left.
  - apply IH. intros y Hy. apply H. now right.
Qed.

(** X12.  What [_calculate_p_yhf_var] computes for [N >= 2] samples when no
    pass is clamped or cut off: at every support point, the estimate of
    the specification for the covariance matrix with the columns shifted
    by one, since the pass for the samples [i < j] reads
    [k_post[i, j - 1]]. *)
Theorem calculate_p_yhf_var_shifted (st : BMFMCModel.self)
    (itf : BMFMCModel.BmfmcInterface) (Z_mc k_post : matrix)
    (mu m v p_mean : list R) :
  BMFMCModel.interface st = Some itf ->
  BMFMCModel.Z_mc st = Some Z_mc ->
  BMFMCModel.interface_map_full_cov itf (transpose Z_mc) = Ok (mu, k_post) ->
  BMFMCModel.m_f_mc st = Some m ->
  BMFMCModel.var_y_mc st = Some v ->
  BMFMCModel.p_yhf_mean st = Some p_mean ->
  length p_mean = length (BMFMCModel.y_pdf_support st) ->
  length m = length v ->
  (2 <= length m)%nat ->
  (forall i j,
     (i < j < length m)%nat ->
     exists c,
       mat_get k_post i (j - 1) = Ok c /\
       0 < nth i v 0 * nth j v 0 - c ^ 2 /\
       forall s,
         In s (BMFMCModel.y_pdf_support st) ->
         bivariate_normal_density (nth i m 0) (nth i v 0) (nth j m 0)
                                  (nth j v 0) c s s <= exp 40) ->
  exists p_yhf_var,
    BMFMCModel._calculate_p_yhf_var st
    = (Ok tt, BMFMCModel.set_p_yhf_var (Some p_yhf_var) st) /\
    length p_yhf_var = length (BMFMCModel.y_pdf_support st) /\
    forall k s q,
      nth_error (BMFMCModel.y_pdf_support st) k = Some s ->
      nth_error p_mean k = Some q ->
      nth_error p_yhf_var k
      = Some (p_yhf_var_spec m v (shift_columns k_post) q s).
Proof.
  intros Hitf HZ Hmap Hm Hv Hmean Hlenp Hlen Hn Hreg.
  set (cov := fun ij : nat * nat =>
                nth (snd ij - 1) (nth (fst ij) (rows k_post) []) 0).
  set (dens := fun (ij : nat * nat) (s : R) =>
                 bivariate_normal_density
                   (nth (fst ij) m 0) (nth (fst ij) v 0)
                   (nth (snd ij) m 0) (nth (snd ij) v 0) (cov ij) s s).
  set (denss := map (fun ij => map (dens ij) (BMFMCModel.y_pdf_support st))
                    (sample_pairs (length m))).
  assert (Hpairs : loop_pairs m v <> []).
  { rewrite (loop_pairs_sample_pairs _ _ Hlen).
    destruct (length m) as [|[|n]]; [lia | lia | discriminate]. }
  assert (HF : Forall2 (pass_yields (BMFMCModel.y_pdf_support st) k_post)
                       (loop_pairs m v) denss).
  { rewrite (loop_pairs_sample_pairs _ _ Hlen). unfold denss.
    apply Forall2_map_l. intros [i j] Hij. apply sample_pairs_In in Hij.
    destruct (Hreg i j Hij) as [c [Hc [Hdet Hcut]]].
    destruct (mat_get_nth _ _ _ Hc) as [_ Hnth].
    exists c. cbn [fst snd]. split.
    - replace (i + (j - i - 1))%nat with (j - 1)%nat by lia. exact Hc.
    - apply map_result_ok. intros s Hs. unfold dens, cov. cbn [fst snd].
      rewrite Hnth. apply pair_density_regular; [exact Hdet | now apply Hcut]. }
  eexists. split; [|split].
  - apply (calculate_p_yhf_var_accumulates st Hitf HZ Hmap Hm Hv Hmean Hlenp
             Hpairs HF).
  - rewrite length_map, length_combine. unfold sum_axis0.
    rewrite (length_fold_vec_add (n := length (BMFMCModel.y_pdf_support st))),
      Hlenp;
      [apply Nat.min_id | apply repeat_length |].
    unfold denss. rewrite Forall_forall. intros r Hr.
    apply in_map_iff in Hr. destruct Hr as [ij [<- _]]. apply length_map.
  - intros k s q Hs Hq. rewrite nth_error_map.
    assert (Hcol : nth_error (sum_axis0 (length (BMFMCModel.y_pdf_support st))
                                        denss) k
                   = Some (0 + Rsum (map (fun ij => dens ij s)
                                         (sample_pairs (length m))))).
    { unfold sum_axis0. apply nth_error_fold_vec_add.
      - apply nth_error_zeros. apply nth_error_Some. congruence.
      - unfold denss. apply Forall2_map_l. intros ij _.
        now rewrite nth_error_map, Hs. }
    rewrite (nth_error_combine _ _ _ Hcol Hq). cbn [option_map fst snd].
    f_equal. unfold p_yhf_var_spec.
    rewrite (loop_pairs_sample_pairs _ _ Hlen), length_map.
    match goal with
    | |- _ = Rsum (map ?f _) / _ - _ =>
        rewrite (map_ext_in f (fun ij => dens ij s))
    end.
    + unfold Rdiv. ring.
    + intros [i j] Hij. apply sample_pairs_In in Hij. unfold dens, cov.
      cbn [fst snd]. destruct (Hreg i j Hij) as [c [Hc _]].
      destruct (mat_get_nth _ _ _ Hc) as [Hi _].
      rewrite shift_columns_nth by lia. reflexivity.
Qed.

(** *** The covariance of a pair *)

Lemma bivariate_normal_density_at_mean (mean1 var1 mean2 var2 covariance : R) :
  bivariate_normal_density mean1 var1 mean2 var2 covariance mean1 mean2
  = 1 / (2 * PI * sqrt (var1 * var2 - covariance ^ 2)).
Proof.
  unfold bivariate_normal_density.
  replace (- ((var2 * (mean1 - mean1) ^ 2
               - 2 * covariance * (mean1 - mean1) * (mean2 - mean2)
               + var1 * (mean2 - mean2) ^ 2)
              / (var1 * var2 - covariance ^ 2)) / 2) with 0
    by (unfold Rdiv; ring).
  rewrite exp_0. reflexivity.
Qed.

Lemma inv_two_pi_sqrt_le_1 (d : R) : 1 <= d -> 1 / (2 * PI * sqrt d) <= 1.
Proof.
  intros Hd. pose proof PI2_1 as Hpi.
  assert (Hs : 1 <= sqrt d).
  { rewrite <- sqrt_1 at 1. apply sqrt_le_1_alt. assumption. }
  assert (Hprod : 1 <= 2 * PI * sqrt d) by nra.
  apply Rmult_le_reg_r with (2 * PI * sqrt d); [lra|].
  unfold Rdiv. rewrite Rmult_assoc, Rinv_l by lra. lra.
Qed.

Lemma exp_40_ge_1 : 1 <= exp 40.
Proof. rewrite <- exp_0. left. apply exp_increasing. lra. Qed.

(** C2, at two samples.  [compute_pyhf_statistics] with the variance flag
    set succeeds on [example_two_samples]; the single pair of samples
    [(0, 1)] enters the variance estimate with the covariance
    [k_post[0, 0] = 1], so that the estimate is the density of the
    bivariate normal distribution with covariance [1] less [0.9995] times
    the squared mean density.  The specification takes the posterior
    covariance [k_post[0, 1] = 1/2] of the two samples, and the two values
    differ. *)
Theorem calculate_p_yhf_var_reads_shifted_covariance :
  exists (p_mean : R) (st' : BMFMCModel.self),
    BMFMCModel.compute_pyhf_statistics example_two_samples = (Ok tt, st') /\
    BMFMCModel.p_yhf_mean st' = Some [p_mean] /\
    BMFMCModel.p_yhf_var st'
    = Some [1 / INR 1 * (0 + bivariate_normal_density 0 2 0 2 1 0 0)
            - 0.9995 * p_mean ^ 2] /\
    p_yhf_var_spec [0; 0] [2; 2] (Mat 2 [[1; 1 / 2]; [1 / 2; 1]]) p_mean 0
    = bivariate_normal_density 0 2 0 2 (1 / 2) 0 0 - 0.9995 * p_mean ^ 2 /\
    forall x,
      BMFMCModel.p_yhf_var st' = Some [x] ->
      x <> p_yhf_var_spec [0; 0] [2; 2] (Mat 2 [[1; 1 / 2]; [1 / 2; 1]])
                          p_mean 0.
Proof.
  destruct (@p_yhf_mean_of_average [0] [0; 0] [2; 2]) as [p [Hp [Hlen _]]];
    try reflexivity; [discriminate | repeat constructor; lra |].
  destruct p as [|p_mean [|]]; try discriminate.
  set (st1 := BMFMCModel.set_p_yhf_mean (Some [p_mean]) example_two_samples).
  assert (Hrun : BMFMCModel._calculate_p_yhf_mean example_two_samples
                 = (Ok tt, st1)).
  { unfold BMFMCModel._calculate_p_yhf_mean.
    unfold mbind, mret, lift, gets, modify, require, of_option.
    cbn [BMFMCModel.var_y_mc BMFMCModel.m_f_mc BMFMCModel.y_pdf_support
         example_two_samples BMFMCModel.set_Z_mc BMFMCModel.set_m_f_mc
         BMFMCModel.set_var_y_mc example_model].
    rewrite Hp. reflexivity. }
  assert (Hdens : pair_density 0 2 0 2 1 0
                  = Ok (bivariate_normal_density 0 2 0 2 1 0 0)).
  { apply pair_density_regular; [lra|].
    rewrite bivariate_normal_density_at_mean.
    pose proof (@inv_two_pi_sqrt_le_1 (2 * 2 - 1 ^ 2) ltac:(lra)).
    pose proof exp_40_ge_1. lra. }
  assert (Hvar : BMFMCModel._calculate_p_yhf_var st1
                 = (Ok tt,
                    BMFMCModel.set_p_yhf_var
                      (Some [1 / INR 1
                             * (0 + bivariate_normal_density 0 2 0 2 1 0 0)
                             - 0.9995 * p_mean ^ 2])
                      st1)).
  { rewrite (@calculate_p_yhf_var_accumulates st1
               (example_interface true (Mat 2 [[1; 1 / 2]; [1 / 2; 1]]))
               (Mat 1 [[10]; [20]]) (Mat 2 [[1; 1 / 2]; [1 / 2; 1]])
               [0; 0] [0; 0] [2; 2] [p_mean]
               [[bivariate_normal_density 0 2 0 2 1 0 0]]);
      try reflexivity.
    - discriminate.
    - cbn. constructor; [|constructor].
      exists 1. split; [reflexivity|]. cbn [fst snd map_result].
      rewrite Hdens. reflexivity. }
  assert (Hspec :
    p_yhf_var_spec [0; 0] [2; 2] (Mat 2 [[1; 1 / 2]; [1 / 2; 1]]) p_mean 0
    = bivariate_normal_density 0 2 0 2 (1 / 2) 0 0 - 0.9995 * p_mean ^ 2).
  { unfold p_yhf_var_spec. cbn [length sample_pairs seq flat_map map app
      Nat.sub fst snd nth rows Rsum fold_right INR]. field. }
  exists p_mean. eexists. split; [|split; [|split; [|split]]].
  - unfold BMFMCModel.compute_pyhf_statistics. unfold mbind at 1.
    rewrite Hrun. unfold mbind, gets. cbn [BMFMCModel.predictive_var_bool].
    change (BMFMCModel.predictive_var_bool st1) with true. cbv iota.
    rewrite Hvar. reflexivity.
  - reflexivity.
  - reflexivity.
  - exact Hspec.
  - intros x [= <-]. rewrite Hspec.
    rewrite !bivariate_normal_density_at_mean.
    replace (2 * 2 - 1 ^ 2) with 3 by lra.
    replace (2 * 2 - (1 / 2) ^ 2) with (15 / 4) by lra.
    intros Heq.
    pose proof PI_RGT_0 as Hpi.
    assert (H3 : 0 < sqrt 3) by (apply sqrt_lt_R0; lra).
    assert (H4 : 0 < sqrt (15 / 4)) by (apply sqrt_lt_R0; lra).
    assert (Hs : sqrt 3 = sqrt (15 / 4)).
    { assert (Hinv : / (2 * PI * sqrt 3) = / (2 * PI * sqrt (15 / 4))).
      { simpl INR in Heq. lra. }
      apply Rinv_eq_reg in Hinv. nra. }
    apply sqrt_inj in Hs; lra.
Qed.

(** ** The greedy selection of features *)

Lemma set_gammas_ext_mc_twice (a b : option matrix) (st : BMFMCModel.self) :
  BMFMCModel.set_gammas_ext_mc a (BMFMCModel.set_gammas_ext_mc b st)
  = BMFMCModel.set_gammas_ext_mc a st.
Proof. reflexivity. Qed.

(** [d] rounds on one [x_iter_test]: every round ranks the same
    candidates against the same output, so that each of them appends the
    same block of features. *)
Lemma extended_gammas_rounds_repeat (x_iter_test Y select_bool test_iter
    features_test : matrix) (d a : nat) :
  BMFMCModel.select_feature x_iter_test (Some Y) = Ok select_bool ->
  np_dot x_iter_test select_bool = Ok test_iter ->
  _linear_scale_a_to_b test_iter Y = Ok features_test ->
  forall (st : BMFMCModel.self) (gammas : matrix),
    BMFMCModel.Y_LFs_mc st = Some Y ->
    BMFMCModel.gammas_ext_mc st = Some gammas ->
    nrows gammas = nrows features_test ->
    mfold (BMFMCModel.extended_gammas_round x_iter_test) (seq a d) tt st
    = (Ok tt,
       BMFMCModel.set_gammas_ext_mc
         (Some (Nat.iter d
                  (fun g => Mat (ncols g + ncols features_test)
                                (map (fun p => fst p ++ snd p)
                                     (combine (rows g) (rows features_test))))
                  gammas))
         st).
Proof.
  intros Hsel Hdot Hscale.
  revert a. induction d as [|d IH]; intros a st gammas HY Hg Hrows.
  - cbn. unfold mret. f_equal.
    destruct st; cbn in *. now rewrite Hg.
  - cbn [seq mfold]. unfold mbind at 1.
    unfold BMFMCModel.extended_gammas_round at 1.
    unfold mbind, lift, gets, modify.
    rewrite HY, Hsel, Hdot, Hscale, Hg. cbn [hstack_opt].
    unfold hstack. rewrite Hrows, Nat.eqb_refl.
    rewrite (IH (S a) _ (Mat (ncols gammas + ncols features_test)
                             (map (fun p => fst p ++ snd p)
                                  (combine (rows gammas) (rows features_test)))));
      [| exact HY | reflexivity |].
    + rewrite set_gammas_ext_mc_twice. f_equal. f_equal. f_equal.
      symmetry. apply Nat.iter_succ_r.
    + unfold nrows in *. cbn [rows].
      rewrite length_map, length_combine, Hrows. apply Nat.min_id.
Qed.

Lemma example_fit_transform :
  fit_transform (Some (Mat 1 [[0]; [0]; [2]; [2]]))
  = Ok (Scaler [1] [1], Mat 1 [[-1]; [-1]; [1]; [1]]).
Proof.
  unfold fit_transform, scaler_fit, scaler_transform. cbn [rows ncols bind].
  cbn [transpose rows ncols nrows seq map nth length].
  assert (Hmean : Rsum [0; 0; 2; 2] / INR 4 = 1) by (cbn; lra).
  rewrite !Hmean.
  assert (Hvar : Rsum [(0 - 1) ^ 2; (0 - 1) ^ 2; (2 - 1) ^ 2; (2 - 1) ^ 2]
                 / INR 4 = 1) by (cbn; lra).
  rewrite !Hvar. unfold Req_bool. Rdecide. rewrite sqrt_1.
  cbn [combine map fst snd mean_ scale_].
  repeat f_equal; lra.
Qed.

Lemma example_select_feature :
  BMFMCModel.select_feature example_x_red (Some (Mat 1 [[0]; [0]; [2]; [2]]))
  = Ok (Mat 1 [[1]; [0]]).
Proof.
  unfold BMFMCModel.select_feature. rewrite example_fit_transform.
  cbn [bind snd].
  assert (Hdot : np_dot (transpose example_x_red) (Mat 1 [[-1]; [-1]; [1]; [1]])
                 = Ok (Mat 1 [[4]; [0]])).
  { unfold np_dot, example_x_red. cbn. repeat f_equal; lra. }
  rewrite Hdot. unfold mat_map, ravel.
  cbn [bind ncols rows map concat app].
  rewrite Rabs_R0, (Rabs_pos_eq 4) by lra.
  cbn [np_max fold_left bind]. Rdecide.
  unfold Req_bool. Rdecide. reflexivity.
Qed.

Lemma example_test_iter :
  np_dot example_x_red (Mat 1 [[1]; [0]]) = Ok (Mat 1 [[-1]; [-1]; [1]; [1]]).
Proof. unfold np_dot, example_x_red. cbn. repeat f_equal; lra. Qed.

Lemma example_features_test :
  _linear_scale_a_to_b (Mat 1 [[-1]; [-1]; [1]; [1]])
                       (Mat 1 [[0]; [0]; [2]; [2]])
  = Ok (Mat 1 [[0]; [0]; [2]; [2]]).
Proof.
  unfold _linear_scale_a_to_b, ravel.
  cbn [rows concat app np_min np_max fold_left bind].
  Rdecide. cbn [bind]. unfold np_divide. Rdecide. cbn [bind ncols rows map].
  repeat f_equal; lra.
Qed.

(** The number of feature columns that [opt_features] appends: as many
    as asked for, when the rounds have produced that many. *)
Lemma opt_features_column_count (Y gammas Z : matrix) (k : BinNums.Z) :
  (0 <= k)%Z ->
  hstack_opt (Some Y) (slice_cols gammas k) = Ok Z ->
  ncols Z = (ncols Y + Nat.min (Z.to_nat k) (ncols gammas))%nat.
Proof.
  intros Hk. unfold hstack_opt, hstack, slice_cols.
  destruct (k <? 0)%Z eqn:E; [apply Z.ltb_lt in E; lia|].
  destruct (Nat.eqb _ _); [|discriminate].
  intros [= <-]. reflexivity.
Qed.

(** C4, at two candidate dimensions.  On four samples whose
    low-fidelity output follows the first of two standardized dimensions,
    the ranking marks the first dimension, before the rounds and after
    them; the two rounds of [calculate_extended_gammas] append the first
    dimension, rescaled to [0; 0; 2; 2], twice; and with
    [num_features = 2] the feature matrix [Z_mc] is the output followed by
    these two equal columns.  The second dimension, which would rescale
    to [0; 2; 0; 2], is in no column. *)
Theorem greedy_rounds_reselect_first_dimension :
  exists st1 st2 : BMFMCModel.self,
    BMFMCModel.select_feature example_x_red
      (BMFMCModel.Y_LFs_mc (example_opt_model 2))
    = Ok (Mat 1 [[1]; [0]]) /\
    BMFMCModel.calculate_extended_gammas (Ok example_x_red)
                                         (example_opt_model 2)
    = (Ok tt, st1) /\
    BMFMCModel.select_feature example_x_red (BMFMCModel.Y_LFs_mc st1)
    = Ok (Mat 1 [[1]; [0]]) /\
    BMFMCModel.gammas_ext_mc st1
    = Some (Mat 2 [[0; 0]; [0; 0]; [2; 2]; [2; 2]]) /\
    BMFMCModel.set_feature_strategy st1 = (Ok tt, st2) /\
    BMFMCModel.Z_mc st2
    = Some (Mat 3 [[0; 0; 0]; [0; 0; 0]; [2; 2; 2]; [2; 2; 2]]).
Proof.
  eexists. eexists.
  split; [exact example_select_feature|].
  split.
  - unfold BMFMCModel.calculate_extended_gammas.
    unfold mbind at 1. unfold lift at 1. unfold mbind at 1. unfold modify at 1.
    cbn [ncols example_x_red].
    rewrite (@extended_gammas_rounds_repeat example_x_red
               (Mat 1 [[0]; [0]; [2]; [2]]) (Mat 1 [[1]; [0]])
               (Mat 1 [[-1]; [-1]; [1]; [1]]) (Mat 1 [[0]; [0]; [2]; [2]])
               2 0
               example_select_feature example_test_iter example_features_test
               _ (Mat 0 (repeat [] (nrows example_x_red))));
      try reflexivity.
  - split; [exact example_select_feature|].
    split; [reflexivity|].
    split; [lazy -[IZR]; reflexivity | reflexivity].
Qed.


(** ** Attributes that the methods do not assign *)

Section Preserves.
Context {S A : Type} (f : S -> A).

Lemma preserves_mret {B : Type} (b : B) : preserves f (mret b).
Proof. intros s. reflexivity. Qed.

Lemma preserves_lift {B : Type} (r : result B) : preserves f (lift r).
Proof. intros s. reflexivity. Qed.

Lemma preserves_raise {B : Type} (e : exn) : preserves f (@raise S B e).
Proof. intros s. reflexivity. Qed.

Lemma preserves_gets {B : Type} (g : S -> B) : preserves f (gets g).
Proof. intros s. reflexivity. Qed.

Lemma preserves_require {B : Type} (e : exn) (g : S -> option B) :
  preserves f (require e g).
Proof. intros s. reflexivity. Qed.

Lemma preserves_modify (g : S -> S) :
  (forall s, f (g s) = f s) -> preserves f (modify g).
Proof. intros H s. apply H. Qed.

Lemma preserves_mbind {B C : Type} (c : method S B) (k : B -> method S C) :
  preserves f c -> (forall b, preserves f (k b)) -> preserves f (mbind c k).
Proof.
  intros Hc Hk s. unfold mbind. specialize (Hc s).
  destruct (c s) as [[b| |] s1]; cbn [snd] in *; try assumption.
  rewrite (Hk b s1). assumption.
Qed.

Lemma preserves_mfold {B C : Type} (body : C -> B -> method S C)
    (l : list B) :
  (forall c b, preserves f (body c b)) ->
  forall c, preserves f (mfold body l c).
Proof.
  intros H. induction l as [|x l IH]; intros c; simpl.
  - apply preserves_mret.
  - apply preserves_mbind; [apply H | apply IH].
Qed.
End Preserves.

Ltac preserve_step :=
  first
    [ apply preserves_mret
    | apply preserves_lift
    | apply preserves_raise
    | apply preserves_gets
    | apply preserves_require
    | apply preserves_modify; intros; reflexivity
    | apply preserves_mfold; intros
    | apply preserves_mbind; [|intros]
    | match goal with
      | |- preserves _ (if ?b then _ else _) => destruct b
      | |- preserves _ (match ?x with _ => _ end) => destruct x
      | |- preserves _ (let '(_, _) := ?x in _) => destruct x
      end ].

Ltac preserve_with known := repeat first [known | preserve_step].

Ltac preserve := preserve_with fail.

Lemma get_hf_training_data_preserves :
  preserves sampling_data BMFMCModel.get_hf_training_data.
Proof. unfold BMFMCModel.get_hf_training_data. preserve. Qed.

Lemma update_model_variables_preserves (Y Z : option matrix) :
  preserves sampling_data (BMFMCModel.update_model_variables Y Z).
Proof. unfold BMFMCModel.update_model_variables. preserve. Qed.

Lemma update_probabilistic_mapping_preserves :
  preserves sampling_data BMFMCModel.update_probabilistic_mapping_with_features.
Proof. unfold BMFMCModel.update_probabilistic_mapping_with_features. preserve. Qed.

Lemma set_feature_strategy_preserves :
  preserves sampling_data BMFMCModel.set_feature_strategy.
Proof.
  unfold BMFMCModel.set_feature_strategy.
  preserve_with
    ltac:(first [apply update_probabilistic_mapping_preserves
                | apply update_model_variables_preserves]).
Qed.

Lemma eval_surrogate_accuracy_cv_preserves Z Y k ms :
  preserves sampling_data (BMFMCModel.eval_surrogate_accuracy_cv Z Y k ms).
Proof. unfold BMFMCModel.eval_surrogate_accuracy_cv. preserve. Qed.

Lemma build_approximation_preserves (b : bool) :
  preserves sampling_data (BMFMCModel.build_approximation b).
Proof.
  unfold BMFMCModel.build_approximation.
  preserve_with
    ltac:(first [apply get_hf_training_data_preserves
                | apply set_feature_strategy_preserves
                | apply eval_surrogate_accuracy_cv_preserves]).
Qed.

Lemma compute_pyhf_statistics_preserves :
  preserves sampling_data BMFMCModel.compute_pyhf_statistics.
Proof.
  unfold BMFMCModel.compute_pyhf_statistics, BMFMCModel._calculate_p_yhf_mean,
    BMFMCModel._calculate_p_yhf_var, BMFMCModel.var_outer_body,
    BMFMCModel.var_inner_body.
  preserve.
Qed.

Lemma calculate_extended_gammas_preserves (r : result matrix) :
  preserves sampling_data (BMFMCModel.calculate_extended_gammas r).
Proof.
  unfold BMFMCModel.calculate_extended_gammas,
    BMFMCModel.extended_gammas_round.
  preserve.
Qed.



(** X1.  [build_approximation], [compute_pyhf_statistics] and
    [calculate_extended_gammas] assign none of the sampling data and none
    of the settings of the model, whatever their outcome: [X_train],
    [X_mc], [Y_LFs_train], [Y_LFs_mc], [Y_HF_mc], [settings_probab_mapping],
    [training_indices], [y_pdf_support], [eval_fit], [error_measures],
    [active_learning] and [predictive_var_bool] are after the call what
    they were before. *)
Theorem bmfmc_methods_keep_sampling_data (approx_case : bool)
    (x_red : result matrix) (st : BMFMCModel.self) :
  sampling_data (snd (BMFMCModel.build_approximation approx_case st))
  = sampling_data st /\
  sampling_data (snd (BMFMCModel.compute_pyhf_statistics st))
  = sampling_data st /\
  sampling_data (snd (BMFMCModel.calculate_extended_gammas x_red st))
  = sampling_data st.
Proof.
  split; [|split].
  - apply build_approximation_preserves.
  - apply compute_pyhf_statistics_preserves.
  - apply calculate_extended_gammas_preserves.
Qed.

(** *** The late check of [active_learning] *)

Section Commutes.
Context {S : Type} (g : S -> S).








End Commutes.












(** ** Edge cases of the training-data lookup and of the statistics *)

Lemma map_result_raise {A B : Type} (f : A -> result B) (e : exn)
    (l : list A) (x : A) :
  (forall a, In a l -> f a = Raise e \/ exists b, f a = Ok b) ->
  In x l -> f x = Raise e -> map_result f l = Raise e.
Proof.
  induction l as [|a l IH]; intros Hall Hin Hx; [contradiction|].
  simpl. destruct (Hall a (or_introl eq_refl)) as [Ha | [b Ha]];
    rewrite Ha; cbn [bind]; [reflexivity|].
  rewrite IH; [reflexivity | | |assumption].
  - intros a' Ha'. apply Hall. now right.
  - destruct Hin as [-> | Hin]; [congruence | assumption].
Qed.

Lemma index_of_true_none {A : Type} (f : A -> bool) (l : list A) :
  (forall a, In a l -> f a = false) ->
  BMFMCModel.index_of_true (map f l) = None.
Proof.
  induction l as [|a l IH]; intros H; [reflexivity|].
  simpl. rewrite (H a (or_introl eq_refl)), IH; [reflexivity|].
  intros a' Ha'. apply H. now right.
Qed.

Lemma first_match_total (X : matrix) (row : list R) :
  length row = ncols X ->
  BMFMCModel.first_match (Some X) row = Raise IndexError \/
  exists j, BMFMCModel.first_match (Some X) row = Ok j.
Proof.
  intros Hlen. unfold BMFMCModel.first_match, BMFMCModel.rows_equal.
  rewrite Hlen, Nat.eqb_refl. cbn [bind].
  destruct (BMFMCModel.index_of_true _) as [j|]; cbn [of_option];
    [right; exists j; reflexivity | left; reflexivity].
Qed.

Lemma first_match_absent (X : matrix) (row : list R) :
  wf_matrix X -> length row = ncols X -> ~ In row (rows X) ->
  BMFMCModel.first_match (Some X) row = Raise IndexError.
Proof.
  intros Hwf Hlen Hnin. unfold BMFMCModel.first_match, BMFMCModel.rows_equal.
  rewrite Hlen, Nat.eqb_refl. cbn [bind].
  rewrite index_of_true_none; [reflexivity|].
  intros r Hr. apply not_true_is_false. intros Heq.
  apply forallb_combine_eq in Heq.
  - subst r. contradiction.
  - unfold wf_matrix in Hwf. rewrite Forall_forall in Hwf.
    rewrite (Hwf r Hr). symmetry. assumption.
Qed.

(** X3.  When a row of [X_train] is not among the rows of [X_mc],
    [get_hf_training_data] raises [IndexError] (from
    [np.where(...)[0][0]] on an empty match) and assigns nothing:
    [Y_HF_train] keeps its former value. *)
Theorem get_hf_training_data_unmatched (st : BMFMCModel.self)
    (X_train X_mc : matrix) (Y_HF_mc row : list R) :
  BMFMCModel.X_train st = Some X_train ->
  BMFMCModel.X_mc st = Some X_mc ->
  BMFMCModel.Y_HF_mc st = Some Y_HF_mc ->
  wf_matrix X_train -> wf_matrix X_mc ->
  ncols X_train = ncols X_mc -> (0 < ncols X_train)%nat ->
  In row (rows X_train) -> ~ In row (rows X_mc) ->
  BMFMCModel.get_hf_training_data st = (Raise IndexError, st).
Proof.
  intros Ht Hmc Hy Hwt Hwmc Hcols Hpos Hin Hnin.
  unfold wf_matrix in Hwt. rewrite Forall_forall in Hwt.
  unfold BMFMCModel.get_hf_training_data.
  unfold mbind, mret, lift, raise, gets, modify.
  rewrite Ht, Hy, Hmc.
  destruct (ncols X_train) as [|w] eqn:Ew; [lia|].
  rewrite (@map_result_raise _ _ _ IndexError _ row); [reflexivity | | |].
  - intros r Hr. apply first_match_total. rewrite (Hwt r Hr). assumption.
  - assumption.
  - apply first_match_absent; [assumption | | assumption].
    rewrite (Hwt row Hin). assumption.
Qed.

Lemma get_hf_training_data_unmatched_witness :
  BMFMCModel.get_hf_training_data
    (BMFMCModel.set_Y_HF_train (Some (Mat 1 [[7]]))
       (example_unmatched_model))
  = (Raise IndexError,
     BMFMCModel.set_Y_HF_train (Some (Mat 1 [[7]])) example_unmatched_model).
Proof.
  apply (@get_hf_training_data_unmatched _
           (Mat 1 [[3]; [5]]) (Mat 1 [[1]; [2]; [3]; [1]])
           [11; 21; 31; 12] [5]);
    try reflexivity.
  - repeat constructor.
  - repeat constructor.
  - simpl. lia.
  - simpl. right. left. reflexivity.
  - simpl. intros [H | [H | [H | [H | []]]]]; injection H as H; lra.
Defined.

(** X4.  With fewer than two Monte-Carlo samples there is no pair of
    samples: neither loop body of [_calculate_p_yhf_var] is entered, the
    call returns, and the model is left as it was; in particular
    [p_yhf_var] is not assigned and keeps its former value. *)
Theorem calculate_p_yhf_var_without_pairs (st : BMFMCModel.self)
    (itf : BMFMCModel.BmfmcInterface) (Z_mc : matrix)
    (mk : list R * matrix) (m v : list R) :
  BMFMCModel.interface st = Some itf ->
  BMFMCModel.Z_mc st = Some Z_mc ->
  BMFMCModel.interface_map_full_cov itf (transpose Z_mc) = Ok mk ->
  BMFMCModel.m_f_mc st = Some m ->
  BMFMCModel.var_y_mc st = Some v ->
  (length m <= 1)%nat \/ (length v <= 1)%nat ->
  BMFMCModel._calculate_p_yhf_var st = (Ok tt, st).
Proof.
  intros Hitf HZ Hmap Hm Hv Hlen.
  unfold BMFMCModel._calculate_p_yhf_var.
  unfold mbind at 1 2 3 4 5 6, require, lift, gets, of_option.
  rewrite Hitf, HZ, Hmap, Hm, Hv.
  destruct m as [|m0 [|m1 m]], v as [|v0 [|v1 v]];
    simpl in Hlen; try lia; reflexivity.
Qed.

Lemma calculate_p_yhf_var_without_pairs_witness :
  BMFMCModel._calculate_p_yhf_var
    (BMFMCModel.set_p_yhf_var (Some [5])
       (BMFMCModel.set_Z_mc (Some (Mat 1 [[10]]))
          (BMFMCModel.set_m_f_mc (Some [0])
             (BMFMCModel.set_var_y_mc (Some [2])
                (example_model "no_features" 1 true)))))
  = (Ok tt,
     BMFMCModel.set_p_yhf_var (Some [5])
       (BMFMCModel.set_Z_mc (Some (Mat 1 [[10]]))
          (BMFMCModel.set_m_f_mc (Some [0])
             (BMFMCModel.set_var_y_mc (Some [2])
                (example_model "no_features" 1 true))))).
Proof.
  apply (@calculate_p_yhf_var_without_pairs _
           (example_interface true (Mat 2 [[1; 1 / 2]; [1 / 2; 1]]))
           (Mat 1 [[10]]) ([0; 0], Mat 2 [[1; 1 / 2]; [1 / 2; 1]]) [0] [2]);
    try reflexivity.
  left. simpl. lia.
Defined.

(** X5.  Without Monte-Carlo samples [_calculate_p_yhf_mean] divides by
    [self.m_f_mc.size = 0], a Python integer: it raises
    [ZeroDivisionError] and assigns nothing. *)
Theorem calculate_p_yhf_mean_no_samples (st : BMFMCModel.self) (v : list R) :
  BMFMCModel.m_f_mc st = Some [] ->
  BMFMCModel.var_y_mc st = Some v ->
  (length v <= 1)%nat ->
  BMFMCModel._calculate_p_yhf_mean st = (Raise ZeroDivisionError, st).
Proof.
  intros Hm Hv Hlen. unfold BMFMCModel._calculate_p_yhf_mean.
  unfold mbind, mret, lift, gets, modify, require, of_option.
  rewrite Hv, Hm.
  destruct v as [|v0 [|v1 v]]; simpl in Hlen; try lia; reflexivity.
Qed.

Lemma calculate_p_yhf_mean_no_samples_witness :
  BMFMCModel._calculate_p_yhf_mean
    (BMFMCModel.set_m_f_mc (Some [])
       (BMFMCModel.set_var_y_mc (Some [])
          (example_model "no_features" 1 true)))
  = (Raise ZeroDivisionError,
     BMFMCModel.set_m_f_mc (Some [])
       (BMFMCModel.set_var_y_mc (Some [])
          (example_model "no_features" 1 true))).
Proof.
  apply (@calculate_p_yhf_mean_no_samples _ []); try reflexivity.
  simpl. lia.
Defined.

Lemma gaussian_density_pos (x loc scale : R) :
  0 < scale -> 0 < gaussian_density x loc scale.
Proof.
  intros Hs. unfold gaussian_density.
  apply Rdiv_lt_0_compat; [|assumption].
  apply Rdiv_lt_0_compat; [apply exp_pos|].
  apply sqrt_lt_R0. pose proof PI_RGT_0. lra.
Qed.

Lemma Rsum_pos (l : list R) :
  l <> [] -> Forall (fun x => 0 < x) l -> 0 < Rsum l.
Proof.
  intros Hne Hall. destruct l as [|x l]; [congruence|].
  inversion Hall as [|? ? Hx Hl]; subst. simpl.
  assert (0 <= Rsum l).
  { clear -Hl. induction Hl; simpl; [lra | lra]. }
  lra.
Qed.

(** X6.  With one positive predictive variance per Monte-Carlo sample,
    [_calculate_p_yhf_mean] succeeds and the density [p_yhf_mean] that it
    assigns is negative at no point of the support. *)
Theorem calculate_p_yhf_mean_nonneg (st : BMFMCModel.self)
    (m_f_mc var_y_mc : list R) :
  BMFMCModel.m_f_mc st = Some m_f_mc ->
  BMFMCModel.var_y_mc st = Some var_y_mc ->
  m_f_mc <> [] ->
  length m_f_mc = length var_y_mc ->
  Forall (fun v => 0 < v) var_y_mc ->
  exists p_yhf_mean,
    BMFMCModel._calculate_p_yhf_mean st
    = (Ok tt, BMFMCModel.set_p_yhf_mean (Some p_yhf_mean) st) /\
    Forall (fun p => 0 <= p) p_yhf_mean.
Proof.
  intros Hm Hv Hne Hlen Hpos.
  destruct (@p_yhf_mean_of_average (BMFMCModel.y_pdf_support st)
              m_f_mc var_y_mc Hne Hlen Hpos) as [p [Hp [Hlenp Hnth]]].
  exists p. split.
  - unfold BMFMCModel._calculate_p_yhf_mean.
    unfold mbind, mret, lift, gets, modify, require, of_option.
    rewrite Hv, Hm, Hp. reflexivity.
  - rewrite Forall_forall. intros x Hx.
    apply In_nth_error in Hx. destruct Hx as [k Hk].
    assert (Hks : (k < length (BMFMCModel.y_pdf_support st))%nat).
    { rewrite <- Hlenp. apply nth_error_Some. congruence. }
    destruct (nth_error (BMFMCModel.y_pdf_support st) k) as [s|] eqn:Es.
    2:{ apply nth_error_None in Es. lia. }
    rewrite (Hnth k s Es) in Hk. injection Hk as <-.
    left. apply Rmult_lt_0_compat.
    + apply Rdiv_lt_0_compat; [lra|]. apply lt_0_INR.
      destruct m_f_mc; [congruence | simpl; lia].
    + apply Rsum_pos.
      * destruct m_f_mc, var_y_mc; simpl in *; congruence.
      * rewrite Forall_forall. intros d Hd. apply in_map_iff in Hd.
        destruct Hd as [[mu var] [<- Hin]]. cbn [fst snd].
        apply gaussian_density_pos. apply sqrt_lt_R0.
        rewrite Forall_forall in Hpos. apply Hpos.
        eapply in_combine_r; eassumption.
Qed.

Lemma calculate_p_yhf_mean_nonneg_witness :
  exists p_yhf_mean,
    BMFMCModel._calculate_p_yhf_mean
      (BMFMCModel.set_m_f_mc (Some [0; 1])
         (BMFMCModel.set_var_y_mc (Some [2; 3])
            (example_model "no_features" 1 true)))
    = (Ok tt,
       BMFMCModel.set_p_yhf_mean (Some p_yhf_mean)
         (BMFMCModel.set_m_f_mc (Some [0; 1])
            (BMFMCModel.set_var_y_mc (Some [2; 3])
               (example_model "no_features" 1 true)))) /\
    Forall (fun p => 0 <= p) p_yhf_mean.
Proof.
  apply (@calculate_p_yhf_mean_nonneg
           (BMFMCModel.set_m_f_mc (Some [0; 1])
              (BMFMCModel.set_var_y_mc (Some [2; 3])
                 (example_model "no_features" 1 true)))
           [0; 1] [2; 3]);
    try reflexivity; [discriminate | repeat constructor; lra].
Defined.

Lemma calculate_p_yhf_var_shifted_witness :
  exists p_yhf_var,
    BMFMCModel._calculate_p_yhf_var
      (BMFMCModel.set_p_yhf_mean (Some [1]) example_two_samples)
    = (Ok tt,
       BMFMCModel.set_p_yhf_var (Some p_yhf_var)
         (BMFMCModel.set_p_yhf_mean (Some [1]) example_two_samples)) /\
    length p_yhf_var = 1%nat /\
    forall k s q,
      nth_error [0] k = Some s ->
      nth_error [1] k = Some q ->
      nth_error p_yhf_var k
      = Some (p_yhf_var_spec [0; 0] [2; 2]
                (shift_columns (Mat 2 [[1; 1 / 2]; [1 / 2; 1]])) q s).
Proof.
  apply (@calculate_p_yhf_var_shifted
           (BMFMCModel.set_p_yhf_mean (Some [1]) example_two_samples)
           (example_interface true (Mat 2 [[1; 1 / 2]; [1 / 2; 1]]))
           (Mat 1 [[10]; [20]]) (Mat 2 [[1; 1 / 2]; [1 / 2; 1]])
           [0; 0] [0; 0] [2; 2] [1]);
    try reflexivity.
  intros i j Hij. simpl in Hij.
    assert (i = 0%nat /\ j = 1%nat) as [-> ->] by lia.
    exists 1. split; [reflexivity|]. split; [cbn [nth]; lra|].
    intros s [<- | []]. cbn [nth].
    rewrite bivariate_normal_density_at_mean.
    pose proof (@inv_two_pi_sqrt_le_1 (2 * 2 - 1 ^ 2) ltac:(lra)).
    pose proof exp_40_ge_1. lra.
Defined.

(** ** Error measures *)

Lemma Rsum_nonneg (l : list R) : Forall (fun x => 0 <= x) l -> 0 <= Rsum l.
Proof. intros H. induction H; simpl; lra. Qed.

Lemma Rsum_squares_nonneg (l : list R) : 0 <= Rsum (map (fun x => x ^ 2) l).
Proof.
  apply Rsum_nonneg. rewrite Forall_forall. intros y Hy.
  apply in_map_iff in Hy. destruct Hy as [x [<- _]]. apply pow2_ge_0.
Qed.

Lemma Rsum_abs_nonneg (l : list R) : 0 <= Rsum (map Rabs l).
Proof.
  apply Rsum_nonneg. rewrite Forall_forall. intros y Hy.
  apply in_map_iff in Hy. destruct Hy as [x [<- _]]. apply Rabs_pos.
Qed.

Lemma np_mean_nonneg (l : list R) (m : R) :
  0 <= Rsum l -> np_mean l = Ok m -> 0 <= m.
Proof.
  intros Hs Hm.
  assert (H : m = Rsum l / INR (length l) /\ (0 < length l)%nat).
  { destruct l as [|x l]; [discriminate|]. injection Hm as <-.
    split; [reflexivity | simpl; lia]. }
  destruct H as [-> Hlen].
  apply Rmult_le_pos; [assumption|].
  left. apply Rinv_0_lt_compat. apply lt_0_INR. assumption.
Qed.

(** X7.  Whatever the arrays and the measure, an error that
    [compute_error] returns is not negative. *)
Theorem compute_error_nonneg (y_act : option matrix) (y_pred : list R)
    (measure : string) (e : R) :
  compute_error y_act y_pred measure = Ok e -> 0 <= e.
Proof.
  unfold compute_error.
  set (diff := match y_act with
               | Some y => d <- sub_col y y_pred ;; Ok (ravel d)
               | None => Raise TypeError
               end).
  repeat match goal with
         | |- context [String.eqb measure ?m] => destruct (String.eqb measure m)
         end;
    try discriminate;
    destruct diff as [d| |]; cbn [bind]; try discriminate.
  - intros [= <-]. apply Rsum_squares_nonneg.
  - apply np_mean_nonneg, Rsum_squares_nonneg.
  - destruct (np_mean _) as [m| |]; cbn [bind]; try discriminate.
    unfold np_sqrt. destruct (Rle_dec 0 m); [|discriminate].
    intros [= <-]. apply sqrt_pos.
  - intros [= <-]. apply Rsum_abs_nonneg.
  - apply np_mean_nonneg, Rsum_abs_nonneg.
  - destruct d as [|x d]; [discriminate|]. cbn [map np_max].
    intros [= <-]. pose proof (fold_left_Rmax_ge (map Rabs d) (Rabs x)) as H.
    pose proof (Rabs_pos x). lra.
Qed.

Lemma compute_error_nonneg_witness :
  0 <= Rsum (map (fun x => x ^ 2) [1 - 1; 2 - 3]).
Proof.
  apply (@compute_error_nonneg (Some (Mat 1 [[1]; [2]])) [1; 3]
           "sum_squared").
  reflexivity.
Defined.

Lemma ravel_sub_col_self (y_pred : list R) :
  concat (map (fun p : list R * R => map (fun x => x - snd p) (fst p))
              (combine (map (fun y => [y]) y_pred) y_pred))
  = repeat 0 (length y_pred).
Proof.
  induction y_pred as [|y l IH]; [reflexivity|].
  simpl. rewrite IH. f_equal. lra.
Qed.

Lemma Rsum_repeat_0 (n : nat) : Rsum (repeat 0 n) = 0.
Proof. induction n; simpl; lra. Qed.

Lemma map_repeat_0 (f : R -> R) (n : nat) :
  f 0 = 0 -> map f (repeat 0 n) = repeat 0 n.
Proof. intros H. induction n; simpl; congruence. Qed.

Lemma fold_left_Rmax_repeat_0 (n : nat) : fold_left Rmax (repeat 0 n) 0 = 0.
Proof.
  induction n; simpl; [reflexivity|].
  rewrite Rmax_left by lra. assumption.
Qed.

(** X8.  A prediction that agrees with the actual column in every entry
    has the error 0 in each of the six measures. *)
Theorem compute_error_perfect_prediction (y_pred : list R)
    (measure : string) :
  y_pred <> [] ->
  In measure known_measures ->
  compute_error (Some (Mat 1 (map (fun y => [y]) y_pred))) y_pred measure
  = Ok 0.
Proof.
  intros Hne Hin. unfold compute_error, sub_col, nrows, ravel.
  cbn [rows ncols]. rewrite length_map, Nat.eqb_refl. cbn [bind rows].
  rewrite ravel_sub_col_self.
  destruct y_pred as [|y0 l]; [congruence|].
  set (n := length (y0 :: l)).
  assert (Hn : n = S (length l)) by reflexivity.
  rewrite (map_repeat_0 (fun x => x ^ 2)) by lra.
  rewrite (map_repeat_0 Rabs) by apply Rabs_R0.
  assert (Hmean : np_mean (repeat 0 n) = Ok 0).
  { rewrite Hn. cbn [repeat np_mean]. f_equal.
    change (0 :: repeat 0 (length l)) with (repeat 0 (S (length l))).
    rewrite Rsum_repeat_0. unfold Rdiv. ring. }
  assert (Hmax : np_max (repeat 0 n) = Ok 0).
  { rewrite Hn. cbn [repeat np_max]. f_equal. apply fold_left_Rmax_repeat_0. }
  rewrite Hmean, Hmax, Rsum_repeat_0. cbn [bind].
  unfold known_measures in Hin. cbn [In] in Hin.
  assert (Hsqrt : np_sqrt 0 = Ok 0).
  { unfold np_sqrt. destruct (Rle_dec 0 0); [|lra]. now rewrite sqrt_0. }
  rewrite Hsqrt.
  destruct Hin as [<- | [<- | [<- | [<- | [<- | [<- | []]]]]]]; reflexivity.
Qed.

Lemma compute_error_perfect_prediction_witness :
  compute_error (Some (Mat 1 (map (fun y => [y]) [1; 3]))) [1; 3]
                "root_mean_squared"
  = Ok 0.
Proof.
  apply (@compute_error_perfect_prediction [1; 3] "root_mean_squared").
  - discriminate.
  - unfold known_measures. simpl. tauto.
Defined.

Lemma dict_get_update {V : Type} (d : list (string * V)) (k k' : string)
    (v : V) :
  dict_get (dict_update d k v) k'
  = if String.eqb k k' then Some v else dict_get d k'.
Proof.
  induction d as [|[k0 v0] d IH]; simpl.
  - reflexivity.
  - destruct (String.eqb k0 k) eqn:E0; simpl.
    + apply String.eqb_eq in E0. subst k0.
      destruct (String.eqb k k'); reflexivity.
    + rewrite IH. destruct (String.eqb k0 k') eqn:E1; [|reflexivity].
      apply String.eqb_eq in E1. subst k0. rewrite String.eqb_sym, E0.
      reflexivity.
Qed.

Lemma compute_error_measures_inv (y_act : option matrix) (y_pred : list R)
    (measures : list string) :
  forall d0 d,
    fold_result
      (fun error_measures measure =>
         e <- compute_error y_act y_pred measure ;;
         Ok (dict_update error_measures measure e))
      measures d0 = Ok d ->
    forall m,
      dict_get d m
      = if in_dec string_dec m measures
        then match compute_error y_act y_pred m with
             | Ok e => Some e
             | _ => None
             end
        else dict_get d0 m.
Proof.
  induction measures as [|m0 ms IH]; intros d0 d Hrun m.
  - injection Hrun as <-. reflexivity.
  - cbn [fold_result] in Hrun.
    destruct (compute_error y_act y_pred m0) as [e0| |] eqn:E0;
      cbn [bind] in Hrun; try discriminate.
    rewrite (IH _ _ Hrun m).
    destruct (in_dec string_dec m ms) as [Hin | Hnin].
    + destruct (in_dec string_dec m (m0 :: ms)) as [_ | C];
        [reflexivity | exfalso; apply C; now right].
    + rewrite dict_get_update.
      destruct (String.eqb m0 m) eqn:Em.
      * apply String.eqb_eq in Em. subst m0.
        destruct (in_dec string_dec m (m :: ms)) as [_ | C];
          [now rewrite E0 | exfalso; apply C; now left].
      * apply String.eqb_neq in Em.
        destruct (in_dec string_dec m (m0 :: ms)) as [[C | C] | _];
          [congruence | contradiction | reflexivity].
Qed.

Lemma dict_update_keys {V : Type} (d : list (string * V)) (k : string)
    (v : V) :
  map fst (dict_update d k v)
  = if in_dec string_dec k (map fst d) then map fst d else map fst d ++ [k].
Proof.
  induction d as [|[k0 v0] d IH]; [reflexivity|].
  cbn [dict_update map fst].
  destruct (String.eqb k0 k) eqn:E0.
  - apply String.eqb_eq in E0. subst k0. cbn [map fst].
    destruct (in_dec string_dec k (k :: map fst d)) as [_ | C];
      [reflexivity | exfalso; apply C; now left].
  - apply String.eqb_neq in E0. cbn [map fst]. rewrite IH.
    destruct (in_dec string_dec k (map fst d)) as [Hin | Hnin];
      destruct (in_dec string_dec k (k0 :: map fst d)) as [[C | C] | C];
      try congruence; try contradiction; try reflexivity.
    exfalso. apply C. now right.
Qed.

Lemma dict_update_NoDup {V : Type} (d : list (string * V)) (k : string)
    (v : V) :
  NoDup (map fst d) -> NoDup (map fst (dict_update d k v)).
Proof.
  intros H. rewrite dict_update_keys.
  destruct (in_dec string_dec k (map fst d)) as [Hin | Hnin]; [assumption|].
  apply NoDup_app; [assumption | repeat constructor; intros [] |].
  intros x Hx [<- | []]. contradiction.
Qed.

Lemma compute_error_measures_each (y_act : option matrix) (y_pred : list R)
    (measures : list string) :
  forall d0 d,
    fold_result
      (fun error_measures measure =>
         e <- compute_error y_act y_pred measure ;;
         Ok (dict_update error_measures measure e))
      measures d0 = Ok d ->
    forall m, In m measures -> exists e, compute_error y_act y_pred m = Ok e.
Proof.
  induction measures as [|m0 ms IH]; intros d0 d Hrun m Hin; [contradiction|].
  cbn [fold_result] in Hrun.
  destruct (compute_error y_act y_pred m0) as [e0| |] eqn:E0;
    cbn [bind] in Hrun; try discriminate.
  destruct Hin as [<- | Hin]; [exists e0; assumption|].
  eapply IH; eassumption.
Qed.

(** X9.  The dictionary that [compute_error_measures] returns holds,
    under the name of every requested measure, the error that
    [compute_error] computes for that measure, and holds no other key;
    a measure requested more than once has one entry. *)
Theorem compute_error_measures_lookup (y_act : option matrix)
    (y_pred : list R) (measures : list string)
    (d : list (string * R)) :
  compute_error_measures y_act y_pred measures = Ok d ->
  (forall m, In m measures ->
             exists e, compute_error y_act y_pred m = Ok e /\
                       dict_get d m = Some e) /\
  (forall m, ~ In m measures -> dict_get d m = None) /\
  NoDup (map fst d).
Proof.
  intros Hrun. unfold compute_error_measures in Hrun.
  pose proof (compute_error_measures_inv _ _ _ _ Hrun) as Hget.
  split; [|split].
  - intros m Hin.
    destruct (compute_error_measures_each _ _ _ _ Hrun m Hin) as [e He].
    exists e. split; [assumption|]. rewrite (Hget m), He.
    destruct (in_dec string_dec m measures); [reflexivity | contradiction].
  - intros m Hnin. rewrite (Hget m).
    destruct (in_dec string_dec m measures); [contradiction | reflexivity].
  - clear Hget. revert Hrun.
    assert (H0 : NoDup (map fst (@nil (string * R)))) by constructor.
    revert H0. generalize (@nil (string * R)).
    induction measures as [|m0 ms IH]; intros d0 H0 Hrun.
    + injection Hrun as <-. assumption.
    + cbn [fold_result] in Hrun.
      destruct (compute_error y_act y_pred m0) as [e0| |];
        cbn [bind] in Hrun; try discriminate.
      eapply IH; [|eassumption].
      apply dict_update_NoDup. assumption.
Qed.

Lemma compute_error_measures_lookup_witness :
  (forall m, In m ["sum_squared"; "sum_abs"; "sum_squared"]%string ->
             exists e,
               compute_error (Some (Mat 1 [[1]; [2]])) [1; 3] m = Ok e /\
               dict_get
                 [("sum_squared"%string,
                   Rsum (map (fun x => x ^ 2) [1 - 1; 2 - 3]));
                  ("sum_abs"%string, Rsum (map Rabs [1 - 1; 2 - 3]))] m
               = Some e) /\
  (forall m, ~ In m ["sum_squared"; "sum_abs"; "sum_squared"]%string ->
             dict_get
               [("sum_squared"%string,
                 Rsum (map (fun x => x ^ 2) [1 - 1; 2 - 3]));
                ("sum_abs"%string, Rsum (map Rabs [1 - 1; 2 - 3]))] m
             = None) /\
  NoDup (map fst
             [("sum_squared"%string,
               Rsum (map (fun x => x ^ 2) [1 - 1; 2 - 3]));
              ("sum_abs"%string, Rsum (map Rabs [1 - 1; 2 - 3]))]).
Proof.
  apply (@compute_error_measures_lookup (Some (Mat 1 [[1]; [2]])) [1; 3]
           ["sum_squared"; "sum_abs"; "sum_squared"]%string).
  reflexivity.
Defined.

Lemma compute_error_unknown (y_act : option matrix) (y_pred : list R)
    (measure : string) :
  ~ In measure known_measures ->
  compute_error y_act y_pred measure = Raise NotImplementedError.
Proof.
  intros Hnin. unfold compute_error.
  repeat match goal with
         | |- context [String.eqb measure ?m] =>
             destruct (String.eqb measure m) eqn:?
         end;
    try reflexivity;
    exfalso; apply Hnin;
    match goal with
    | H : String.eqb measure _ = true |- _ =>
        apply String.eqb_eq in H; rewrite H
    end;
    unfold known_measures; simpl; tauto.
Qed.

(** X10.  A measure that [compute_error] does not know makes
    [compute_error_measures] fail, wherever it stands in the list and
    whatever the arrays are: no dictionary is returned. *)
Theorem compute_error_measures_unknown (y_act : option matrix)
    (y_pred : list R) (measures : list string) (measure : string)
    (d : list (string * R)) :
  In measure measures ->
  ~ In measure known_measures ->
  compute_error_measures y_act y_pred measures <> Ok d.
Proof.
  intros Hin Hnin Hrun. unfold compute_error_measures in Hrun.
  destruct (compute_error_measures_each _ _ _ _ Hrun measure Hin) as [e He].
  rewrite (compute_error_unknown _ _ Hnin) in He. discriminate.
Qed.

Lemma compute_error_measures_unknown_witness :
  compute_error_measures (Some (Mat 1 [[1]; [2]])) [1; 3]
                         ["sum_abs"; "max_abs"]%string
  <> Ok [("sum_abs"%string, 1)].
Proof.
  apply (@compute_error_measures_unknown _ _ _ "max_abs").
  - simpl. tauto.
  - unfold known_measures. simpl.
    intros [H | [H | [H | [H | [H | [H | []]]]]]]; discriminate.
Defined.

(** ** The names of the model variables *)

Lemma to_int_not_nil (z : Z) :
  Z.to_int z <> Decimal.Pos Decimal.Nil /\
  Z.to_int z <> Decimal.Neg Decimal.Nil.
Proof.
  destruct z as [|p|p]; simpl; split; try discriminate;
    intros [= H]; exact (Unsigned.to_uint_nonnil p H).
Qed.

Lemma format_int_inj (a b : Z) : format_int a = format_int b -> a = b.
Proof.
  unfold format_int. intros H. apply to_int_inj.
  destruct (to_int_not_nil a) as [Ha1 Ha2].
  destruct (to_int_not_nil b) as [Hb1 Hb2].
  pose proof (NilZero.isi (Z.to_int a) Ha1 Ha2) as Ea.
  pose proof (NilZero.isi (Z.to_int b) Hb1 Hb2) as Eb.
  rewrite H in Ea. congruence.
Qed.

Lemma variable_key_inj (num_lfs c c' : nat) :
  variable_key num_lfs c = variable_key num_lfs c' -> c = c'.
Proof.
  unfold variable_key.
  destruct (Z.of_nat c <? Z.of_nat num_lfs - 1)%Z,
           (Z.of_nat c' <? Z.of_nat num_lfs - 1)%Z;
    cbn [String.append]; intros H; try discriminate;
    injection H as H; apply format_int_inj in H; lia.
Qed.

Lemma dict_update_fresh {V : Type} (d : list (string * V)) (k : string)
    (v : V) :
  ~ In k (map fst d) -> dict_update d k v = d ++ [(k, v)].
Proof.
  induction d as [|[k0 v0] d IH]; intros Hnin; [reflexivity|].
  cbn [dict_update]. destruct (String.eqb k0 k) eqn:E.
  - apply String.eqb_eq in E. subst k0. exfalso. apply Hnin. now left.
  - rewrite IH; [reflexivity|]. intros C. apply Hnin. now right.
Qed.

Lemma fold_dict_update_fresh {A V : Type} (key : A -> string) (val : A -> V)
    (l : list A) :
  forall d,
    NoDup (map fst d ++ map key l) ->
    fold_left (fun d x => dict_update d (key x) (val x)) l d
    = d ++ map (fun x => (key x, val x)) l.
Proof.
  induction l as [|x l IH]; intros d Hnd; cbn [fold_left map].
  - now rewrite app_nil_r.
  - cbn [map] in Hnd.
    rewrite dict_update_fresh.
    + rewrite IH.
      * rewrite <- app_assoc. reflexivity.
      * rewrite map_app. cbn [map fst]. rewrite <- app_assoc. exact Hnd.
    + apply NoDup_remove_2 in Hnd. intros C. apply Hnd.
      apply in_or_app. now left.
Qed.

Lemma enumerate_fst {A : Type} (l : list A) :
  map fst (enumerate l) = seq 0 (length l).
Proof.
  unfold enumerate. generalize 0%nat.
  induction l as [|x l IH]; intros n; simpl; [reflexivity|].
  now rewrite IH.
Qed.

Lemma NoDup_map_inj {A B : Type} (f : A -> B) (l : list A) :
  (forall x y, f x = f y -> x = y) -> NoDup l -> NoDup (map f l).
Proof.
  intros Hinj Hnd. induction Hnd as [|x l Hx Hnd IH]; simpl; constructor.
  - intros C. apply in_map_iff in C. destruct C as [y [Hy Hin]].
    apply Hinj in Hy. subst y. contradiction.
  - assumption.
Qed.

(** X11.  [update_model_variables] stores one random variable per column
    of [Z_mc], in the order of the columns and each with the values of its
    column: no name is used twice.  Column [counter] is called [LF] with
    its number only while [counter < num_lfs - 1]; every other column is
    called [Feat] with the number [counter - num_lfs - 1], so the last
    low-fidelity column is [Feat-2] and the first feature column is
    [Feat-1]. *)
Theorem update_model_variables_names (st : BMFMCModel.self)
    (Y_LFs_train Z_mc : matrix) :
  BMFMCModel.update_model_variables (Some Y_LFs_train) (Some Z_mc) st
  = (Ok tt,
     BMFMCModel.set_variables
       (Some (map (fun cv => (variable_key (ncols Y_LFs_train) (fst cv),
                              snd cv))
                  (enumerate (rows (transpose Z_mc)))))
       st) /\
  NoDup (map (fun cv => variable_key (ncols Y_LFs_train) (fst cv))
             (enumerate (rows (transpose Z_mc)))) /\
  length (enumerate (rows (transpose Z_mc))) = ncols Z_mc.
Proof.
  assert (Hnd : NoDup (map (fun cv : nat * list R =>
                              variable_key (ncols Y_LFs_train) (fst cv))
                           (enumerate (rows (transpose Z_mc))))).
  { rewrite <- (map_map fst (variable_key (ncols Y_LFs_train))).
    apply NoDup_map_inj; [apply variable_key_inj|].
    rewrite enumerate_fst. apply seq_NoDup. }
  split; [|split].
  - unfold BMFMCModel.update_model_variables, modify. do 2 f_equal. f_equal.
    exact (@fold_dict_update_fresh _ _
             (fun cv => variable_key (ncols Y_LFs_train) (fst cv)) snd
             (enumerate (rows (transpose Z_mc))) [] Hnd).
  - exact Hnd.
  - unfold enumerate. rewrite length_combine, length_seq, Nat.min_id.
    unfold transpose. cbn [rows]. now rewrite length_map, length_seq.
Qed.

(** ** The iterator: evaluation and feature strategies *)

(** X13.  With [opt_features] and a valid [num_features >= 1] the
    iterator's [_set_feature_strategy] raises [NotImplementedError]: the
    option cannot be used in the iterator.  By then the coordinates have
    been tiled; [Z_train] is not assigned and no model is evaluated. *)
Theorem iterator_opt_features_not_implemented (st : BMFIAIterator.self)
    (X : matrix) (k : Z) :
  BMFIAIterator.X_train st = Some X ->
  BMFIAIterator.features_config (BMFIAIterator.settings_probab_mapping st)
  = Some "opt_features"%string ->
  BMFIAIterator.num_features (BMFIAIterator.settings_probab_mapping st)
  = Some k ->
  (1 <= k)%Z ->
  BMFIAIterator._set_feature_strategy st
  = (Raise NotImplementedError,
     BMFIAIterator.set_coords_experimental_data
       (tile_rows (BMFIAIterator.coords_experimental_data st) (nrows X)) st).
Proof.
  intros HX Hcfg Hnum Hk.
  assert (Hlt : (k <? 1)%Z = false) by (apply Z.ltb_ge; lia).
  unfold BMFIAIterator._set_feature_strategy,
    BMFIAIterator._update_probabilistic_mapping_with_features.
  method_unfold. rewrite HX. cbn. rewrite Hcfg. cbn. rewrite Hnum, Hlt.
  reflexivity.
Qed.

Lemma iterator_opt_features_not_implemented_witness :
  BMFIAIterator._set_feature_strategy (example_iterator "opt_features" 2)
  = (Raise NotImplementedError,
     BMFIAIterator.set_coords_experimental_data
       (tile_rows (Mat 1 [[0]]) 1) (example_iterator "opt_features" 2)).
Proof.
  apply (@iterator_opt_features_not_implemented
           (example_iterator "opt_features" 2) (Mat 1 [[1]]) 2);
    try reflexivity.
  lia.
Defined.

Lemma length_concat_repeat {A : Type} (l : list A) (n : nat) :
  length (concat (repeat l n)) = (n * length l)%nat.
Proof.
  induction n as [|n IH]; [reflexivity|].
  cbn [repeat concat]. rewrite length_app, IH. reflexivity.
Qed.

Lemma nrows_tile_rows (m : matrix) (n : nat) :
  nrows (tile_rows m n) = (n * nrows m)%nat.
Proof. unfold nrows, tile_rows. cbn [rows]. apply length_concat_repeat. Qed.



Lemma firstn_add {A : Type} (n m : nat) (l : list A) :
  firstn (n + m) l = firstn n l ++ firstn m (skipn n l).
Proof.
  revert l; induction n as [|n IH]; intros l; [reflexivity|].
  destruct l as [|x l]; simpl.
  - now rewrite firstn_nil.
  - now rewrite IH.
Qed.

Lemma concat_chunks {A : Type} (c a : nat) (l : list A) :
  concat (map (fun i => firstn c (skipn (i * c) l)) (seq 0 a))
  = firstn (a * c) l.
Proof.
  revert l; induction a as [|a IH]; intros l; [reflexivity|].
  cbn [seq map concat]. rewrite <- seq_shift, map_map.
  rewrite (map_ext (fun i => firstn c (skipn (S i * c) l))
                   (fun i => firstn c (skipn (i * c) (skipn c l)))).
  - rewrite IH. cbn [Nat.mul Nat.add skipn]. rewrite firstn_add. reflexivity.
  - intros i. rewrite skipn_skipn. f_equal. f_equal. simpl. lia.
Qed.

(** Reshaping [a * c] entries into [c] columns gives [a] full rows that
    hold the entries in their order. *)
Lemma reshape_cols_spec (l : list R) (a c : nat) :
  (0 < c)%nat -> length l = (a * c)%nat ->
  exists M,
    reshape_cols l c = Ok M /\ ncols M = c /\ nrows M = a /\
    wf_matrix M /\ ravel M = l.
Proof.
  intros Hc Hlen. unfold reshape_cols.
  destruct c as [|c']; [lia|]. set (c := S c') in *.
  rewrite Hlen, Nat.Div0.mod_mul, Nat.eqb_refl, Nat.div_mul by (unfold c; lia).
  eexists. split; [reflexivity|].
  split; [reflexivity|]. split; [|split].
  - unfold nrows. cbn [rows]. now rewrite length_map, length_seq.
  - unfold wf_matrix. cbn [rows ncols]. rewrite Forall_forall.
    intros r Hr. apply in_map_iff in Hr. destruct Hr as [i [<- Hi]].
    apply in_seq in Hi. rewrite length_firstn, length_skipn, Hlen. nia.
  - unfold ravel. cbn [rows]. rewrite concat_chunks, <- Hlen.
    apply firstn_all.
Qed.

Lemma reshape_cols_indivisible (l : list R) (c : nat) :
  Nat.modulo (length l) c <> 0%nat -> reshape_cols l c = Raise ValueError.
Proof.
  intros H. unfold reshape_cols. destruct c as [|c']; [reflexivity|].
  apply Nat.eqb_neq in H. now rewrite H.
Qed.

(** The state that a successful [eval_model] leaves behind. *)
Lemma eval_model_run (st : BMFIAIterator.self) (ml mh : list R)
    (Y_LF Y_HF : matrix) :
  BMFIAIterator.lf_model st (BMFIAIterator.X_train st) = Ok ml ->
  BMFIAIterator.hf_model st (BMFIAIterator.X_train st) = Ok mh ->
  reshape_cols ml (nrows (BMFIAIterator.coords_experimental_data st))
  = Ok Y_LF ->
  reshape_cols mh (nrows (BMFIAIterator.coords_experimental_data st))
  = Ok Y_HF ->
  BMFIAIterator.eval_model st
  = (Ok tt,
     BMFIAIterator.set_Y_HF_train (Some Y_HF)
       (BMFIAIterator.set_evaluations
          (BMFIAIterator.HF :: BMFIAIterator.LF
             :: BMFIAIterator.evaluations st)
          (BMFIAIterator.set_Y_LF_train (Some Y_LF) st))).
Proof.
  intros Hlf Hhf HYL HYH.
  unfold BMFIAIterator.eval_model,
    BMFIAIterator._evaluate_LF_model_for_X_train,
    BMFIAIterator._evaluate_HF_model_for_X_train.
  unfold mbind, mret, lift, gets, modify. cbn.
  rewrite Hlf, HYL. cbn. rewrite Hhf, HYH. reflexivity.
Qed.

(** X15.  [eval_model] on models that return [a] and [b] full rows of
    [num_coords] values: both models are evaluated at [X_train], the
    low-fidelity model first; [Y_LF_train] and [Y_HF_train] are rectangular
    with one column per coordinate and hold the values of their model in
    the order of the model's output; [Z_train] and the coordinates are not
    touched. *)
Theorem eval_model_reshapes (st : BMFIAIterator.self) (ml mh : list R)
    (a b : nat) :
  (0 < nrows (BMFIAIterator.coords_experimental_data st))%nat ->
  BMFIAIterator.lf_model st (BMFIAIterator.X_train st) = Ok ml ->
  BMFIAIterator.hf_model st (BMFIAIterator.X_train st) = Ok mh ->
  length ml = (a * nrows (BMFIAIterator.coords_experimental_data st))%nat ->
  length mh = (b * nrows (BMFIAIterator.coords_experimental_data st))%nat ->
  exists st' Y_LF Y_HF,
    BMFIAIterator.eval_model st = (Ok tt, st') /\
    BMFIAIterator.Y_LF_train st' = Some Y_LF /\
    BMFIAIterator.Y_HF_train st' = Some Y_HF /\
    wf_matrix Y_LF /\ wf_matrix Y_HF /\
    nrows Y_LF = a /\ nrows Y_HF = b /\
    ncols Y_LF = nrows (BMFIAIterator.coords_experimental_data st) /\
    ncols Y_HF = nrows (BMFIAIterator.coords_experimental_data st) /\
    ravel Y_LF = ml /\ ravel Y_HF = mh /\
    BMFIAIterator.evaluations st'
    = BMFIAIterator.HF :: BMFIAIterator.LF :: BMFIAIterator.evaluations st /\
    BMFIAIterator.Z_train st' = BMFIAIterator.Z_train st /\
    BMFIAIterator.coords_experimental_data st'
    = BMFIAIterator.coords_experimental_data st.
Proof.
  intros Hc Hlf Hhf Hla Hlb.
  destruct (reshape_cols_spec ml a Hc Hla) as [YL [HYL [HcL [HrL [HwL HvL]]]]].
  destruct (reshape_cols_spec mh b Hc Hlb) as [YH [HYH [HcH [HrH [HwH HvH]]]]].
  eexists. exists YL, YH. split.
  - eapply eval_model_run; eassumption.
  - cbn. repeat split; assumption.
Qed.

Lemma eval_model_reshapes_witness :
  exists st' Y_LF Y_HF,
    BMFIAIterator.eval_model (example_iterator "no_features" 1)
    = (Ok tt, st') /\
    BMFIAIterator.Y_LF_train st' = Some Y_LF /\
    BMFIAIterator.Y_HF_train st' = Some Y_HF /\
    wf_matrix Y_LF /\ wf_matrix Y_HF /\
    nrows Y_LF = 1%nat /\ nrows Y_HF = 1%nat /\
    ncols Y_LF = 1%nat /\ ncols Y_HF = 1%nat /\
    ravel Y_LF = [1] /\ ravel Y_HF = [2] /\
    BMFIAIterator.evaluations st'
    = [BMFIAIterator.HF; BMFIAIterator.LF] /\
    BMFIAIterator.Z_train st' = None /\
    BMFIAIterator.coords_experimental_data st' = Mat 1 [[0]].
Proof.
  apply (@eval_model_reshapes (example_iterator "no_features" 1)
           [1] [2] 1 1);
    try reflexivity.
  unfold nrows. simpl. lia.
Defined.

(** X16.  When the output of the low-fidelity model does not fill whole
    rows of [num_coords] values (or there is no coordinate), [eval_model]
    raises [ValueError] from the reshape: the low-fidelity model has been
    evaluated, the high-fidelity model is not evaluated, and neither
    [Y_LF_train] nor [Y_HF_train] is assigned. *)
Theorem eval_model_ragged_output (st : BMFIAIterator.self) (ml : list R) :
  BMFIAIterator.lf_model st (BMFIAIterator.X_train st) = Ok ml ->
  Nat.modulo (length ml) (nrows (BMFIAIterator.coords_experimental_data st))
  <> 0%nat ->
  BMFIAIterator.eval_model st
  = (Raise ValueError,
     BMFIAIterator.set_evaluations
       (BMFIAIterator.LF :: BMFIAIterator.evaluations st) st).
Proof.
  intros Hlf Hmod.
  unfold BMFIAIterator.eval_model,
    BMFIAIterator._evaluate_LF_model_for_X_train.
  unfold mbind, mret, lift, gets, modify. cbn.
  rewrite Hlf, (reshape_cols_indivisible _ _ Hmod). reflexivity.
Qed.

Lemma eval_model_ragged_output_witness :
  BMFIAIterator.eval_model (example_grid_iterator "coord_features" [1; 2; 3] [])
  = (Raise ValueError,
     BMFIAIterator.set_evaluations [BMFIAIterator.LF]
       (example_grid_iterator "coord_features" [1; 2; 3] [])).
Proof.
  apply (@eval_model_ragged_output
           (example_grid_iterator "coord_features" [1; 2; 3] []) [1; 2; 3]).
  - reflexivity.
  - unfold nrows. simpl. lia.
Defined.

(** X17.  [core_run] with [coord_features] and the coordinates in a
    two-dimensional array with one row per point, on models that return
    [a] and [b] full rows of [num_coords] values: [eval_model] shapes
    [Y_LF_train] with the coordinates as they are,
    [_set_feature_strategy] then tiles the coordinates once per training
    input and joins them to [Y_LF_train].  The run succeeds exactly when the low-fidelity output
    has as many rows as the tiled coordinates, [a = n * num_coords] for [n]
    training inputs; any other number of rows, such as one row per
    training input when there are two coordinates or more, raises
    [ValueError] after both models have been evaluated, and [Z_train] is
    not assigned. *)
Theorem core_run_coord_features (st : BMFIAIterator.self) (X : matrix)
    (ml mh : list R) (a b : nat) :
  BMFIAIterator.X_train st = Some X ->
  BMFIAIterator.features_config (BMFIAIterator.settings_probab_mapping st)
  = Some "coord_features"%string ->
  (0 < nrows (BMFIAIterator.coords_experimental_data st))%nat ->
  BMFIAIterator.lf_model st (Some X) = Ok ml ->
  BMFIAIterator.hf_model st (Some X) = Ok mh ->
  length ml = (a * nrows (BMFIAIterator.coords_experimental_data st))%nat ->
  length mh = (b * nrows (BMFIAIterator.coords_experimental_data st))%nat ->
  (a = (nrows X * nrows (BMFIAIterator.coords_experimental_data st))%nat ->
   exists st' Z Y_HF,
     BMFIAIterator.core_run st = (Ok (Some (BMFIAIterator.Arr2 Z), Some Y_HF), st') /\
     nrows Z = a /\
     ncols Z = (nrows (BMFIAIterator.coords_experimental_data st)
                + ncols (BMFIAIterator.coords_experimental_data st))%nat /\
     ravel Y_HF = mh) /\
  (a <> (nrows X * nrows (BMFIAIterator.coords_experimental_data st))%nat ->
   fst (BMFIAIterator.core_run st) = Raise ValueError /\
   BMFIAIterator.Z_train (snd (BMFIAIterator.core_run st))
   = BMFIAIterator.Z_train st /\
   BMFIAIterator.evaluations (snd (BMFIAIterator.core_run st))
   = BMFIAIterator.HF :: BMFIAIterator.LF :: BMFIAIterator.evaluations st).
Proof.
  intros HX Hcfg Hc Hlf Hhf Hla Hlb.
  destruct (reshape_cols_spec ml a Hc Hla) as [YL [HYL [HcL [HrL [HwL HvL]]]]].
  destruct (reshape_cols_spec mh b Hc Hlb) as [YH [HYH [HcH [HrH [HwH HvH]]]]].
  rewrite <- HX in Hlf, Hhf.
  pose proof (eval_model_run st Hlf Hhf HYL HYH) as Heval.
  assert (Hrun : forall r s,
            hstack YL (tile_rows (BMFIAIterator.coords_experimental_data st)
                                 (nrows X)) = r ->
            s = BMFIAIterator.set_coords_experimental_data
                  (tile_rows (BMFIAIterator.coords_experimental_data st)
                             (nrows X))
                  (BMFIAIterator.set_Y_HF_train (Some YH)
                     (BMFIAIterator.set_evaluations
                        (BMFIAIterator.HF :: BMFIAIterator.LF
                           :: BMFIAIterator.evaluations st)
                        (BMFIAIterator.set_Y_LF_train (Some YL) st))) ->
            BMFIAIterator.core_run st
            = match r with
              | Ok Z => (Ok (Some (BMFIAIterator.Arr2 Z), Some YH),
                         BMFIAIterator.set_Z_train
                           (Some (BMFIAIterator.Arr2 Z)) s)
              | Raise e => (Raise e, s)
              | NotReal => (NotReal, s)
              end).
  { intros r s Hr ->. unfold BMFIAIterator.core_run. unfold mbind at 1.
    rewrite Heval. unfold mbind at 1.
    unfold BMFIAIterator._set_feature_strategy.
    unfold mbind, mret, lift, gets, modify, require. cbn.
    rewrite HX. cbn. rewrite Hcfg. cbn. rewrite Hr.
    destruct r; reflexivity. }
  split.
  - intros Ha.
    assert (Hst : hstack YL (tile_rows
                               (BMFIAIterator.coords_experimental_data st)
                               (nrows X))
                  = Ok (Mat (ncols YL
                             + ncols (tile_rows
                                        (BMFIAIterator.coords_experimental_data
                                           st) (nrows X)))
                            (map (fun p => fst p ++ snd p)
                                 (combine (rows YL)
                                    (rows (tile_rows
                                       (BMFIAIterator.coords_experimental_data
                                          st) (nrows X))))))).
    { unfold hstack. rewrite nrows_tile_rows, HrL, Ha, Nat.eqb_refl.
      reflexivity. }
    eexists. eexists. exists YH. split.
    + rewrite (Hrun _ _ Hst eq_refl). reflexivity.
    + split; [|split; [|assumption]].
      * unfold nrows at 1. cbn [rows].
        rewrite length_map, length_combine.
        fold (nrows YL).
        fold (nrows (tile_rows (BMFIAIterator.coords_experimental_data st)
                               (nrows X))).
        rewrite nrows_tile_rows, HrL. lia.
      * cbn [ncols tile_rows]. rewrite HcL. reflexivity.
  - intros Ha.
    assert (Hst : hstack YL (tile_rows
                               (BMFIAIterator.coords_experimental_data st)
                               (nrows X))
                  = Raise ValueError).
    { unfold hstack. rewrite nrows_tile_rows, HrL.
      apply Nat.eqb_neq in Ha. now rewrite Ha. }
    rewrite (Hrun _ _ Hst eq_refl). repeat split.
Qed.

Lemma core_run_coord_features_witness :
  (2%nat = (2 * 2)%nat ->
   exists st' Z Y_HF,
     BMFIAIterator.core_run
       (example_grid_iterator "coord_features" [1; 2; 3; 4] [5; 6; 7; 8])
     = (Ok (Some (BMFIAIterator.Arr2 Z), Some Y_HF), st') /\
     nrows Z = 2%nat /\ ncols Z = (2 + 1)%nat /\ ravel Y_HF = [5; 6; 7; 8]) /\
  (2%nat <> (2 * 2)%nat ->
   fst (BMFIAIterator.core_run
          (example_grid_iterator "coord_features" [1; 2; 3; 4] [5; 6; 7; 8]))
   = Raise ValueError /\
   BMFIAIterator.Z_train
     (snd (BMFIAIterator.core_run
             (example_grid_iterator "coord_features" [1; 2; 3; 4]
                                    [5; 6; 7; 8])))
   = None /\
   BMFIAIterator.evaluations
     (snd (BMFIAIterator.core_run
             (example_grid_iterator "coord_features" [1; 2; 3; 4]
                                    [5; 6; 7; 8])))
   = [BMFIAIterator.HF; BMFIAIterator.LF]).
Proof.
  apply (@core_run_coord_features
           (example_grid_iterator "coord_features" [1; 2; 3; 4] [5; 6; 7; 8])
           (Mat 1 [[1]; [2]]) [1; 2; 3; 4] [5; 6; 7; 8] 2 2);
    try reflexivity.
  unfold nrows. simpl. lia.
Defined.

Lemma take_cols_shape (m g : matrix) (idx_vec : list Z) :
  take_cols m idx_vec = Ok g ->
  ncols g = length idx_vec /\ nrows g = nrows m.
Proof.
  unfold take_cols. destruct (map_result _ idx_vec); cbn [bind];
    try discriminate.
  intros [= <-]. unfold nrows. cbn [rows ncols].
  now rewrite length_map.
Qed.

Lemma nrows_transpose (m : matrix) : nrows (transpose m) = ncols m.
Proof.
  unfold nrows, transpose. cbn [rows]. now rewrite length_map, length_seq.
Qed.

Lemma fit_transform_shape (x : matrix) :
  (0 < nrows x)%nat -> (0 < ncols x)%nat ->
  exists sc,
    fit_transform (Some x) = Ok (sc, scaler_transform sc x).
Proof.
  intros Hr Hc. unfold fit_transform, scaler_fit, nrows in *.
  destruct (rows x) as [|r0 rs] eqn:Er; [simpl in Hr; lia|].
  destruct (ncols x) as [|c] eqn:Ec; [lia|].
  cbn [bind]. eexists. reflexivity.
Qed.

(** X18.  [man_features] in the iterator with two or more selected input
    columns: the standardized features are joined, transposed, to every
    column of [Y_LF_train], so that the number of selected columns has to
    equal the number of rows of [Y_LF_train].  When it does not,
    [_set_feature_strategy] raises [ValueError] and [Z_train] is not
    assigned. *)
Theorem iterator_man_features_shape_error (st : BMFIAIterator.self)
    (X g Y : matrix) (idx_vec : list Z) :
  BMFIAIterator.X_train st = Some X ->
  BMFIAIterator.features_config (BMFIAIterator.settings_probab_mapping st)
  = Some "man_features"%string ->
  BMFIAIterator.X_cols (BMFIAIterator.settings_probab_mapping st)
  = Some idx_vec ->
  (2 <= length idx_vec)%nat ->
  take_cols X idx_vec = Ok g ->
  (0 < nrows X)%nat ->
  BMFIAIterator.Y_LF_train st = Some Y ->
  (0 < ncols Y)%nat ->
  nrows Y <> length idx_vec ->
  fst (BMFIAIterator._set_feature_strategy st) = Raise ValueError /\
  BMFIAIterator.Z_train (snd (BMFIAIterator._set_feature_strategy st))
  = BMFIAIterator.Z_train st.
Proof.
  intros HX Hcfg Hidx Hk Hg Hn HY Hc Hne.
  destruct (take_cols_shape _ _ Hg) as [Hgc Hgr].
  assert (Hk' : (length idx_vec <=? 1)%nat = false)
    by (apply Nat.leb_gt; lia).
  destruct (@fit_transform_shape (transpose g)) as [sc Hfit].
  { rewrite nrows_transpose. lia. }
  { unfold transpose. cbn [ncols]. lia. }
  unfold fit_transform in Hfit.
  unfold BMFIAIterator._set_feature_strategy.
  unfold mbind, mret, lift, gets, modify, require. cbn.
  rewrite HX. cbn. rewrite Hcfg. cbn. rewrite Hidx. cbn.
  rewrite Hg, Hk', Hfit, HY. cbn [of_option snd fst].
  destruct (ncols Y) as [|c]; [lia|]. cbn [seq map map_result].
  assert (Hh : hstack (Mat 1 (map (fun v => [v])
                                  (map (fun r => nth 0 r 0) (rows Y))))
                      (transpose (transpose
                                    (scaler_transform sc (transpose g))))
               = Raise ValueError).
  { unfold hstack.
    replace (nrows (Mat 1 (map (fun v => [v])
                               (map (fun r => nth 0 r 0) (rows Y)))))
      with (nrows Y)
      by (unfold nrows; cbn [rows]; now rewrite !length_map).
    rewrite nrows_transpose. unfold transpose at 1. cbn [ncols].
    replace (nrows (scaler_transform sc (transpose g)))
      with (length idx_vec).
    2:{ unfold nrows, scaler_transform. cbn [rows]. rewrite length_map.
        fold (nrows (transpose g)). rewrite nrows_transpose. congruence. }
    apply Nat.eqb_neq in Hne. now rewrite Hne. }
  rewrite Hh. cbn. split; reflexivity.
Qed.

Lemma iterator_man_features_shape_error_witness :
  fst (BMFIAIterator._set_feature_strategy example_man_iterator)
  = Raise ValueError /\
  BMFIAIterator.Z_train
    (snd (BMFIAIterator._set_feature_strategy example_man_iterator))
  = None.
Proof.
  apply (@iterator_man_features_shape_error example_man_iterator
           (Mat 2 [[1; 2]; [3; 4]; [5; 6]])
           (Mat 2 [[1; 2]; [3; 4]; [5; 6]])
           (Mat 1 [[7]; [8]; [9]]) [0%Z; 1%Z]);
    try reflexivity; unfold nrows; simpl; lia.
Defined.

(** X19.  In the iterator, [_set_feature_strategy] evaluates no model and
    assigns neither the training data [X_train], [Y_LF_train],
    [Y_HF_train] nor the observations or the settings, and [eval_model]
    assigns nothing but [Y_LF_train] and [Y_HF_train] (and runs the
    models); this holds for every configuration and every outcome of the
    call. *)
Theorem iterator_methods_keep_inputs (st : BMFIAIterator.self) :
  strategy_inputs (snd (BMFIAIterator._set_feature_strategy st))
  = strategy_inputs st /\
  evaluation_inputs (snd (BMFIAIterator.eval_model st))
  = evaluation_inputs st.
Proof.
  split.
  - assert (H : preserves strategy_inputs BMFIAIterator._set_feature_strategy);
      [|apply H].
    unfold BMFIAIterator._set_feature_strategy,
      BMFIAIterator._update_probabilistic_mapping_with_features.
    preserve.
  - assert (H : preserves evaluation_inputs BMFIAIterator.eval_model);
      [|apply H].
    unfold BMFIAIterator.eval_model,
      BMFIAIterator._evaluate_LF_model_for_X_train,
      BMFIAIterator._evaluate_HF_model_for_X_train.
    preserve.
Qed.

(** ** Manual features of the model *)

Lemma py_index_out_of_range (n : nat) (i : Z) :
  (Z.of_nat n <= i)%Z \/ (i < - Z.of_nat n)%Z ->
  py_index n i = Raise IndexError.
Proof.
  intros H. unfold py_index.
  destruct ((0 <=? i) && (i <? Z.of_nat n))%Z eqn:E1.
  { apply andb_true_iff in E1. destruct E1 as [E1 E2].
    apply Z.leb_le in E1. apply Z.ltb_lt in E2. lia. }
  destruct ((- Z.of_nat n <=? i) && (i <? 0))%Z eqn:E2; [|reflexivity].
  apply andb_true_iff in E2. destruct E2 as [E2 E3].
  apply Z.leb_le in E2. apply Z.ltb_lt in E3. lia.
Qed.

Lemma py_index_total (n : nat) (i : Z) :
  py_index n i = Raise IndexError \/ exists j, py_index n i = Ok j.
Proof.
  unfold py_index.
  destruct ((0 <=? i) && (i <? Z.of_nat n))%Z; [right; eexists; reflexivity|].
  destruct ((- Z.of_nat n <=? i) && (i <? 0))%Z;
    [right; eexists; reflexivity | left; reflexivity].
Qed.

Lemma take_cols_out_of_range (m : matrix) (idx_vec : list Z) (i : Z) :
  In i idx_vec ->
  (Z.of_nat (ncols m) <= i)%Z \/ (i < - Z.of_nat (ncols m))%Z ->
  take_cols m idx_vec = Raise IndexError.
Proof.
  intros Hin Hi. unfold take_cols.
  rewrite (@map_result_raise _ _ _ IndexError _ i); [reflexivity | | |].
  - intros a _. apply py_index_total.
  - assumption.
  - now apply py_index_out_of_range.
Qed.

(** X20.  [man_features] in the model with a column index in [X_cols]
    that [X_train] does not have (beyond the last column, or beyond the
    first when counted from the end): [set_feature_strategy] raises
    [IndexError] before anything is assigned. *)
Theorem man_features_index_error (st : BMFMCModel.self) (X : matrix)
    (idx_vec : list Z) (i : Z) :
  BMFMCModel.features_config (BMFMCModel.settings_probab_mapping st)
  = Some "man_features"%string ->
  BMFMCModel.X_cols (BMFMCModel.settings_probab_mapping st) = Some idx_vec ->
  BMFMCModel.X_train st = Some X ->
  In i idx_vec ->
  (Z.of_nat (ncols X) <= i)%Z \/ (i < - Z.of_nat (ncols X))%Z ->
  BMFMCModel.set_feature_strategy st = (Raise IndexError, st).
Proof.
  intros Hcfg Hidx HX Hin Hi.
  unfold BMFMCModel.set_feature_strategy.
  unfold mbind, mret, lift, gets, modify, require.
  rewrite Hcfg. cbn [of_option String.eqb Ascii.eqb Bool.eqb].
  rewrite Hidx, HX. cbn [of_option].
  rewrite (take_cols_out_of_range _ _ Hin Hi). reflexivity.
Qed.

Lemma man_features_index_error_witness :
  BMFMCModel.set_feature_strategy (example_man_model [0%Z; 1%Z])
  = (Raise IndexError, example_man_model [0%Z; 1%Z]).
Proof.
  apply (@man_features_index_error (example_man_model [0%Z; 1%Z])
           (Mat 1 [[3]; [1]]) [0%Z; 1%Z] 1%Z);
    try reflexivity.
  - simpl. tauto.
  - left. simpl. lia.
Defined.

(** ** The feature matrices of [opt_features] *)

Lemma py_index_lt (n : nat) (i : Z) (j : nat) :
  py_index n i = Ok j -> (j < n)%nat.
Proof.
  unfold py_index.
  destruct ((0 <=? i) && (i <? Z.of_nat n))%Z eqn:E1.
  { apply andb_true_iff in E1. destruct E1 as [E1 E2].
    apply Z.leb_le in E1. apply Z.ltb_lt in E2. intros [= <-]. lia. }
  destruct ((- Z.of_nat n <=? i) && (i <? 0))%Z eqn:E2; [|discriminate].
  apply andb_true_iff in E2. destruct E2 as [E2 E3].
  apply Z.leb_le in E2. apply Z.ltb_lt in E3. intros [= <-]. lia.
Qed.

Lemma map_result_nth {A B : Type} (f : A -> result B) (l : list A)
    (ys : list B) (i : nat) (x : A) :
  map_result f l = Ok ys -> nth_error l i = Some x ->
  exists y, f x = Ok y /\ nth_error ys i = Some y.
Proof.
  revert ys i; induction l as [|a l IH]; intros ys i Hrun Hx.
  - destruct i; discriminate.
  - cbn [map_result] in Hrun.
    destruct (f a) as [y0| |] eqn:Ea; cbn [bind] in Hrun; try discriminate.
    destruct (map_result f l) as [ys'| |]; cbn [bind] in Hrun;
      try discriminate.
    injection Hrun as <-. destruct i as [|i]; cbn [nth_error] in *.
    + injection Hx as <-. exists y0. split; [assumption | reflexivity].
    + apply (IH ys' i eq_refl Hx).
Qed.

(** [m[indices, :]]: row [i] of the result is the row of [m] that the
    [i]-th index points to. *)
Lemma take_rows_spec (m z : matrix) (indices : list Z) :
  take_rows m indices = Ok z ->
  ncols z = ncols m /\ nrows z = length indices /\
  forall i idx,
    nth_error indices i = Some idx ->
    exists j r,
      py_index (nrows m) idx = Ok j /\
      nth_error (rows m) j = Some r /\
      nth_error (rows z) i = Some r.
Proof.
  unfold take_rows.
  destruct (map_result (py_index (nrows m)) indices) as [ixs| |] eqn:E;
    cbn [bind]; try discriminate.
  intros [= <-]. cbn [ncols rows]. split; [reflexivity|]. split.
  - unfold nrows. cbn [rows]. rewrite length_map.
    eapply map_result_length; eassumption.
  - intros i idx Hidx.
    destruct (map_result_nth _ _ _ E Hidx) as [j [Hj Hnth]].
    pose proof (py_index_lt _ _ Hj) as Hlt.
    exists j, (nth j (rows m) []). split; [assumption|]. split.
    + apply nth_error_nth'. assumption.
    + rewrite nth_error_map, Hnth. reflexivity.
Qed.

Lemma hstack_spec (a b z : matrix) :
  hstack a b = Ok z ->
  nrows a = nrows b /\ nrows z = nrows a /\
  ncols z = (ncols a + ncols b)%nat /\
  rows z = map (fun p => fst p ++ snd p) (combine (rows a) (rows b)).
Proof.
  unfold hstack. destruct (Nat.eqb (nrows a) (nrows b)) eqn:E;
    [|discriminate].
  apply Nat.eqb_eq in E. intros [= <-]. cbn [ncols rows].
  repeat split; try assumption.
  unfold nrows in *. cbn [rows]. rewrite length_map, length_combine. lia.
Qed.

(** X21.  When [update_probabilistic_mapping_with_features] returns, the
    feature matrix [Z_mc] is [Y_LFs_mc] followed by the leading
    [num_features] columns of [gammas_ext_mc] (as many as there are), the
    training features [Z_train] have one row per entry of
    [training_indices], row [i] being the row of [Z_mc] that
    [training_indices[i]] points to (a negative index counts from the
    end), and the predictive mean and variance [m_f_mc] and [var_y_mc] are
    those of the rebuilt interface at [Z_mc]. *)
Theorem update_probabilistic_mapping_features (st : BMFMCModel.self) :
  fst (BMFMCModel.update_probabilistic_mapping_with_features st) = Ok tt ->
  exists k gammas Y Z Z_train itf,
    BMFMCModel.num_features (BMFMCModel.settings_probab_mapping st)
    = Some k /\
    BMFMCModel.gammas_ext_mc st = Some gammas /\
    BMFMCModel.Y_LFs_mc st = Some Y /\
    BMFMCModel.Z_mc
      (snd (BMFMCModel.update_probabilistic_mapping_with_features st))
    = Some Z /\
    BMFMCModel.Z_train
      (snd (BMFMCModel.update_probabilistic_mapping_with_features st))
    = Some Z_train /\
    BMFMCModel.interface
      (snd (BMFMCModel.update_probabilistic_mapping_with_features st))
    = Some itf /\
    nrows Z = nrows Y /\
    rows Z = map (fun p => fst p ++ snd p)
                 (combine (rows Y) (rows (slice_cols gammas k))) /\
    ((0 <= k)%Z ->
     ncols Z = (ncols Y + Nat.min (Z.to_nat k) (ncols gammas))%nat) /\
    ncols Z_train = ncols Z /\
    nrows Z_train = length (BMFMCModel.training_indices st) /\
    (forall i idx,
       nth_error (BMFMCModel.training_indices st) i = Some idx ->
       exists j r,
         py_index (nrows Z) idx = Ok j /\
         nth_error (rows Z) j = Some r /\
         nth_error (rows Z_train) i = Some r) /\
    exists mv,
      BMFMCModel.interface_map itf (transpose Z) = Ok mv /\
      BMFMCModel.m_f_mc
        (snd (BMFMCModel.update_probabilistic_mapping_with_features st))
      = Some (fst mv) /\
      BMFMCModel.var_y_mc
        (snd (BMFMCModel.update_probabilistic_mapping_with_features st))
      = Some (snd mv).
Proof.
  unfold BMFMCModel.update_probabilistic_mapping_with_features.
  unfold mbind, mret, lift, gets, modify, require.
  destruct (BMFMCModel.num_features (BMFMCModel.settings_probab_mapping st))
    as [k|]; cbn [of_option]; [|discriminate].
  destruct (BMFMCModel.gammas_ext_mc st) as [gammas|]; cbn [of_option];
    [|discriminate].
  destruct (BMFMCModel.Y_LFs_mc st) as [Y|] eqn:EY; cbn [hstack_opt];
    [|discriminate].
  destruct (hstack Y (slice_cols gammas k)) as [Z| |] eqn:EZ;
    try discriminate.
  cbn [BMFMCModel.training_indices BMFMCModel.set_Z_mc].
  destruct (take_rows Z (BMFMCModel.training_indices st)) as [Zt| |] eqn:EZt;
    try discriminate.
  cbn [BMFMCModel.interface BMFMCModel.set_Z_train BMFMCModel.set_Z_mc].
  destruct (BMFMCModel.interface st) as [itf0|]; cbn [of_option];
    [|discriminate].
  cbn [BMFMCModel.Y_HF_train BMFMCModel.set_Z_train BMFMCModel.set_Z_mc].
  destruct (BMFMCModel.interface_build_approximation itf0 (Some Zt)
              (BMFMCModel.Y_HF_train st)) as [itf| |]; try discriminate.
  destruct (BMFMCModel.interface_map itf (transpose Z)) as [mv| |] eqn:Emv;
    try discriminate.
  destruct (BMFMCModel.interface_map itf (transpose Zt)) as [mvt| |];
    try discriminate.
  intros _. exists k, gammas, Y, Z, Zt, itf.
  destruct (hstack_spec _ _ EZ) as [Hr [Hrz [Hcz Hrows]]].
  destruct (take_rows_spec _ _ EZt) as [Hct [Hrt Hin]].
  cbn. repeat split; try assumption; try reflexivity.
  - intros Hk. rewrite Hcz. unfold slice_cols.
    destruct (k <? 0)%Z eqn:E; [apply Z.ltb_lt in E; lia | reflexivity].
  - exists mv. repeat split; assumption.
Qed.

Lemma update_probabilistic_mapping_features_witness :
  exists k gammas Y Z Z_train itf,
    BMFMCModel.num_features
      (BMFMCModel.settings_probab_mapping example_greedy_model)
    = Some k /\
    BMFMCModel.gammas_ext_mc example_greedy_model = Some gammas /\
    BMFMCModel.Y_LFs_mc example_greedy_model = Some Y /\
    BMFMCModel.Z_mc
      (snd (BMFMCModel.update_probabilistic_mapping_with_features
              example_greedy_model))
    = Some Z /\
    BMFMCModel.Z_train
      (snd (BMFMCModel.update_probabilistic_mapping_with_features
              example_greedy_model))
    = Some Z_train /\
    BMFMCModel.interface
      (snd (BMFMCModel.update_probabilistic_mapping_with_features
              example_greedy_model))
    = Some itf /\
    nrows Z = nrows Y /\
    rows Z = map (fun p => fst p ++ snd p)
                 (combine (rows Y) (rows (slice_cols gammas k))) /\
    ((0 <= k)%Z ->
     ncols Z = (ncols Y + Nat.min (Z.to_nat k) (ncols gammas))%nat) /\
    ncols Z_train = ncols Z /\
    nrows Z_train = length (BMFMCModel.training_indices example_greedy_model) /\
    (forall i idx,
       nth_error (BMFMCModel.training_indices example_greedy_model) i = Some idx ->
       exists j r,
         py_index (nrows Z) idx = Ok j /\
         nth_error (rows Z) j = Some r /\
         nth_error (rows Z_train) i = Some r) /\
    exists mv,
      BMFMCModel.interface_map itf (transpose Z) = Ok mv /\
      BMFMCModel.m_f_mc
        (snd (BMFMCModel.update_probabilistic_mapping_with_features
                example_greedy_model))
      = Some (fst mv) /\
      BMFMCModel.var_y_mc
        (snd (BMFMCModel.update_probabilistic_mapping_with_features
                example_greedy_model))
      = Some (snd mv).
Proof.
  apply (@update_probabilistic_mapping_features example_greedy_model).
  reflexivity.
Defined.
(** ** The shape of the greedy features *)

Lemma np_dot_ncols (a b z : matrix) :
  np_dot a b = Ok z -> ncols z = ncols b /\ nrows z = nrows a.
Proof.
  unfold np_dot. destruct (Nat.eqb (ncols a) (nrows b)); [|discriminate].
  intros [= <-]. cbn [ncols]. split; [reflexivity|].
  unfold nrows. cbn [rows]. apply length_map.
Qed.

Lemma select_feature_ncols (x_iter_test Y select_bool : matrix) :
  BMFMCModel.select_feature x_iter_test (Some Y) = Ok select_bool ->
  ncols select_bool = ncols Y.
Proof.
  unfold BMFMCModel.select_feature, fit_transform.
  destruct (scaler_fit Y) as [sc| |]; cbn [bind snd]; try discriminate.
  destruct (np_dot (transpose x_iter_test) (scaler_transform sc Y))
    as [corr| |] eqn:Edot; cbn [bind]; try discriminate.
  destruct (np_max _) as [best| |]; cbn [bind]; try discriminate.
  intros [= <-]. unfold mat_map. cbn [ncols].
  destruct (np_dot_ncols _ _ Edot) as [Hc _]. rewrite Hc. reflexivity.
Qed.

Lemma linear_scale_shape (a b z : matrix) :
  _linear_scale_a_to_b a b = Ok z -> nrows z = nrows a /\ ncols z = ncols a.
Proof.
  unfold _linear_scale_a_to_b.
  destruct (np_min (ravel b)); cbn [bind]; try discriminate.
  destruct (np_max (ravel b)); cbn [bind]; try discriminate.
  destruct (np_min (ravel a)); cbn [bind]; try discriminate.
  destruct (np_max (ravel a)); cbn [bind]; try discriminate.
  destruct (np_divide _ _); cbn [bind]; try discriminate.
  intros [= <-]. cbn [ncols]. split; [|reflexivity].
  unfold nrows. cbn [rows]. apply length_map.
Qed.

(** The rounds of the greedy loop: each of them appends as many columns
    as there are low-fidelity outputs. *)
Lemma extended_gammas_rounds_shape (x_iter_test Y : matrix)
    (counters : list nat) :
  forall (st st' : BMFMCModel.self) (gammas : matrix),
    BMFMCModel.Y_LFs_mc st = Some Y ->
    BMFMCModel.gammas_ext_mc st = Some gammas ->
    mfold (BMFMCModel.extended_gammas_round x_iter_test) counters tt st
    = (Ok tt, st') ->
    exists gammas',
      BMFMCModel.gammas_ext_mc st' = Some gammas' /\
      nrows gammas' = nrows gammas /\
      ncols gammas' = (ncols gammas + length counters * ncols Y)%nat.
Proof.
  induction counters as [|counter counters IH]; intros st st' gammas HY Hg.
  - cbn. unfold mret. intros [= <-]. exists gammas.
    repeat split; [assumption | lia].
  - cbn [mfold]. unfold mbind at 1.
    unfold BMFMCModel.extended_gammas_round at 1.
    unfold mbind, lift, gets, modify. rewrite HY, Hg.
    destruct (BMFMCModel.select_feature x_iter_test (Some Y)) as [sel| |]
      eqn:Esel; try discriminate.
    destruct (np_dot x_iter_test sel) as [test_iter| |] eqn:Edot;
      try discriminate.
    destruct (_linear_scale_a_to_b test_iter Y) as [ft| |] eqn:Escale;
      try discriminate.
    cbn [hstack_opt].
    destruct (hstack gammas ft) as [g1| |] eqn:Eh; try discriminate.
    intros Hrun.
    destruct (IH (BMFMCModel.set_gammas_ext_mc (Some g1) st) st' g1 HY
                 eq_refl Hrun) as [g' [Hg' [Hr' Hc']]].
    destruct (hstack_spec _ _ Eh) as [_ [Hr1 [Hc1 _]]].
    destruct (linear_scale_shape _ _ Escale) as [_ Hcft].
    destruct (np_dot_ncols _ _ Edot) as [Hct _].
    pose proof (@select_feature_ncols _ _ _ Esel) as Hcs.
    exists g'. split; [assumption|]. split; [congruence|].
    rewrite Hc', Hc1, Hcft, Hct, Hcs. cbn [length]. lia.
Qed.

(** X23.  When [calculate_extended_gammas] returns, the array
    [gammas_ext_mc] of the candidate features has one row per sample of
    the reduced input and, for every column of the reduced input, as many
    columns as there are low-fidelity outputs in [Y_LFs_mc]: the loop makes
    one round per column of the reduced input, whatever [num_features]
    is. *)
Theorem extended_gammas_shape (st : BMFMCModel.self) (x_red Y : matrix) :
  BMFMCModel.Y_LFs_mc st = Some Y ->
  fst (BMFMCModel.calculate_extended_gammas (Ok x_red) st) = Ok tt ->
  exists gammas,
    BMFMCModel.gammas_ext_mc
      (snd (BMFMCModel.calculate_extended_gammas (Ok x_red) st))
    = Some gammas /\
    nrows gammas = nrows x_red /\
    ncols gammas = (ncols x_red * ncols Y)%nat.
Proof.
  intros HY.
  assert (Hcalc : BMFMCModel.calculate_extended_gammas (Ok x_red) st
                  = mfold (BMFMCModel.extended_gammas_round x_red)
                          (seq 0 (ncols x_red)) tt
                          (BMFMCModel.set_gammas_ext_mc
                             (Some (Mat 0 (repeat [] (nrows x_red)))) st))
    by reflexivity.
  rewrite Hcalc. clear Hcalc.
  destruct (mfold _ _ _ _) as [[[]| |] s'] eqn:Erun; cbn [fst snd];
    try discriminate.
  intros _.
  destruct (@extended_gammas_rounds_shape x_red Y (seq 0 (ncols x_red))
              (BMFMCModel.set_gammas_ext_mc
                 (Some (Mat 0 (repeat [] (nrows x_red)))) st)
              s' (Mat 0 (repeat [] (nrows x_red))) HY eq_refl Erun)
    as [g [Hg [Hr Hc]]].
  exists g. split; [assumption|]. split.
  - rewrite Hr. unfold nrows. cbn [rows]. apply repeat_length.
  - rewrite Hc, length_seq. reflexivity.
Qed.

Lemma example_extended_gammas_run :
  fst (BMFMCModel.calculate_extended_gammas (Ok example_x_red)
                                            (example_opt_model 2))
  = Ok tt.
Proof.
  unfold BMFMCModel.calculate_extended_gammas.
  unfold mbind at 1. unfold lift at 1. unfold mbind at 1. unfold modify at 1.
  cbn [ncols example_x_red].
  rewrite (@extended_gammas_rounds_repeat example_x_red
             (Mat 1 [[0]; [0]; [2]; [2]]) (Mat 1 [[1]; [0]])
             (Mat 1 [[-1]; [-1]; [1]; [1]]) (Mat 1 [[0]; [0]; [2]; [2]])
             2 0
             example_select_feature example_test_iter example_features_test
             _ (Mat 0 (repeat [] (nrows example_x_red))));
    reflexivity.
Qed.

Lemma extended_gammas_shape_witness :
  exists gammas,
    BMFMCModel.gammas_ext_mc
      (snd (BMFMCModel.calculate_extended_gammas (Ok example_x_red)
                                                 (example_opt_model 2)))
    = Some gammas /\
    nrows gammas = nrows example_x_red /\
    ncols gammas = (ncols example_x_red * 1)%nat.
Proof.
  apply (@extended_gammas_shape (example_opt_model 2) example_x_red
           (Mat 1 [[0]; [0]; [2]; [2]])).
  - reflexivity.
  - exact example_extended_gammas_run.
Defined.

(** ** The reduction of the input dimension *)

Lemma fold_result_app {A S : Type} (f : S -> A -> result S) (l1 l2 : list A)
    (s : S) :
  fold_result f (l1 ++ l2) s = (s' <- fold_result f l1 s ;; fold_result f l2 s').
Proof.
  revert s; induction l1 as [|x l1 IH]; intros s; simpl; [reflexivity|].
  destruct (f s x); cbn [bind]; auto.
Qed.

Lemma truncation_step_unsupported (X_mc : matrix) (n : nat) (thr : R)
    (locals : nat * option (list (string * truncated_field)))
    (field : string * random_field) (basis : string * matrix)
    (values : string * list R) :
  supported_field (snd field) = false ->
  truncation_step X_mc n thr locals (field, (basis, values))
  = Raise AttributeError.
Proof.
  unfold supported_field, truncation_step. intros H.
  destruct (corrstruct (snd field)) as [c|]; [|reflexivity].
  rewrite H. reflexivity.
Qed.

Lemma truncation_step_outcomes (X_mc : matrix) (n : nat) (thr : R)
    (locals : nat * option (list (string * truncated_field)))
    (it : (string * random_field) * ((string * matrix) * (string * list R))) :
  match truncation_step X_mc n thr locals it with
  | Ok (_, d) => d <> None /\ supported_field (snd (fst it)) = true
  | Raise e => e = AttributeError \/ e = KeyError \/ e = IndexError
  | NotReal => False
  end.
Proof.
  destruct it as [field [basis values]]. unfold truncation_step, supported_field.
  cbn [fst snd].
  destruct (corrstruct (snd field)) as [c|]; cbn; [|auto].
  destruct (String.eqb c "non_stationary_squared_exp"); cbn; [|auto].
  destruct (num_points (snd field)); cbn; [|auto].
  unfold idx_truncation_of. destruct (nth_error _ 0); cbn; [|auto].
  split; [discriminate | reflexivity].
Qed.

Lemma truncation_loop_outcomes (X_mc : matrix) (n : nat) (thr : R)
    (items : list ((string * random_field)
                   * ((string * matrix) * (string * list R)))) :
  forall locals,
    match fold_result (truncation_step X_mc n thr) items locals with
    | Ok (_, d) =>
        (items <> [] \/ snd locals <> None -> d <> None) /\
        Forall (fun it => supported_field (snd (fst it)) = true) items
    | Raise e => e = AttributeError \/ e = KeyError \/ e = IndexError
    | NotReal => False
    end.
Proof.
  induction items as [|it items IH]; intros locals; cbn [fold_result].
  - destruct locals as [k d]. cbn [snd]. split; [|constructor].
    intros [C | C]; congruence.
  - pose proof (truncation_step_outcomes X_mc n thr locals it) as Hstep.
    destruct (truncation_step X_mc n thr locals it) as [[k d]| |];
      cbn [bind]; try assumption.
    destruct Hstep as [Hd Hsup].
    specialize (IH (k, d)).
    destruct (fold_result _ items (k, d)) as [[k' d']| |]; try assumption.
    destruct IH as [IH1 IH2]. split.
    + intros _. apply IH1. right. exact Hd.
    + constructor; assumption.
Qed.

(** X24.  [get_random_fields_and_truncated_basis] with a random field
    whose correlation structure is not [non_stationary_squared_exp]
    (among the fields that are zipped with eigenfunctions and
    eigenvalues): the call returns no result, and it does not raise the
    [NotImplementedError] that the source means to raise either, since the
    message of that error cannot be built; what is raised is an
    [AttributeError], or the [KeyError] or [IndexError] of an earlier
    field, or the [TypeError] of a missing attribute. *)
Theorem unsupported_correlation_structure
    (parameters : uncertain_parameters)
    (eigenfunc_random_fields : option (list (string * matrix)))
    (eigenvals : option (list (string * list R)))
    (X_mc : option matrix) (explained_var : R)
    (fields : list (string * random_field)) (bases : list (string * matrix))
    (values : list (string * list R))
    (it : (string * random_field) * ((string * matrix) * (string * list R))) :
  random_fields parameters = Some fields ->
  eigenfunc_random_fields = Some bases ->
  eigenvals = Some values ->
  In it (combine fields (combine bases values)) ->
  supported_field (snd (fst it)) = false ->
  exists e,
    get_random_fields_and_truncated_basis
      parameters eigenfunc_random_fields eigenvals X_mc explained_var
    = Done (Raise e) /\
    e <> NotImplementedError /\
    (e = AttributeError \/ e = KeyError \/ e = IndexError \/ e = TypeError).
Proof.
  intros Hf Hb Hv Hin Hsup. unfold get_random_fields_and_truncated_basis.
  destruct (random_variables parameters) as [variables|].
  2:{ exists TypeError. repeat split; [discriminate | tauto]. }
  destruct X_mc as [X|].
  2:{ exists TypeError. repeat split; [discriminate | tauto]. }
  rewrite Hf, Hb, Hv.
  pose proof (truncation_loop_outcomes X (length variables) explained_var
                (combine fields (combine bases values)) (O, None)) as Hloop.
  destruct (fold_result _ _ _) as [[k d]| e |].
  - destruct Hloop as [_ Hall]. rewrite Forall_forall in Hall.
    rewrite (Hall it Hin) in Hsup. discriminate.
  - exists e. split; [reflexivity|].
    destruct Hloop as [-> | [-> | ->]]; split; try discriminate; tauto.
  - contradiction.
Qed.

Lemma unsupported_correlation_structure_witness :
  exists e,
    get_random_fields_and_truncated_basis
      (example_parameters "squared_exp") (Some example_eigenfunc)
      (Some example_eigenvals) (Some example_field_samples) 95
    = Done (Raise e) /\
    e <> NotImplementedError /\
    (e = AttributeError \/ e = KeyError \/ e = IndexError \/ e = TypeError).
Proof.
  apply (@unsupported_correlation_structure
           (example_parameters "squared_exp") (Some example_eigenfunc)
           (Some example_eigenvals) (Some example_field_samples) 95
           _ _ _
           (("field_b"%string,
             RandomField (Some "squared_exp"%string) (Some 2%nat)),
            (("field_b"%string, Mat 2 [[1; 1]; [1; -1]]),
             ("field_b"%string, [50; 96; 97]))) eq_refl eq_refl eq_refl).
  - simpl. tauto.
  - reflexivity.
Defined.

Lemma truncation_loop_counter (X_mc : matrix) (n : nat) (thr : R)
    (items : list ((string * random_field)
                   * ((string * matrix) * (string * list R)))) :
  forall k0 d0 k d,
    fold_result (truncation_step X_mc n thr) items (k0, d0) = Ok (k, d) ->
    k = (k0 + points_of (map fst items))%nat.
Proof.
  induction items as [|[field [basis values]] items IH]; intros k0 d0 k d;
    cbn [fold_result map points_of fold_right fst].
  - intros [= <- _]. lia.
  - unfold truncation_step at 1. cbn [fst snd].
    destruct (match corrstruct (snd field) with
              | Some c => negb (String.eqb c "non_stationary_squared_exp")
              | None => true
              end); cbn [bind]; [discriminate|].
    destruct (num_points (snd field)) as [p|]; cbn [of_option bind];
      [|discriminate].
    destruct (idx_truncation_of (snd values) thr); cbn [bind];
      try discriminate.
    intros Hrun. apply IH in Hrun. fold (points_of (map fst items)). lia.
Qed.

(** The result of the loop is the entry of its last pass. *)
Lemma truncation_result
    (parameters : uncertain_parameters)
    (eigenfunc_random_fields : option (list (string * matrix)))
    (eigenvals : option (list (string * list R)))
    (X_mc : matrix) (explained_var : R)
    (fields : list (string * random_field)) (bases : list (string * matrix))
    (values : list (string * list R))
    (before : list ((string * random_field)
                    * ((string * matrix) * (string * list R))))
    (field : string * random_field) (basis : string * matrix)
    (value : string * list R)
    (x_uncorr : matrix) (dict : list (string * truncated_field)) :
  random_fields parameters = Some fields ->
  eigenfunc_random_fields = Some bases ->
  eigenvals = Some values ->
  combine fields (combine bases values) = before ++ [(field, (basis, value))] ->
  get_random_fields_and_truncated_basis
    parameters eigenfunc_random_fields eigenvals (Some X_mc) explained_var
  = Done (Ok (x_uncorr, dict)) ->
  exists variables n idx,
    random_variables parameters = Some variables /\
    num_points (snd field) = Some n /\
    idx_truncation_of (snd value) explained_var = Ok idx /\
    x_uncorr = slice_cols X_mc (Z.of_nat (length variables)) /\
    dict = [(fst field,
             TruncatedField
               (Some (slice_cols_from
                        X_mc
                        (length variables + points_of (map fst before)) n))
               (Some (slice_rows (snd basis) idx)))].
Proof.
  intros Hf Hb Hv Hzip. unfold get_random_fields_and_truncated_basis.
  destruct (random_variables parameters) as [variables|]; [|discriminate].
  rewrite Hf, Hb, Hv, Hzip, fold_result_app.
  destruct (fold_result _ before (O, None)) as [[k d]| |] eqn:Ebefore;
    cbn [bind]; try discriminate.
  apply truncation_loop_counter in Ebefore. cbn [Nat.add] in Ebefore.
  subst k. cbn [fold_result]. unfold truncation_step. cbn [fst snd].
  destruct (match corrstruct (snd field) with
            | Some c => negb (String.eqb c "non_stationary_squared_exp")
            | None => true
            end); cbn [bind]; [discriminate|].
  destruct (num_points (snd field)) as [n|]; cbn [of_option bind];
    [|discriminate].
  destruct (idx_truncation_of (snd value) explained_var) as [idx| |];
    cbn [bind]; try discriminate.
  intros [= <- <-]. exists variables, n, idx. repeat split; reflexivity.
Qed.

(** X25.  The dictionary that [get_random_fields_and_truncated_basis]
    returns is created anew in every pass of its loop: when the call
    returns, the dictionary holds one random field only, the last of the
    fields that are zipped with eigenfunctions and eigenvalues, whatever
    their number.  Its samples are the columns of [X_mc] behind the random
    variables and the points of the fields before it, and its basis are
    the eigenfunctions before the first eigenvalue above the threshold. *)
Theorem truncated_basis_of_last_field
    (parameters : uncertain_parameters)
    (eigenfunc_random_fields : option (list (string * matrix)))
    (eigenvals : option (list (string * list R)))
    (X_mc : matrix) (explained_var : R)
    (fields : list (string * random_field)) (bases : list (string * matrix))
    (values : list (string * list R))
    (before : list ((string * random_field)
                    * ((string * matrix) * (string * list R))))
    (field : string * random_field) (basis : string * matrix)
    (value : string * list R)
    (x_uncorr : matrix) (dict : list (string * truncated_field)) :
  random_fields parameters = Some fields ->
  eigenfunc_random_fields = Some bases ->
  eigenvals = Some values ->
  combine fields (combine bases values) = before ++ [(field, (basis, value))] ->
  get_random_fields_and_truncated_basis
    parameters eigenfunc_random_fields eigenvals (Some X_mc) explained_var
  = Done (Ok (x_uncorr, dict)) ->
  exists variables n idx,
    random_variables parameters = Some variables /\
    num_points (snd field) = Some n /\
    idx_truncation_of (snd value) explained_var = Ok idx /\
    x_uncorr = slice_cols X_mc (Z.of_nat (length variables)) /\
    dict = [(fst field,
             TruncatedField
               (Some (slice_cols_from
                        X_mc
                        (length variables + points_of (map fst before)) n))
               (Some (slice_rows (snd basis) idx)))].
Proof.
  intros Hf Hb Hv Hzip Hrun.
  eapply truncation_result; eassumption.
Qed.

Lemma example_truncation_run :
  get_random_fields_and_truncated_basis
    (example_parameters "non_stationary_squared_exp") (Some example_eigenfunc)
    (Some example_eigenvals) (Some example_field_samples) 95
  = Done (Ok (Mat 1 [[1]; [3]],
              [("field_b"%string,
                TruncatedField (Some (Mat 2 [[5; 6]; [7; 6]]))
                               (Some (Mat 2 [[1; 1]])))])).
Proof.
  unfold get_random_fields_and_truncated_basis, example_parameters,
    example_eigenfunc, example_eigenvals, example_field_samples.
  cbn [random_variables random_fields length combine fold_result].
  unfold truncation_step. cbn [fst snd corrstruct num_points].
  cbn [String.eqb Ascii.eqb Bool.eqb negb of_option bind].
  unfold idx_truncation_of, enumerate. cbn [length seq combine filter snd].
  repeat match goal with
         | |- context [Rlt_dec ?a ?b] =>
             destruct (Rlt_dec a b); [try (exfalso; lra) | try (exfalso; lra)]
         end.
  cbn [map fst nth_error of_option bind fold_result].
  cbn [String.eqb Ascii.eqb Bool.eqb negb of_option bind].
  repeat match goal with
         | |- context [Rlt_dec ?a ?b] =>
             destruct (Rlt_dec a b); [try (exfalso; lra) | try (exfalso; lra)]
         end.
  cbn [filter snd map fst nth_error of_option bind].
  reflexivity.
Qed.

Lemma truncated_basis_of_last_field_witness :
  exists variables n idx,
    random_variables (example_parameters "non_stationary_squared_exp")
    = Some variables /\
    num_points (RandomField (Some "non_stationary_squared_exp"%string)
                            (Some 2%nat))
    = Some n /\
    idx_truncation_of [50; 96; 97] 95 = Ok idx /\
    Mat 1 [[1]; [3]]
    = slice_cols example_field_samples (Z.of_nat (length variables)) /\
    [("field_b"%string,
      TruncatedField (Some (Mat 2 [[5; 6]; [7; 6]])) (Some (Mat 2 [[1; 1]])))]
    = [("field_b"%string,
        TruncatedField
          (Some (slice_cols_from
                   example_field_samples
                   (length variables
                    + points_of
                        [("field_a"%string,
                          RandomField
                            (Some "non_stationary_squared_exp"%string)
                            (Some 3%nat))])
                   n))
          (Some (slice_rows (Mat 2 [[1; 1]; [1; -1]]) idx)))].
Proof.
  exact (@truncated_basis_of_last_field
           (example_parameters "non_stationary_squared_exp")
           (Some example_eigenfunc) (Some example_eigenvals)
           example_field_samples 95 _ _ _
           [(("field_a"%string,
              RandomField (Some "non_stationary_squared_exp"%string)
                          (Some 3%nat)),
             (("field_a"%string, Mat 3 [[1; 0; 0]; [0; 1; 0]; [0; 0; 1]]),
              ("field_a"%string, [99; 98; 1])))]
           ("field_b"%string,
            RandomField (Some "non_stationary_squared_exp"%string)
                        (Some 2%nat))
           ("field_b"%string, Mat 2 [[1; 1]; [1; -1]])
           ("field_b"%string, [50; 96; 97])
           _ _ eq_refl eq_refl eq_refl eq_refl example_truncation_run).
Defined.

Lemma wf_hstack (a b z : matrix) :
  wf_matrix a -> wf_matrix b -> hstack a b = Ok z -> wf_matrix z.
Proof.
  intros Ha Hb Hz. destruct (hstack_spec _ _ Hz) as [_ [_ [Hc Hrows]]].
  unfold wf_matrix in *. rewrite Hrows, Hc, Forall_forall.
  rewrite Forall_forall in Ha, Hb.
  intros r Hr. apply in_map_iff in Hr. destruct Hr as [[ra rb] [<- Hin]].
  cbn [fst snd]. rewrite length_app.
  rewrite (Ha ra (in_combine_l _ _ _ _ Hin)),
          (Hb rb (in_combine_r _ _ _ _ Hin)).
  reflexivity.
Qed.

Lemma np_dot_shape (a b : matrix) :
  ncols a = nrows b ->
  exists z, np_dot a b = Ok z /\ nrows z = nrows a /\ ncols z = ncols b /\
            wf_matrix z.
Proof.
  intros H. unfold np_dot. rewrite H, Nat.eqb_refl.
  eexists. split; [reflexivity|]. split; [|split].
  - unfold nrows. cbn [rows]. now rewrite length_map.
  - reflexivity.
  - unfold wf_matrix. cbn [rows ncols]. rewrite Forall_forall.
    intros r Hr. apply in_map_iff in Hr. destruct Hr as [ra [<- _]].
    rewrite length_map. fold (nrows (transpose b)).
    apply nrows_transpose.
Qed.

Lemma project_samples_loop (dict : list (string * truncated_field))
    (num_samples : nat) :
  Forall (fun e => exists s b,
              samples (snd e) = Some s /\ trunc_basis (snd e) = Some b /\
              nrows s = num_samples /\ ncols s = ncols b) dict ->
  forall coefs_mat,
    nrows coefs_mat = num_samples -> wf_matrix coefs_mat ->
    exists z,
      fold_result
        (fun coefs_mat basis =>
           field_samples <- of_option KeyError (samples (snd basis)) ;;
           basis_rows <- of_option KeyError (trunc_basis (snd basis)) ;;
           coefs <- np_dot field_samples (transpose basis_rows) ;;
           hstack coefs_mat coefs)
        dict coefs_mat = Ok z /\
      nrows z = num_samples /\
      ncols z = (ncols coefs_mat + coefficients_of dict)%nat /\
      wf_matrix z.
Proof.
  intros Hall. induction Hall as [|e dict [s [b [Hs [Hb [Hrows Hcols]]]]] _ IH];
    intros coefs_mat Hn Hwf; cbn [fold_result coefficients_of fold_right].
  - exists coefs_mat. repeat split; try assumption. lia.
  - rewrite Hs, Hb. cbn [of_option bind].
    destruct (@np_dot_shape s (transpose b)) as [c [Hc [Hcr [Hcc Hcw]]]].
    { rewrite nrows_transpose. assumption. }
    rewrite Hc. cbn [bind].
    assert (Hst : hstack coefs_mat c
                  = Ok (Mat (ncols coefs_mat + ncols c)
                            (map (fun p => fst p ++ snd p)
                                 (combine (rows coefs_mat) (rows c))))).
    { unfold hstack. rewrite Hn, Hcr, Hrows, Nat.eqb_refl. reflexivity. }
    rewrite Hst.
    destruct (hstack_spec _ _ Hst) as [_ [Hzr [Hzc _]]].
    destruct (IH _ (eq_trans Hzr Hn) (wf_hstack Hwf Hcw Hst))
      as [z [Hz [Hzn [Hzcols Hzw]]]].
    exists z. repeat split; try assumption.
    rewrite Hzcols. fold (coefficients_of dict).
    cbn [ncols] in *. rewrite Hcc. unfold transpose. cbn [ncols]. lia.
Qed.

(** X26.  [_project_samples_on_truncated_basis] on a dictionary whose
    random fields all have [num_samples] samples of as many points as
    their basis functions have: the result has one row per sample and,
    side by side in the order of the dictionary, one coefficient for
    every basis function of every field. *)
Theorem project_samples_shape (dict : list (string * truncated_field))
    (num_samples : nat) :
  Forall (fun e => exists s b,
              samples (snd e) = Some s /\ trunc_basis (snd e) = Some b /\
              nrows s = num_samples /\ ncols s = ncols b) dict ->
  exists coefs_mat,
    _project_samples_on_truncated_basis dict num_samples = Ok coefs_mat /\
    nrows coefs_mat = num_samples /\
    ncols coefs_mat = coefficients_of dict /\
    wf_matrix coefs_mat.
Proof.
  intros Hall. unfold _project_samples_on_truncated_basis.
  destruct (@project_samples_loop dict num_samples Hall
              (Mat 0 (repeat [] num_samples)))
    as [z [Hz [Hn [Hc Hw]]]].
  - unfold nrows. cbn [rows]. apply repeat_length.
  - unfold wf_matrix. cbn [rows ncols]. apply Forall_forall.
    intros r Hr. apply repeat_spec in Hr. now subst r.
  - exists z. repeat split; assumption.
Qed.

Lemma project_samples_shape_witness :
  exists coefs_mat,
    _project_samples_on_truncated_basis
      [("field_b"%string,
        TruncatedField (Some (Mat 2 [[5; 6]; [7; 6]]))
                       (Some (Mat 2 [[1; 1]])))] 2
    = Ok coefs_mat /\
    nrows coefs_mat = 2%nat /\
    ncols coefs_mat
    = coefficients_of
        [("field_b"%string,
          TruncatedField (Some (Mat 2 [[5; 6]; [7; 6]]))
                         (Some (Mat 2 [[1; 1]])))] /\
    wf_matrix coefs_mat.
Proof.
  apply (@project_samples_shape
           [("field_b"%string,
             TruncatedField (Some (Mat 2 [[5; 6]; [7; 6]]))
                            (Some (Mat 2 [[1; 1]])))] 2).
  constructor; [|constructor].
  exists (Mat 2 [[5; 6]; [7; 6]]), (Mat 2 [[1; 1]]).
  repeat split; reflexivity.
Defined.

(** ** The assembly of the reduced input *)

Lemma fit_transform_result_shape (x z : matrix) (sc : scaler) :
  fit_transform (Some x) = Ok (sc, z) ->
  nrows z = nrows x /\ ncols z = ncols x /\
  (0 < nrows x)%nat /\ (0 < ncols x)%nat.
Proof.
  unfold fit_transform, scaler_fit, nrows.
  destruct (rows x) as [|r rs] eqn:Er; [discriminate|].
  destruct (ncols x) as [|c] eqn:Ec; [discriminate|].
  cbn [bind]. intros [= <- <-].
  unfold scaler_transform. cbn [rows ncols]. rewrite Er, length_map.
  repeat split; try assumption; simpl; lia.
Qed.

Lemma fit_transform_empty (x : matrix) :
  nrows x = 0%nat \/ ncols x = 0%nat ->
  fit_transform (Some x) = Raise ValueError.
Proof.
  unfold fit_transform, scaler_fit, nrows. intros [H | H].
  - destruct (rows x); [reflexivity | discriminate].
  - rewrite H. destruct (rows x); reflexivity.
Qed.

Lemma slice_cols_shape (m : matrix) (k : nat) :
  ncols (slice_cols m (Z.of_nat k)) = Nat.min k (ncols m) /\
  nrows (slice_cols m (Z.of_nat k)) = nrows m.
Proof.
  unfold slice_cols.
  destruct (Z.of_nat k <? 0)%Z eqn:E; [apply Z.ltb_lt in E; lia|].
  rewrite Nat2Z.id. cbn [ncols]. split; [reflexivity|].
  unfold nrows. cbn [rows]. apply length_map.
Qed.

(** X27.  [_assemble_x_red_stdizd] returns a matrix with the rows of its
    arguments and the columns of both, when the two have the same number
    of rows, at least one row and at least one column between them.  With
    different numbers of rows the join raises [ValueError]; without a row
    or without any column the standardization raises [ValueError]. *)
Theorem assemble_x_red_shape (x_uncorr coef_mat : matrix) :
  (nrows x_uncorr <> nrows coef_mat ->
   _assemble_x_red_stdizd x_uncorr coef_mat = Raise ValueError) /\
  (nrows x_uncorr = nrows coef_mat ->
   nrows x_uncorr = 0%nat \/ (ncols x_uncorr + ncols coef_mat)%nat = 0%nat ->
   _assemble_x_red_stdizd x_uncorr coef_mat = Raise ValueError) /\
  (nrows x_uncorr = nrows coef_mat ->
   (0 < nrows x_uncorr)%nat ->
   (0 < ncols x_uncorr + ncols coef_mat)%nat ->
   exists x_red,
     _assemble_x_red_stdizd x_uncorr coef_mat = Ok x_red /\
     nrows x_red = nrows x_uncorr /\
     ncols x_red = (ncols x_uncorr + ncols coef_mat)%nat).
Proof.
  unfold _assemble_x_red_stdizd. split; [|split].
  - intros Hne. unfold hstack. apply Nat.eqb_neq in Hne. now rewrite Hne.
  - intros Hrows Hempty.
    assert (Hst : hstack x_uncorr coef_mat
                  = Ok (Mat (ncols x_uncorr + ncols coef_mat)
                            (map (fun p => fst p ++ snd p)
                                 (combine (rows x_uncorr) (rows coef_mat))))).
    { unfold hstack. rewrite Hrows, Nat.eqb_refl. reflexivity. }
    rewrite Hst. cbn [bind].
    destruct (hstack_spec _ _ Hst) as [_ [Hzr [Hzc _]]].
    rewrite fit_transform_empty; [reflexivity|].
    rewrite Hzr, Hzc. exact Hempty.
  - intros Hrows Hn Hc.
    assert (Hst : hstack x_uncorr coef_mat
                  = Ok (Mat (ncols x_uncorr + ncols coef_mat)
                            (map (fun p => fst p ++ snd p)
                                 (combine (rows x_uncorr) (rows coef_mat))))).
    { unfold hstack. rewrite Hrows, Nat.eqb_refl. reflexivity. }
    rewrite Hst. cbn [bind].
    destruct (hstack_spec _ _ Hst) as [_ [Hzr [Hzc _]]].
    destruct (@fit_transform_shape
                (Mat (ncols x_uncorr + ncols coef_mat)
                     (map (fun p => fst p ++ snd p)
                          (combine (rows x_uncorr) (rows coef_mat)))))
      as [sc Hfit]; [lia | rewrite Hzc; lia |].
    rewrite Hfit. cbn [bind snd]. eexists. split; [reflexivity|].
    destruct (@fit_transform_result_shape _ _ _ Hfit) as [Hr [Hcz _]].
    split; congruence.
Qed.

(** The reduced input of one training input and one coefficient on two
    samples. *)
Lemma assemble_x_red_shape_witness :
  exists x_red,
    _assemble_x_red_stdizd (Mat 1 [[1]; [3]]) (Mat 1 [[11]; [13]])
    = Ok x_red /\
    nrows x_red = 2%nat /\ ncols x_red = 2%nat.
Proof.
  apply (proj2 (proj2 (assemble_x_red_shape (Mat 1 [[1]; [3]])
                                            (Mat 1 [[11]; [13]]))));
    [reflexivity | |]; unfold nrows; simpl; lia.
Defined.

(** X28.  When [input_dim_red] returns, the reduced input has one row per
    Monte-Carlo sample; its columns are the random variables that [X_mc]
    has, followed by one coefficient per basis function of the last
    random field only, since the fields before it are not in the
    dictionary of truncated bases. *)
Theorem input_dim_red_shape
    (parameters : uncertain_parameters)
    (eigenfunc_random_fields : option (list (string * matrix)))
    (eigenvals : option (list (string * list R)))
    (X_mc : matrix)
    (fields : list (string * random_field)) (bases : list (string * matrix))
    (values : list (string * list R))
    (before : list ((string * random_field)
                    * ((string * matrix) * (string * list R))))
    (field : string * random_field) (basis : string * matrix)
    (value : string * list R) (x_red : matrix) :
  random_fields parameters = Some fields ->
  eigenfunc_random_fields = Some bases ->
  eigenvals = Some values ->
  combine fields (combine bases values) = before ++ [(field, (basis, value))] ->
  input_dim_red parameters eigenfunc_random_fields eigenvals (Some X_mc)
  = Done (Ok x_red) ->
  exists variables idx,
    random_variables parameters = Some variables /\
    idx_truncation_of (snd value) 95 = Ok idx /\
    nrows x_red = nrows X_mc /\
    ncols x_red = (Nat.min (length variables) (ncols X_mc)
                   + Nat.min idx (nrows (snd basis)))%nat.
Proof.
  intros Hf Hb Hv Hzip. unfold input_dim_red.
  destruct (get_random_fields_and_truncated_basis _ _ _ _ _)
    as [[[x_uncorr dict]| |]|] eqn:Eget; try discriminate.
  destruct (@truncation_result parameters eigenfunc_random_fields eigenvals
              X_mc 95 fields bases values before field basis value
              x_uncorr dict Hf Hb Hv Hzip Eget)
    as [variables [n [idx [Hvars [Hn [Hidx [Hx Hd]]]]]]].
  subst x_uncorr dict.
  cbn [option_map of_option bind].
  unfold _project_samples_on_truncated_basis.
  cbn [fold_result snd samples trunc_basis of_option bind].
  set (s := slice_cols_from X_mc _ n).
  set (b := slice_rows (snd basis) idx).
  destruct (np_dot s (transpose b)) as [coefs| |] eqn:Edot; cbn [bind];
    try discriminate.
  destruct (hstack (Mat 0 (repeat [] (nrows X_mc))) coefs)
    as [coefs_mat| |] eqn:Ecoefs; cbn [bind]; try discriminate.
  intros Hrun. injection Hrun as Hrun.
  destruct (slice_cols_shape X_mc (length variables)) as [Hcx Hrx].
  destruct (np_dot_ncols _ _ Edot) as [Hcc _].
  destruct (hstack_spec _ _ Ecoefs) as [_ [_ [Hcmc _]]].
  cbn [ncols] in Hcmc.
  unfold _assemble_x_red_stdizd in Hrun.
  destruct (hstack (slice_cols X_mc (Z.of_nat (length variables))) coefs_mat)
    as [x| |] eqn:Ex; cbn [bind] in Hrun; try discriminate.
  destruct (hstack_spec _ _ Ex) as [_ [Hxr [Hxc _]]].
  destruct (fit_transform (Some x)) as [[sc z]| |] eqn:Efit;
    cbn [bind snd] in Hrun; try discriminate.
  injection Hrun as ->.
  destruct (@fit_transform_result_shape _ _ _ Efit) as [Hzr [Hzc _]].
  exists variables, idx. split; [assumption|]. split; [assumption|].
  split; [congruence|].
  rewrite Hzc, Hxc, Hcx, Hcmc, Hcc. unfold transpose, b, slice_rows.
  cbn [ncols]. unfold nrows. cbn [rows]. rewrite length_firstn. reflexivity.
Qed.

Lemma example_assemble :
  fit_transform (Some (Mat 2 [[1; 11]; [3; 13]]))
  = Ok (Scaler [2; 12] [1; 1], Mat 2 [[-1; -1]; [1; 1]]).
Proof.
  unfold fit_transform, scaler_fit, scaler_transform. cbn [rows ncols bind].
  cbn [transpose rows ncols nrows seq map nth length].
  assert (Hm0 : Rsum [1; 3] / INR 2 = 2) by (cbn; lra).
  assert (Hm1 : Rsum [11; 13] / INR 2 = 12) by (cbn; lra).
  rewrite !Hm0, !Hm1.
  assert (Hv0 : Rsum [(1 - 2) ^ 2; (3 - 2) ^ 2] / INR 2 = 1) by (cbn; lra).
  assert (Hv1 : Rsum [(11 - 12) ^ 2; (13 - 12) ^ 2] / INR 2 = 1)
    by (cbn; lra).
  rewrite !Hv0, !Hv1. unfold Req_bool. Rdecide. rewrite sqrt_1.
  cbn [combine map fst snd mean_ scale_].
  repeat f_equal; lra.
Qed.

Lemma example_input_dim_red :
  input_dim_red (example_parameters "non_stationary_squared_exp")
                (Some example_eigenfunc) (Some example_eigenvals)
                (Some example_field_samples)
  = Done (Ok (Mat 2 [[-1; -1]; [1; 1]])).
Proof.
  unfold input_dim_red. rewrite example_truncation_run.
  cbn [option_map of_option bind].
  unfold _project_samples_on_truncated_basis.
  cbn [fold_result snd samples trunc_basis of_option bind].
  assert (Hdot : np_dot (Mat 2 [[5; 6]; [7; 6]]) (transpose (Mat 2 [[1; 1]]))
                 = Ok (Mat 1 [[11]; [13]])).
  { unfold np_dot. cbn. repeat f_equal; lra. }
  rewrite Hdot. cbn [bind].
  unfold _assemble_x_red_stdizd, hstack, nrows, example_field_samples.
  cbn [rows length repeat Nat.eqb ncols combine map fst snd app Nat.add bind].
  rewrite example_assemble. reflexivity.
Qed.

Lemma input_dim_red_shape_witness :
  exists variables idx,
    random_variables (example_parameters "non_stationary_squared_exp")
    = Some variables /\
    idx_truncation_of [50; 96; 97] 95 = Ok idx /\
    nrows (Mat 2 [[-1; -1]; [1; 1]]) = nrows example_field_samples /\
    ncols (Mat 2 [[-1; -1]; [1; 1]])
    = Nat.add (Nat.min (length variables) (ncols example_field_samples))
              (Nat.min idx (nrows (Mat 2 [[1; 1]; [1; -1]]))).
Proof.
  apply (@input_dim_red_shape
           (example_parameters "non_stationary_squared_exp")
           (Some example_eigenfunc) (Some example_eigenvals)
           example_field_samples
           [("field_a"%string,
             RandomField (Some "non_stationary_squared_exp"%string)
                         (Some 3%nat));
            ("field_b"%string,
             RandomField (Some "non_stationary_squared_exp"%string)
                         (Some 2%nat))]
           example_eigenfunc example_eigenvals
           [(("field_a"%string,
              RandomField (Some "non_stationary_squared_exp"%string)
                          (Some 3%nat)),
             (("field_a"%string, Mat 3 [[1; 0; 0]; [0; 1; 0]; [0; 0; 1]]),
              ("field_a"%string, [99; 98; 1])))]
           ("field_b"%string,
            RandomField (Some "non_stationary_squared_exp"%string)
                        (Some 2%nat))
           ("field_b"%string, Mat 2 [[1; 1]; [1; -1]])
           ("field_b"%string, [50; 96; 97])
           (Mat 2 [[-1; -1]; [1; 1]])).
  - reflexivity.
  - reflexivity.
  - reflexivity.
  - reflexivity.
  - exact example_input_dim_red.
Defined.

(** ** Time features *)

Lemma in_repeated (tv : list R) (r : nat) (x : R) :
  In x (flat_map (fun t => repeat t r) tv) -> In x tv.
Proof.
  intros H. apply in_flat_map in H. destruct H as [t [Ht Hx]].
  apply repeat_spec in Hx. now subst x.
Qed.

Lemma repeated_in (tv : list R) (r : nat) (x : R) :
  (0 < r)%nat -> In x tv -> In x (flat_map (fun t => repeat t r) tv).
Proof.
  intros Hr H. apply in_flat_map. exists x. split; [assumption|].
  destruct r; [lia | now left].
Qed.

Lemma length_repeated (tv : list R) (r : nat) :
  length (flat_map (fun t => repeat t r) tv) = (length tv * r)%nat.
Proof.
  induction tv as [|t tv IH]; [reflexivity|].
  cbn [flat_map]. rewrite length_app, repeat_length, IH. reflexivity.
Qed.

Lemma combine_singletons (ra : list (list R)) (col : list R) :
  map (fun p : list R * list R => fst p ++ snd p)
      (combine ra (map (fun t => [t]) col))
  = map (fun p : list R * R => fst p ++ [snd p]) (combine ra col).
Proof.
  revert col; induction ra as [|r ra IH]; intros [|t col]; simpl;
    try reflexivity.
  now rewrite IH.
Qed.

(** X29.  [time_features] in the iterator, for observation times whose
    maximum is not zero: every time is repeated
    [(n * num_coords) // len(time_vec)] times, for [n] training inputs,
    divided by the largest time and mapped to
    [t / t_max * (max(y_obs_vec) - min(y_obs_vec)) + min(y_obs_vec)]; the
    scaled times overwrite [time_vec] and are joined to [Y_LF_train] as its
    last column, which needs as many rows as there are scaled times. *)
Theorem time_features_scaled (st : BMFIAIterator.self) (X Y : matrix)
    (tv yo : list R) (t_max y_min y_max : R) :
  BMFIAIterator.X_train st = Some X ->
  BMFIAIterator.features_config (BMFIAIterator.settings_probab_mapping st)
  = Some "time_features"%string ->
  BMFIAIterator.time_vec st = Some tv ->
  BMFIAIterator.y_obs_vec st = Some yo ->
  BMFIAIterator.Y_LF_train st = Some Y ->
  np_max tv = Ok t_max -> t_max <> 0 ->
  np_min yo = Ok y_min -> np_max yo = Ok y_max ->
  (0 < Nat.div (nrows X * nrows (BMFIAIterator.coords_experimental_data st))
               (length tv))%nat ->
  nrows Y
  = (length tv
     * Nat.div (nrows X * nrows (BMFIAIterator.coords_experimental_data st))
               (length tv))%nat ->
  exists Z,
    let scaled :=
      map (fun t => t / t_max * (y_max - y_min) + y_min)
          (flat_map
             (fun t =>
                repeat t
                  (Nat.div
                     (nrows X
                      * nrows (BMFIAIterator.coords_experimental_data st))
                     (length tv)))
             tv) in
    fst (BMFIAIterator._set_feature_strategy st) = Ok tt /\
    BMFIAIterator.time_vec (snd (BMFIAIterator._set_feature_strategy st))
    = Some scaled /\
    BMFIAIterator.Z_train (snd (BMFIAIterator._set_feature_strategy st))
    = Some (BMFIAIterator.Arr2 Z) /\
    ncols Z = (ncols Y + 1)%nat /\
    rows Z = map (fun p => fst p ++ [snd p]) (combine (rows Y) scaled) /\
    length scaled = nrows Y.
Proof.
  intros HX Hcfg Htv Hyo HY Htmax Htne Hymin Hymax Hr Hrows.
  set (r := Nat.div (nrows X
                     * nrows (BMFIAIterator.coords_experimental_data st))
                    (length tv)) in *.
  set (rep := flat_map (fun t => repeat t r) tv).
  destruct (np_max_spec _ Htmax) as [Htin Htall].
  assert (Hrepne : rep <> []).
  { intros C. pose proof (@repeated_in tv r _ Hr Htin) as Hx. fold rep in Hx.
    rewrite C in Hx. contradiction. }
  destruct (np_max_nonempty Hrepne) as [t_max' Htmax'].
  destruct (np_max_spec _ Htmax') as [Htin' Htall'].
  assert (t_max' = t_max).
  { rewrite Forall_forall in Htall, Htall'.
    pose proof (Htall _ (@in_repeated tv r _ Htin')).
    pose proof (Htall' _ (@repeated_in tv r _ Hr Htin)). lra. }
  subst t_max'.
  assert (Hunit : map_result (fun t => np_divide t t_max) rep
                  = Ok (map (fun t => t / t_max) rep)).
  { apply map_result_ok. intros t _. unfold np_divide.
    destruct (Req_dec_T t_max 0); [contradiction | reflexivity]. }
  set (scaled := map (fun t => t / t_max * (y_max - y_min) + y_min) rep).
  assert (Hlen : length scaled = nrows Y).
  { unfold scaled, rep. rewrite length_map, length_repeated. congruence. }
  assert (Hrun : BMFIAIterator._set_feature_strategy st
                 = (Ok tt,
                    BMFIAIterator.set_Z_train
                      (Some (BMFIAIterator.Arr2
                               (Mat (ncols Y + 1)
                                    (map (fun p => fst p ++ snd p)
                                         (combine (rows Y)
                                            (map (fun t => [t]) scaled))))))
                      (BMFIAIterator.set_time_vec (Some scaled)
                         (BMFIAIterator.set_time_vec (Some rep)
                            (BMFIAIterator.set_coords_experimental_data
                               (tile_rows
                                  (BMFIAIterator.coords_experimental_data st)
                                  (nrows X))
                               st))))).
  { unfold BMFIAIterator._set_feature_strategy.
    unfold mbind, mret, lift, gets, modify, require.
    rewrite HX. cbn. rewrite Hcfg. cbn. rewrite Htv. cbn.
    rewrite length_concat_repeat.
    fold (nrows (BMFIAIterator.coords_experimental_data st)).
    assert (Hdiv : match length tv with
                   | O => Raise ZeroDivisionError
                   | S _ =>
                       Ok (Nat.div
                             (nrows X
                              * nrows (BMFIAIterator.coords_experimental_data
                                         st))
                             (length tv))
                   end = Ok r).
    { unfold r. destruct tv; [discriminate | reflexivity]. }
    rewrite Hdiv. fold rep. rewrite Htmax', Hunit, Hyo. cbn [of_option].
    rewrite Hymax, Hymin, HY. cbn [hstack_opt].
    rewrite (map_map (fun t => t / t_max)).
    change (map (fun x => x / t_max * (y_max - y_min) + y_min) rep)
      with scaled.
    assert (Hh : hstack Y (Mat 1 (map (fun t => [t]) scaled))
                 = Ok (Mat (ncols Y + 1)
                           (map (fun p => fst p ++ snd p)
                                (combine (rows Y)
                                         (map (fun t => [t]) scaled))))).
    { unfold hstack.
      replace (nrows (Mat 1 (map (fun t => [t]) scaled))) with (nrows Y)
        by (unfold nrows at 2; cbn [rows]; now rewrite length_map).
      rewrite Nat.eqb_refl. reflexivity. }
    rewrite Hh. reflexivity. }
  eexists.
  cbv zeta. fold r. fold rep. fold scaled. rewrite Hrun. cbn [fst snd].
  split; [reflexivity|]. split; [reflexivity|]. split; [reflexivity|].
  cbn [ncols rows]. split; [reflexivity|]. split.
  - apply combine_singletons.
  - exact Hlen.
Qed.

Lemma time_features_scaled_witness :
  exists Z,
    let scaled :=
      map (fun t => t / 4 * (3 - 1) + 1)
          (flat_map (fun t => repeat t 1) [0; 4]) in
    fst (BMFIAIterator._set_feature_strategy example_time_iterator) = Ok tt /\
    BMFIAIterator.time_vec
      (snd (BMFIAIterator._set_feature_strategy example_time_iterator))
    = Some scaled /\
    BMFIAIterator.Z_train
      (snd (BMFIAIterator._set_feature_strategy example_time_iterator))
    = Some (BMFIAIterator.Arr2 Z) /\
    ncols Z = (1 + 1)%nat /\
    rows Z = map (fun p => fst p ++ [snd p]) (combine [[5]; [6]] scaled) /\
    length scaled = 2%nat.
Proof.
  apply (@time_features_scaled example_time_iterator (Mat 1 [[1]])
           (Mat 1 [[5]; [6]]) [0; 4] [1; 3; 2] 4 1 3);
    try reflexivity.
  - cbn [np_max fold_left]. Rdecide. reflexivity.
  - lra.
  - cbn [np_min fold_left]. Rdecide. reflexivity.
  - cbn [np_max fold_left]. Rdecide. reflexivity.
  - unfold nrows. simpl. lia.
Defined.

(** ** [opt_features] without candidate features *)

(** X30.  [opt_features] in the model reads the candidate features from
    [gammas_ext_mc], which only [calculate_extended_gammas] assigns and
    which no method of the class calls: on a model whose [gammas_ext_mc]
    is still [None], [set_feature_strategy] with a valid [num_features]
    raises [TypeError] and assigns nothing, and [build_approximation]
    raises it right after the lookup of the training data. *)
Theorem opt_features_needs_extended_gammas (st : BMFMCModel.self) (k : Z) :
  BMFMCModel.features_config (BMFMCModel.settings_probab_mapping st)
  = Some "opt_features"%string ->
  BMFMCModel.num_features (BMFMCModel.settings_probab_mapping st) = Some k ->
  (1 <= k)%Z ->
  BMFMCModel.gammas_ext_mc st = None ->
  BMFMCModel.set_feature_strategy st = (Raise TypeError, st) /\
  forall st1,
    BMFMCModel.get_hf_training_data st = (Ok tt, st1) ->
    BMFMCModel.build_approximation true st = (Raise TypeError, st1).
Proof.
  intros Hcfg Hnum Hk Hg.
  assert (Hlt : (k <? 1)%Z = false) by (apply Z.ltb_ge; lia).
  assert (Hraise : forall s,
            BMFMCModel.settings_probab_mapping s
            = BMFMCModel.settings_probab_mapping st ->
            BMFMCModel.gammas_ext_mc s = None ->
            BMFMCModel.set_feature_strategy s = (Raise TypeError, s)).
  { intros s Hs Hgs. unfold BMFMCModel.set_feature_strategy,
      BMFMCModel.update_probabilistic_mapping_with_features.
    method_unfold. rewrite Hs, Hcfg. cbn. rewrite Hs, Hnum, Hlt.
    rewrite Hs, Hnum, Hgs. reflexivity. }
  split; [apply Hraise; [reflexivity | assumption]|].
  intros st1 Hget. unfold BMFMCModel.build_approximation.
  unfold mbind at 1. unfold mbind at 1. unfold mbind at 1. rewrite Hget.
  unfold mbind at 1. unfold mbind at 1.
  rewrite Hraise; [reflexivity | |].
  - pose proof (get_hf_training_data_preserves st) as Hp.
    rewrite Hget in Hp. cbn [snd] in Hp. unfold sampling_data in Hp.
    injection Hp as _ _ _ _ _ Hs _ _ _ _ _ _. exact Hs.
  - revert Hget. unfold BMFMCModel.get_hf_training_data. method_unfold.
    destruct (BMFMCModel.X_train st); [|discriminate].
    destruct (BMFMCModel.Y_HF_mc st); [|discriminate].
    destruct (match ncols m with O => _ | S _ => _ end); try discriminate.
    destruct (map_result _ a); try discriminate.
    intros [= <-]. exact Hg.
Qed.

Lemma opt_features_needs_extended_gammas_witness :
  BMFMCModel.set_feature_strategy (example_opt_model 2)
  = (Raise TypeError, example_opt_model 2) /\
  forall st1,
    BMFMCModel.get_hf_training_data (example_opt_model 2) = (Ok tt, st1) ->
    BMFMCModel.build_approximation true (example_opt_model 2)
    = (Raise TypeError, st1).
Proof.
  apply (@opt_features_needs_extended_gammas (example_opt_model 2) 2);
    try reflexivity.
  lia.
Defined.
